(** * Gonka tracker backend: aggregation and caching engine

    A shallow embedding of [backend/models.py], [backend/database.py] and
    [backend/service.py].  Python integers are [Z]; dictionaries used as
    maps are [gmap]; SQLite tables are finite maps or row lists; the
    service methods are functions in a state-and-exception monad over the
    service object's fields, the cache database and the queue of tasks
    handed to [asyncio.create_task].  The upstream client ([GonkaClient])
    is a record of oracles. *)

From stdpp Require Import base option list gmap strings sorting.
From Stdlib Require Import ZArith Lia Ascii String.

Open Scope Z_scope.

(** ** Python primitives *)

Module Py.

(** Exceptions that reach the modelled code. *)
Inductive exn :=
| UpstreamUnavailable            (* every base URL of the client failed *)
| UpstreamError (msg : string)   (* any other exception out of the client *)
| InvalidHeight (epoch_id requested effective : Z)
                                 (* the ValueError of get_canonical_height *)
| ValueError                     (* int() on a malformed literal *)
| ZeroDivisionError
| OverflowError
| IntegrityError.                (* SQLite constraint violation *)

Inductive result (A : Type) :=
| Ok (a : A)
| Raise (e : exn).
Arguments Ok {A} a.
Arguments Raise {A} e.

(** *** [int(s)] on a string *)

Definition is_space (c : ascii) : bool :=
  let n := N_of_ascii c in
  (n =? 32)%N || ((9 <=? n)%N && (n <=? 13)%N).

Definition digit_of (c : ascii) : option Z :=
  let n := N_of_ascii c in
  if ((48 <=? n)%N && (n <=? 57)%N)%bool then Some (Z.of_N n - 48) else None.

Fixpoint lstrip (s : string) : string :=
  match s with
  | String c r => if is_space c then lstrip r else s
  | EmptyString => s
  end.

Fixpoint rstrip (s : string) : string :=
  match s with
  | String c r =>
      match rstrip r with
      | EmptyString => if is_space c then EmptyString else String c EmptyString
      | r' => String c r'
      end
  | EmptyString => s
  end.

Definition strip (s : string) : string := rstrip (lstrip s).

(** Digits with single underscores between them; [after_digit] says that
    the previous character was a digit. *)
Fixpoint int_digits (acc : Z) (after_digit : bool) (s : string) : option Z :=
  match s with
  | EmptyString => if after_digit then Some acc else None
  | String c r =>
      match digit_of c with
      | Some d => int_digits (10 * acc + d) true r
      | None =>
          if (Ascii.eqb c "_" && after_digit)%bool
          then int_digits acc false r
          else None
      end
  end.

(** [int(s)] for a decimal literal: surrounding whitespace, an optional
    sign, digits.  Anything else raises ValueError. *)
Definition int (s : string) : result Z :=
  let body :=
    match strip s with
    | String "-" r => Z.opp <$> int_digits 0 false r
    | String "+" r => int_digits 0 false r
    | r => int_digits 0 false r
    end in
  match body with
  | Some z => Ok z
  | None => Raise ValueError
  end.

(** *** Floats

    A finite binary64 value is carried as mantissa and exponent,
    [mant * 2^expo], with at most 53 mantissa bits and [expo >= -1074]. *)
Record float := Float { mant : Z; expo : Z }.

(** Nearest integer to [p / q] for [0 < q], ties to even. *)
Definition rne (p q : Z) : Z :=
  let f := p / q in
  let r := p mod q in
  if 2 * r <? q then f
  else if q <? 2 * r then f + 1
  else if Z.even f then f else f + 1.

(** Exponent of the binary64 nearest to [p / q] ([0 < p], [0 < q]): the
    [e] with [2^52 <= p / q / 2^e < 2^53], not below the subnormal
    exponent. *)
Definition b64_exponent (p q : Z) : Z :=
  let d := Z.log2 p - Z.log2 q in
  let e := if q * 2 ^ Z.max 0 d <=? p * 2 ^ Z.max 0 (- d)
           then d - 52 else d - 53 in
  Z.max e (-1074).

(** [a / b] on Python integers: the correctly rounded binary64 quotient. *)
Definition truediv (a b : Z) : result float :=
  if b =? 0 then Raise ZeroDivisionError
  else if a =? 0 then Ok (Float 0 0)
  else
    let p := Z.abs a in
    let q := Z.abs b in
    let e := b64_exponent p q in
    let n := rne (p * 2 ^ Z.max 0 (- e)) (q * 2 ^ Z.max 0 e) in
    if (971 <? e) || ((e =? 971) && (2 ^ 53 <=? n))
    then Raise OverflowError
    else Ok (Float (Z.sgn a * Z.sgn b * n) e).

(** [round(x, 4)]: the exact value of [x] rounded half-even to four
    decimals.  The float returned is the binary64 nearest to
    [k / 10^4], which [repr] prints as that decimal; the model carries
    [k], the number of ten-thousandths. *)
Definition round4 (x : float) : Z :=
  rne (10000 * mant x * 2 ^ Z.max 0 (expo x)) (2 ^ Z.max 0 (- expo x)).

(** Truthiness of an optional integer ([None] and [0] are falsy) and the
    value of [a or b]. *)
Definition truthy_int (o : option Z) : bool :=
  match o with
  | Some z => negb (z =? 0)
  | None => false
  end.

Definition or_int (a b : option Z) : option Z :=
  if truthy_int a then a else b.

End Py.

Export Py (exn(..), result(..), float(..)).

(** ** models.py *)

Module Models.

Record CurrentEpochStats := {
  inference_count : string;
  missed_requests : string;
  earned_coins : string;
  rewarded_coins : string;
  burned_coins : string;
  validated_inferences : string;
  invalidated_inferences : string;
}.

Record ParticipantStats := {
  index : string;
  address : string;
  weight : Z;
  validator_key : option string;
  inference_url : option string;
  status : option string;
  models : list string;
  current_epoch_stats : CurrentEpochStats;
  is_jailed : option bool;
  jailed_until : option string;
  ready_to_unjail : option bool;
  node_healthy : option bool;
  node_health_checked_at : option string;
  moniker : option string;
  identity : option string;
  keybase_username : option string;
  keybase_picture_url : option string;
  website : option string;
  validator_consensus_key : option string;
  consensus_key_mismatch : option bool;
}.

(** The computed fields; the result counts ten-thousandths (see
    [Py.round4]). *)
Definition missed_rate (self : ParticipantStats) : result Z :=
  match Py.int (missed_requests (current_epoch_stats self)) with
  | Raise e => Raise e
  | Ok missed =>
      match Py.int (inference_count (current_epoch_stats self)) with
      | Raise e => Raise e
      | Ok inferences =>
          let total := missed + inferences in
          if total =? 0 then Ok 0
          else match Py.truediv missed total with
               | Raise e => Raise e
               | Ok x => Ok (Py.round4 x)
               end
      end
  end.

Definition invalidation_rate (self : ParticipantStats) : result Z :=
  match Py.int (invalidated_inferences (current_epoch_stats self)) with
  | Raise e => Raise e
  | Ok invalidated =>
      match Py.int (inference_count (current_epoch_stats self)) with
      | Raise e => Raise e
      | Ok inferences =>
          if inferences =? 0 then Ok 0
          else match Py.truediv invalidated inferences with
               | Raise e => Raise e
               | Ok x => Ok (Py.round4 x)
               end
      end
  end.

Record InferenceResponse := {
  epoch_id : Z;
  height : Z;
  participants : list ParticipantStats;
  cached_at : option string;
  is_current : bool;
  total_assigned_rewards_gnk : option Z;
}.

Record RewardInfo := {
  ri_epoch_id : Z;
  assigned_reward_gnk : Z;
  claimed : bool;
}.

Record SeedInfo := {
  participant : string;
  epoch_index : Z;
  signature : string;
}.

Record WarmKeyInfo := {
  wk_grantee_address : string;
  wk_granted_at : string;
}.

Record HardwareInfo := { type : string; count : Z }.

Record MLNodeInfo := {
  ml_local_id : string;
  ml_status : string;
  ml_models : list string;
  hardware : list HardwareInfo;
  host : string;
  port : string;
  poc_weight : option Z;
}.

Record ParticipantDetailsResponse := {
  pd_participant : ParticipantStats;
  rewards : list RewardInfo;
  seed : option SeedInfo;
  warm_keys : list WarmKeyInfo;
  ml_nodes : list MLNodeInfo;
}.

Record ModelInfo := {
  id : string;
  mi_total_weight : Z;
  mi_participant_count : Z;
  proposed_by : string;
  v_ram : string;
  throughput_per_nonce : string;
  units_of_compute_per_token : string;
  hf_repo : string;
  hf_commit : string;
  model_args : list string;
  validation_threshold : list (string * string);
}.

Record ModelStats := {
  model : string;
  ai_tokens : string;
  inferences : Z;
}.

Record ModelsResponse := {
  mr_epoch_id : Z;
  mr_height : Z;
  mr_models : list ModelInfo;
  stats : list ModelStats;
  mr_cached_at : string;
  mr_is_current : bool;
}.

End Models.

(** ** The upstream client

    [backend/client.py] is used through its interface only.  One value
    of [GonkaClient] fixes what every endpoint answers while one service
    call runs; different calls may be given different clients.  A payload
    key read with [.get(key, default)] is a field that already holds the
    default when the key is absent. *)

Module Upstream.

Record MLNode := {
  node_id : option string;
  node_poc_weight : option Z;
}.

(** One entry of a participant's ["ml_nodes"] list. *)
Record MLNodesEntry := { ml_nodes : list MLNode }.

Record EpochParticipant := {
  ep_index : string;
  ep_weight : Z;
  ep_models : list string;
  ep_validator_key : option string;
  ep_inference_url : option string;
  ep_seed_signature : option string;
  ep_ml_nodes : list MLNodesEntry;
}.

(** The ["active_participants"] object of an epoch group. *)
Record EpochGroup := {
  epoch_group_id : Z;
  effective_block_height : Z;
  participants : list EpochParticipant;
}.

Record LatestEpoch := {
  latest_epoch_index : Z;
  next_poc_start : Z;
}.

(** One element of ["participant"]; [rp_current_epoch_stats] is [None]
    when the payload does not validate as [CurrentEpochStats]. *)
Record RawParticipant := {
  rp_index : string;
  rp_address : string;
  rp_inference_url : option string;
  rp_status : option string;
  rp_current_epoch_stats : option Models.CurrentEpochStats;
}.

Record PerformanceSummary := {
  ps_rewarded_coins : string;
  ps_claimed : bool;
}.

Record WarmKey := {
  grantee_address : string;
  granted_at : string;
}.

Record Hardware := { hw_type : string; hw_count : Z }.

Record HardwareNode := {
  local_id : string;
  hn_status : string;
  hn_models : list string;
  hn_hardware : list Hardware;
  hn_host : string;
  hn_port : string;
  hn_poc_weight : option Z;
}.

Record JailStatus := {
  js_participant_index : string;
  js_is_jailed : bool;
  js_jailed_until : option string;
  js_ready_to_unjail : option bool;
  js_valcons_address : option string;
  js_moniker : option string;
  js_identity : option string;
  js_keybase_username : option string;
  js_keybase_picture_url : option string;
  js_website : option string;
  js_validator_consensus_key : option string;
  js_consensus_key_mismatch : option bool;
}.

Record NodeHealth := {
  nh_participant_index : string;
  nh_is_healthy : bool;
  nh_error_message : option string;
  nh_response_time_ms : option Z;
}.

Record GonkaClient := {
  get_latest_epoch : result LatestEpoch;
  get_latest_height : result Z;
  get_current_epoch_participants : result EpochGroup;
  get_epoch_participants : Z → result EpochGroup;
  get_all_participants : Z → result (list RawParticipant);
  get_epoch_performance_summary : Z → string → result PerformanceSummary;
  get_authz_grants : string → result (list WarmKey);
  get_hardware_nodes : string → result (list HardwareNode);
  (** The rows that [fetch_and_cache_jail_statuses] assembles from the
      validator set, the signing infos and Keybase at a height, and the
      probes of [fetch_and_cache_node_health]; an exception anywhere in
      their bodies is [Raise]. *)
  jail_statuses_at : Z → list EpochParticipant → result (list JailStatus);
  node_health_of : list EpochParticipant → result (list NodeHealth);
}.

End Upstream.

(** ** The clock *)

Record Clock := {
  time : Z;           (* time.time(), in seconds *)
  utcnow : string;    (* datetime.utcnow().isoformat() *)
}.

(** ** database.py *)

Module CacheDB.
Import Upstream.

(** The JSON object stored in [stats_json]: the upstream participant
    with the epoch attributes written over it. *)
Record StatsDict := {
  sd_participant : RawParticipant;
  sd_weight : Z;
  sd_models : list string;
  sd_validator_key : option string;
  sd_seed_signature : option string;
  sd_ml_nodes_map : gmap string Z;
}.

(** A row of [inference_stats]; primary key (epoch_id, height,
    participant_index). *)
Record StatsRow := {
  sr_epoch_id : Z;
  sr_height : Z;
  sr_participant_index : string;
  sr_stats : StatsDict;
  sr_seed_signature : option string;
  sr_cached_at : string;
}.

Record EpochStatus := {
  is_finished : bool;
  finish_height : option Z;
}.

Record Reward := {
  rw_epoch_id : Z;
  rw_participant_id : string;
  rw_rewarded_coins : string;
  rw_claimed : bool;
}.

Record HealthRow := {
  hr_is_healthy : bool;
  hr_last_check : string;
  hr_error_message : option string;
  hr_response_time_ms : option Z;
}.

(** The tables the service reads.  Columns that are only written
    (recorded_at, last_updated, calculated_at, marked_at) are left out.
    [participant_warm_keys] and [participant_hardware_nodes] hold their
    rows grouped by (epoch_id, participant_id); a group without rows is
    the same as no group. *)
Record t := {
  inference_stats : list StatsRow;
  epoch_status : gmap Z EpochStatus;
  jail_status : gmap Z (gmap string JailStatus);
  node_health : gmap string HealthRow;
  participant_rewards : gmap (Z * string) Reward;
  participant_warm_keys : gmap (Z * string) (list WarmKey);
  participant_hardware_nodes : gmap (Z * string) (list HardwareNode);
  epoch_total_rewards : gmap Z Z;
}.

Definition empty : t :=
  {| inference_stats := []; epoch_status := ∅; jail_status := ∅;
     node_health := ∅; participant_rewards := ∅;
     participant_warm_keys := ∅; participant_hardware_nodes := ∅;
     epoch_total_rewards := ∅ |}.

Definition set_inference_stats (v : list StatsRow) (db : t) : t :=
  {| inference_stats := v; epoch_status := epoch_status db;
     jail_status := jail_status db; node_health := node_health db;
     participant_rewards := participant_rewards db;
     participant_warm_keys := participant_warm_keys db;
     participant_hardware_nodes := participant_hardware_nodes db;
     epoch_total_rewards := epoch_total_rewards db |}.

Definition set_epoch_status (v : gmap Z EpochStatus) (db : t) : t :=
  {| inference_stats := inference_stats db; epoch_status := v;
     jail_status := jail_status db; node_health := node_health db;
     participant_rewards := participant_rewards db;
     participant_warm_keys := participant_warm_keys db;
     participant_hardware_nodes := participant_hardware_nodes db;
     epoch_total_rewards := epoch_total_rewards db |}.

Definition set_jail_status (v : gmap Z (gmap string JailStatus)) (db : t) : t :=
  {| inference_stats := inference_stats db; epoch_status := epoch_status db;
     jail_status := v; node_health := node_health db;
     participant_rewards := participant_rewards db;
     participant_warm_keys := participant_warm_keys db;
     participant_hardware_nodes := participant_hardware_nodes db;
     epoch_total_rewards := epoch_total_rewards db |}.

Definition set_node_health (v : gmap string HealthRow) (db : t) : t :=
  {| inference_stats := inference_stats db; epoch_status := epoch_status db;
     jail_status := jail_status db; node_health := v;
     participant_rewards := participant_rewards db;
     participant_warm_keys := participant_warm_keys db;
     participant_hardware_nodes := participant_hardware_nodes db;
     epoch_total_rewards := epoch_total_rewards db |}.

Definition set_participant_rewards (v : gmap (Z * string) Reward) (db : t) : t :=
  {| inference_stats := inference_stats db; epoch_status := epoch_status db;
     jail_status := jail_status db; node_health := node_health db;
     participant_rewards := v;
     participant_warm_keys := participant_warm_keys db;
     participant_hardware_nodes := participant_hardware_nodes db;
     epoch_total_rewards := epoch_total_rewards db |}.

Definition set_participant_warm_keys
    (v : gmap (Z * string) (list WarmKey)) (db : t) : t :=
  {| inference_stats := inference_stats db; epoch_status := epoch_status db;
     jail_status := jail_status db; node_health := node_health db;
     participant_rewards := participant_rewards db;
     participant_warm_keys := v;
     participant_hardware_nodes := participant_hardware_nodes db;
     epoch_total_rewards := epoch_total_rewards db |}.

Definition set_participant_hardware_nodes
    (v : gmap (Z * string) (list HardwareNode)) (db : t) : t :=
  {| inference_stats := inference_stats db; epoch_status := epoch_status db;
     jail_status := jail_status db; node_health := node_health db;
     participant_rewards := participant_rewards db;
     participant_warm_keys := participant_warm_keys db;
     participant_hardware_nodes := v;
     epoch_total_rewards := epoch_total_rewards db |}.

Definition set_epoch_total_rewards (v : gmap Z Z) (db : t) : t :=
  {| inference_stats := inference_stats db; epoch_status := epoch_status db;
     jail_status := jail_status db; node_health := node_health db;
     participant_rewards := participant_rewards db;
     participant_warm_keys := participant_warm_keys db;
     participant_hardware_nodes := participant_hardware_nodes db;
     epoch_total_rewards := v |}.

(** *** inference_stats *)

Definition same_stats_key (a b : StatsRow) : bool :=
  (sr_epoch_id a =? sr_epoch_id b) && (sr_height a =? sr_height b)
  && String.eqb (sr_participant_index a) (sr_participant_index b).

(** INSERT OR REPLACE of one row. *)
Definition upsert_stats (row : StatsRow) (rows : list StatsRow) : list StatsRow :=
  List.filter (λ r, negb (same_stats_key r row)) rows ++ [row].

Definition save_stats_batch (cached_at : string) (epoch_id height : Z)
    (participants_stats : list StatsDict) (db : t) : t :=
  set_inference_stats
    (foldl (λ rows stats,
              upsert_stats
                {| sr_epoch_id := epoch_id; sr_height := height;
                   sr_participant_index := rp_index (sd_participant stats);
                   sr_stats := stats;
                   sr_seed_signature := sd_seed_signature stats;
                   sr_cached_at := cached_at |} rows)
           (inference_stats db) participants_stats)
    db.

Definition get_stats (epoch_id : Z) (height : option Z) (db : t)
    : option (list StatsRow) :=
  let rows :=
    List.filter
      (λ r, (sr_epoch_id r =? epoch_id)
            && match height with
               | Some h => sr_height r =? h
               | None => true
               end)
      (inference_stats db) in
  match rows with
  | [] => None
  | _ => Some rows
  end.

(** *** epoch_status *)

Definition mark_epoch_finished (epoch_id finish_height : Z) (db : t) : t :=
  set_epoch_status
    (<[epoch_id := {| is_finished := true;
                      finish_height := Some finish_height |}]>
       (epoch_status db))
    db.

Definition is_epoch_finished (epoch_id : Z) (db : t) : bool :=
  match epoch_status db !! epoch_id with
  | Some row => is_finished row
  | None => false
  end.

(** *** jail_status and node_health *)

Definition save_jail_status_batch (epoch_id : Z)
    (jail_statuses : list JailStatus) (db : t) : t :=
  match jail_statuses with
  | [] => db
  | _ =>
      set_jail_status
        (<[epoch_id :=
             foldl (λ m s, <[js_participant_index s := s]> m)
                   (default ∅ (jail_status db !! epoch_id)) jail_statuses]>
           (jail_status db))
        db
  end.

Definition get_jail_status (epoch_id : Z) (db : t)
    : option (gmap string JailStatus) :=
  match jail_status db !! epoch_id with
  | Some rows => if bool_decide (rows = ∅) then None else Some rows
  | None => None
  end.

Definition save_node_health_batch (last_check : string)
    (health_statuses : list NodeHealth) (db : t) : t :=
  set_node_health
    (foldl (λ m s,
              <[nh_participant_index s :=
                  {| hr_is_healthy := nh_is_healthy s;
                     hr_last_check := last_check;
                     hr_error_message := nh_error_message s;
                     hr_response_time_ms := nh_response_time_ms s |}]> m)
           (node_health db) health_statuses)
    db.

Definition get_node_health (db : t) : option (gmap string HealthRow) :=
  if bool_decide (node_health db = ∅) then None else Some (node_health db).

(** *** participant_rewards *)

(** A stable insertion sort, as the orderings of the queries and of
    [list.sort]. *)
Fixpoint insert_by {A} (le : A → A → bool) (x : A) (l : list A) : list A :=
  match l with
  | [] => [x]
  | y :: l' => if le x y then x :: l else y :: insert_by le x l'
  end.

Definition sort_by {A} (le : A → A → bool) (l : list A) : list A :=
  foldr (insert_by le) [] l.

Definition str_le (a b : string) : bool :=
  match String.compare a b with
  | Gt => false
  | _ => true
  end.

Definition save_reward_batch (rewards : list Reward) (db : t) : t :=
  set_participant_rewards
    (foldl (λ m r, <[(rw_epoch_id r, rw_participant_id r) := r]> m)
           (participant_rewards db) rewards)
    db.

Definition get_reward (epoch_id : Z) (participant_id : string) (db : t)
    : option Reward :=
  participant_rewards db !! (epoch_id, participant_id).

(** WHERE participant_id = ? AND epoch_id IN (...) ORDER BY epoch_id DESC *)
Definition get_rewards_for_participant (participant_id : string)
    (epoch_ids : list Z) (db : t) : list Reward :=
  omap (λ e, participant_rewards db !! (e, participant_id))
       (sort_by (λ a b, b <=? a) (remove_dups epoch_ids)).

(** *** participant_warm_keys *)

(** DELETE the group, then a plain INSERT per key, in one transaction: a
    repeated grantee violates the primary key and nothing is committed. *)
Definition save_warm_keys_batch (epoch_id : Z) (participant_id : string)
    (warm_keys : list WarmKey) (db : t) : result t :=
  if bool_decide (NoDup (grantee_address <$> warm_keys)) then
    Ok (set_participant_warm_keys
          (match warm_keys with
           | [] => delete (epoch_id, participant_id) (participant_warm_keys db)
           | _ => <[(epoch_id, participant_id) := warm_keys]>
                    (participant_warm_keys db)
           end)
          db)
  else Raise Py.IntegrityError.

(** ORDER BY granted_at DESC; [None] when the query returns no row. *)
Definition get_warm_keys (epoch_id : Z) (participant_id : string) (db : t)
    : option (list WarmKey) :=
  match participant_warm_keys db !! (epoch_id, participant_id) with
  | Some (k :: ks) =>
      Some (sort_by (λ a b, str_le (granted_at b) (granted_at a)) (k :: ks))
  | _ => None
  end.

(** *** participant_hardware_nodes *)

Definition save_hardware_nodes_batch (epoch_id : Z) (participant_id : string)
    (hardware_nodes : list HardwareNode) (db : t) : result t :=
  if bool_decide (NoDup (local_id <$> hardware_nodes)) then
    Ok (set_participant_hardware_nodes
          (match hardware_nodes with
           | [] => delete (epoch_id, participant_id)
                          (participant_hardware_nodes db)
           | _ => <[(epoch_id, participant_id) := hardware_nodes]>
                    (participant_hardware_nodes db)
           end)
          db)
  else Raise Py.IntegrityError.

(** ORDER BY local_id ASC; [None] when the query returns no row. *)
Definition get_hardware_nodes (epoch_id : Z) (participant_id : string)
    (db : t) : option (list HardwareNode) :=
  match participant_hardware_nodes db !! (epoch_id, participant_id) with
  | Some (n :: ns) =>
      Some (sort_by (λ a b, str_le (local_id a) (local_id b)) (n :: ns))
  | _ => None
  end.

(** *** epoch_total_rewards *)

Definition save_epoch_total_rewards (epoch_id total_rewards_gnk : Z)
    (db : t) : t :=
  set_epoch_total_rewards
    (<[epoch_id := total_rewards_gnk]> (epoch_total_rewards db)) db.

Definition get_epoch_total_rewards (epoch_id : Z) (db : t) : option Z :=
  epoch_total_rewards db !! epoch_id.

Definition delete_epoch_total_rewards (epoch_id : Z) (db : t) : t :=
  set_epoch_total_rewards (delete epoch_id (epoch_total_rewards db)) db.

(** *** Other queries on inference_stats and epoch_status *)

(** INSERT OR REPLACE of a single row. *)
Definition save_stats (cached_at : string) (epoch_id height : Z)
    (participant_index : string) (stats : StatsDict)
    (seed_signature : option string) (db : t) : t :=
  set_inference_stats
    (upsert_stats
       {| sr_epoch_id := epoch_id; sr_height := height;
          sr_participant_index := participant_index;
          sr_stats := stats;
          sr_seed_signature := seed_signature;
          sr_cached_at := cached_at |}
       (inference_stats db))
    db.

(** SELECT COUNT( * ) ... > 0 *)
Definition has_stats_for_epoch (epoch_id : Z) (height : option Z) (db : t)
    : bool :=
  0 <? Z.of_nat
         (List.length
            (List.filter
               (λ r, (sr_epoch_id r =? epoch_id)
                     && match height with
                        | Some h => sr_height r =? h
                        | None => true
                        end)
               (inference_stats db))).

Definition get_epoch_finish_height (epoch_id : Z) (db : t) : option Z :=
  row ← epoch_status db !! epoch_id;
  finish_height row.

Definition clear_epoch_stats (epoch_id : Z) (db : t) : t :=
  set_epoch_status (delete epoch_id (epoch_status db))
    (set_inference_stats
       (List.filter (λ r, negb (sr_epoch_id r =? epoch_id)) (inference_stats db))
       db).

(** *** models

    The table is kept on its own: primary key (epoch_id, model_id). *)

Record ModelRow := {
  model_id : string;
  total_weight : Z;
  participant_count : Z;
}.

Definition models_table : Type := gmap Z (gmap string ModelRow).

Definition save_models_batch (epoch_id : Z) (models_data : list ModelRow)
    (table : models_table) : models_table :=
  match models_data with
  | [] => table
  | _ =>
      <[epoch_id :=
          foldl (λ m row, <[model_id row := row]> m)
                (default ∅ (table !! epoch_id)) models_data]> table
  end.

(** The rows of an epoch, by model id; [None] when there is no row. *)
Definition get_models (epoch_id : Z) (table : models_table)
    : option (gmap string ModelRow) :=
  match table !! epoch_id with
  | Some rows => if bool_decide (rows = ∅) then None else Some rows
  | None => None
  end.

(** *** participant_inferences

    The table is kept on its own, its rows grouped by (epoch_id,
    participant_id).  The columns inference_id, status,
    start_block_height and start_block_timestamp are NOT NULL, and
    inference_id is part of the primary key. *)

Definition EMPTY_MARKER : string := "_EMPTY_MARKER_".

(** An inference as the caller hands it over: every key is read with
    [.get] and may be missing. *)
Record Inference := {
  inf_inference_id : option string;
  inf_status : option string;
  inf_start_block_height : option string;
  inf_start_block_timestamp : option string;
  inf_validated_by : list string;
  inf_prompt_hash : option string;
  inf_response_hash : option string;
  inf_prompt_payload : option string;
  inf_response_payload : option string;
  inf_prompt_token_count : option string;
  inf_completion_token_count : option string;
  inf_model : option string;
}.

(** A stored row, and what [get_participant_inferences] returns for it. *)
Record InferenceRow := {
  ir_inference_id : string;
  ir_status : string;
  ir_start_block_height : string;
  ir_start_block_timestamp : string;
  ir_validated_by : list string;
  ir_prompt_hash : option string;
  ir_response_hash : option string;
  ir_prompt_payload : option string;
  ir_response_payload : option string;
  ir_prompt_token_count : option string;
  ir_completion_token_count : option string;
  ir_model : option string;
}.

Definition inferences_table : Type := gmap (Z * string) (list InferenceRow).

(** The column values of one INSERT; [None] is NULL. *)
Definition row_of_values (inference_id status start_block_height
    start_block_timestamp : option string) (i : Inference)
    : result InferenceRow :=
  match inference_id, status, start_block_height, start_block_timestamp with
  | Some id, Some st, Some h, Some ts =>
      Ok {| ir_inference_id := id; ir_status := st;
            ir_start_block_height := h; ir_start_block_timestamp := ts;
            ir_validated_by := inf_validated_by i;
            ir_prompt_hash := inf_prompt_hash i;
            ir_response_hash := inf_response_hash i;
            ir_prompt_payload := inf_prompt_payload i;
            ir_response_payload := inf_response_payload i;
            ir_prompt_token_count := inf_prompt_token_count i;
            ir_completion_token_count := inf_completion_token_count i;
            ir_model := inf_model i |}
  | _, _, _, _ => Raise Py.IntegrityError
  end.

(** A plain INSERT into the rows of a group. *)
Definition insert_inference (row : result InferenceRow)
    (rows : result (list InferenceRow)) : result (list InferenceRow) :=
  match rows, row with
  | Ok rows, Ok row =>
      if bool_decide (ir_inference_id row ∈ ir_inference_id <$> rows)
      then Raise Py.IntegrityError
      else Ok (rows ++ [row])
  | Raise e, _ => Raise e
  | _, Raise e => Raise e
  end.

Definition no_inference : Inference :=
  {| inf_inference_id := None; inf_status := None;
     inf_start_block_height := None; inf_start_block_timestamp := None;
     inf_validated_by := []; inf_prompt_hash := None;
     inf_response_hash := None; inf_prompt_payload := None;
     inf_response_payload := None; inf_prompt_token_count := None;
     inf_completion_token_count := None; inf_model := None |}.

(** DELETE the group, then the marker row (inference_id NULL) for an
    empty list or a row per inference, in one transaction. *)
Definition save_participant_inferences_batch (epoch_id : Z)
    (participant_id : string) (inferences : list Inference)
    (table : inferences_table) : result inferences_table :=
  let inserted :=
    match inferences with
    | [] =>
        insert_inference
          (row_of_values None (Some EMPTY_MARKER) (Some "0") (Some "0")
             no_inference)
          (Ok [])
    | _ =>
        foldl
          (λ rows inference,
             insert_inference
               (row_of_values (inf_inference_id inference)
                  (inf_status inference)
                  (inf_start_block_height inference)
                  (inf_start_block_timestamp inference) inference)
               rows)
          (Ok []) inferences
    end in
  match inserted with
  | Ok [] => Ok (delete (epoch_id, participant_id) table)
  | Ok rows => Ok (<[(epoch_id, participant_id) := rows]> table)
  | Raise e => Raise e
  end.

(** ORDER BY start_block_timestamp DESC; the marker rows are left out;
    [Some []] only when a marker row is all there is. *)
Definition get_participant_inferences (epoch_id : Z) (participant_id : string)
    (table : inferences_table) : option (list InferenceRow) :=
  match table !! (epoch_id, participant_id) with
  | Some (r :: rs) =>
      let rows :=
        sort_by (λ a b, str_le (ir_start_block_timestamp b)
                               (ir_start_block_timestamp a)) (r :: rs) in
      let has_marker :=
        existsb (λ row, String.eqb (ir_status row) EMPTY_MARKER) rows in
      let results :=
        List.filter (λ row, negb (String.eqb (ir_status row) EMPTY_MARKER))
                    rows in
      match results with
      | [] => if has_marker then Some [] else None
      | _ => Some results
      end
  | _ => None
  end.

End CacheDB.

(** ** service.py *)

Module Service.
Import Upstream.

(** Coroutines handed to [asyncio.create_task]: they are queued, and run
    at some later point of the event loop. *)
Inductive Task :=
| CalculateAndCacheTotalRewards (epoch_id : Z)
| EnsureParticipantCaches (epoch_id : Z)
    (participants : list Models.ParticipantStats).

(** The fields of the service object, its database and the event loop's
    queue. *)
Record InferenceService := {
  current_epoch_id : option Z;
  current_epoch_data : option Models.InferenceResponse;
  last_fetch_time : option Z;
  cache_db : CacheDB.t;
  tasks : list Task;
}.

Definition init (db : CacheDB.t) : InferenceService :=
  {| current_epoch_id := None; current_epoch_data := None;
     last_fetch_time := None; cache_db := db; tasks := [] |}.

(** *** The monad of the service methods *)

Definition M (A : Type) : Type :=
  InferenceService → result A * InferenceService.

#[global] Instance M_ret : MRet M := λ A a self, (Ok a, self).
#[global] Instance M_bind : MBind M := λ A B f m self,
  match m self with
  | (Ok a, self') => f a self'
  | (Raise e, self') => (Raise e, self')
  end.

Definition raise {A} (e : exn) : M A := λ self, (Raise e, self).

(** [await] on a client call. *)
Definition await {A} (r : result A) : M A := λ self, (r, self).

Definition try_except {A} (body : M A) (handler : exn → M A) : M A :=
  λ self,
    match body self with
    | (Ok a, self') => (Ok a, self')
    | (Raise e, self') => handler e self'
    end.

Definition read {A} (f : InferenceService → A) : M A :=
  λ self, (Ok (f self), self).

Definition query {A} (f : CacheDB.t → A) : M A :=
  λ self, (Ok (f (cache_db self)), self).

Definition execute (f : CacheDB.t → CacheDB.t) : M unit :=
  λ self,
    (Ok tt,
     {| current_epoch_id := current_epoch_id self;
        current_epoch_data := current_epoch_data self;
        last_fetch_time := last_fetch_time self;
        cache_db := f (cache_db self);
        tasks := tasks self |}).

(** A write that may violate a constraint: nothing is committed then. *)
Definition execute_checked (f : CacheDB.t → result CacheDB.t) : M unit :=
  λ self,
    match f (cache_db self) with
    | Ok db => execute (λ _, db) self
    | Raise e => (Raise e, self)
    end.

Definition create_task (t : Task) : M unit :=
  λ self,
    (Ok tt,
     {| current_epoch_id := current_epoch_id self;
        current_epoch_data := current_epoch_data self;
        last_fetch_time := last_fetch_time self;
        cache_db := cache_db self;
        tasks := tasks self ++ [t] |}).

Definition publish (epoch_id : Z) (response : Models.InferenceResponse)
    (current_time : Z) : M unit :=
  λ self,
    (Ok tt,
     {| current_epoch_id := Some epoch_id;
        current_epoch_data := Some response;
        last_fetch_time := Some current_time;
        cache_db := cache_db self;
        tasks := tasks self |}).

(** *** Module-level helper *)

Definition _extract_ml_nodes_map (ml_nodes_data : list MLNodesEntry)
    : gmap string Z :=
  foldl
    (λ result wrapper,
       foldl
         (λ result node,
            match node_id node with
            | Some id =>
                if String.eqb id "" then result
                else match node_poc_weight node with
                     | Some poc_weight => <[id := poc_weight]> result
                     | None => result
                     end
            | None => result
            end)
         result (ml_nodes wrapper))
    ∅ ml_nodes_data.

Section WithClient.

Variable client : GonkaClient.
Variable clock : Clock.

(** *** get_canonical_height *)

Definition get_canonical_height (epoch_id : Z) (requested_height : option Z)
    : M Z :=
  latest_info ← await (get_latest_epoch client);
  let current_epoch_id := latest_epoch_index latest_info in
  if epoch_id =? current_epoch_id then
    current_height ← await (get_latest_height client);
    mret (if Py.truthy_int requested_height
          then default current_height requested_height
          else current_height)
  else
    epoch_data ← await (get_epoch_participants client epoch_id);
    let effective_height := effective_block_height epoch_data in
    canonical_height ←
      try_except
        (next_epoch_data ← await (get_epoch_participants client (epoch_id + 1));
         mret (effective_block_height next_epoch_data - 10))
        (λ _, mret (next_poc_start latest_info - 10));
    match requested_height with
    | None => mret canonical_height
    | Some requested =>
        if requested <? effective_height then
          raise (Py.InvalidHeight epoch_id requested effective_height)
        else if canonical_height <=? requested then mret canonical_height
        else mret requested
    end.

(** *** Fusing the epoch group with the participant records *)

Record EpochParticipantData := {
  epd_weight : Z;
  epd_models : list string;
  epd_validator_key : option string;
  epd_seed_signature : option string;
  epd_ml_nodes_map : gmap string Z;
}.

(** The dict comprehension [epoch_participant_data]. *)
Definition epoch_participant_data (ps : list EpochParticipant)
    : gmap string EpochParticipantData :=
  foldl
    (λ m p,
       <[ep_index p :=
           {| epd_weight := ep_weight p;
              epd_models := ep_models p;
              epd_validator_key := ep_validator_key p;
              epd_seed_signature := ep_seed_signature p;
              epd_ml_nodes_map := _extract_ml_nodes_map (ep_ml_nodes p) |}]> m)
    ∅ ps.

(** The set comprehension [active_indices]. *)
Definition active_indices (ps : list EpochParticipant) : gset string :=
  list_to_set (ep_index <$> ps).

Definition new_participant_stats (p : RawParticipant)
    (d : option EpochParticipantData) (stats : Models.CurrentEpochStats)
    : Models.ParticipantStats :=
  {| Models.index := rp_index p;
     Models.address := rp_address p;
     Models.weight := default 0 (epd_weight <$> d);
     Models.validator_key := d ≫= epd_validator_key;
     Models.inference_url := rp_inference_url p;
     Models.status := rp_status p;
     Models.models := default [] (epd_models <$> d);
     Models.current_epoch_stats := stats;
     Models.is_jailed := None;
     Models.jailed_until := None;
     Models.ready_to_unjail := None;
     Models.node_healthy := None;
     Models.node_health_checked_at := None;
     Models.moniker := None;
     Models.identity := None;
     Models.keybase_username := None;
     Models.keybase_picture_url := None;
     Models.website := None;
     Models.validator_consensus_key := None;
     Models.consensus_key_mismatch := None |}.

Definition new_stats_dict (p : RawParticipant)
    (d : option EpochParticipantData) : CacheDB.StatsDict :=
  {| CacheDB.sd_participant := p;
     CacheDB.sd_weight := default 0 (epd_weight <$> d);
     CacheDB.sd_models := default [] (epd_models <$> d);
     CacheDB.sd_validator_key := d ≫= epd_validator_key;
     CacheDB.sd_seed_signature := d ≫= epd_seed_signature;
     CacheDB.sd_ml_nodes_map := default ∅ (epd_ml_nodes_map <$> d) |}.

(** The loop over [active_participants] shared by the two fetches: the
    participants of the upstream list whose index is active, in that
    list's order; one that fails to parse is logged and skipped.  The
    result is [(participants_stats, stats_for_saving)]. *)
Definition fuse_participants (epoch_participants : list EpochParticipant)
    (participants_list : list RawParticipant)
    : list Models.ParticipantStats * list CacheDB.StatsDict :=
  let indices := active_indices epoch_participants in
  let data := epoch_participant_data epoch_participants in
  let active_participants :=
    List.filter (λ p, bool_decide (rp_index p ∈ indices)) participants_list in
  foldl
    (λ '(participants_stats, stats_for_saving) p,
       match rp_current_epoch_stats p with
       | Some stats =>
           let d := data !! rp_index p in
           (participants_stats ++ [new_participant_stats p d stats],
            stats_for_saving ++ [new_stats_dict p d])
       | None => (participants_stats, stats_for_saving)
       end)
    ([], []) active_participants.

(** *** Jail and health overlays *)

Definition fetch_and_cache_jail_statuses (epoch_id height : Z)
    (active_participants : list EpochParticipant) : M unit :=
  try_except
    (jail_statuses ← await (jail_statuses_at client height active_participants);
     execute (CacheDB.save_jail_status_batch epoch_id jail_statuses))
    (λ _, mret tt).

Definition fetch_and_cache_node_health
    (active_participants : list EpochParticipant) : M unit :=
  try_except
    (health_statuses ← await (node_health_of client active_participants);
     execute (CacheDB.save_node_health_batch (utcnow clock) health_statuses))
    (λ _, mret tt).

Definition overlay_jail (jail_info : JailStatus) (p : Models.ParticipantStats)
    : Models.ParticipantStats :=
  {| Models.index := Models.index p;
     Models.address := Models.address p;
     Models.weight := Models.weight p;
     Models.validator_key := Models.validator_key p;
     Models.inference_url := Models.inference_url p;
     Models.status := Models.status p;
     Models.models := Models.models p;
     Models.current_epoch_stats := Models.current_epoch_stats p;
     Models.is_jailed := Some (js_is_jailed jail_info);
     Models.jailed_until := js_jailed_until jail_info;
     Models.ready_to_unjail := js_ready_to_unjail jail_info;
     Models.node_healthy := Models.node_healthy p;
     Models.node_health_checked_at := Models.node_health_checked_at p;
     Models.moniker := js_moniker jail_info;
     Models.identity := js_identity jail_info;
     Models.keybase_username := js_keybase_username jail_info;
     Models.keybase_picture_url := js_keybase_picture_url jail_info;
     Models.website := js_website jail_info;
     Models.validator_consensus_key := js_validator_consensus_key jail_info;
     Models.consensus_key_mismatch := js_consensus_key_mismatch jail_info |}.

Definition overlay_health (health_info : CacheDB.HealthRow)
    (p : Models.ParticipantStats) : Models.ParticipantStats :=
  {| Models.index := Models.index p;
     Models.address := Models.address p;
     Models.weight := Models.weight p;
     Models.validator_key := Models.validator_key p;
     Models.inference_url := Models.inference_url p;
     Models.status := Models.status p;
     Models.models := Models.models p;
     Models.current_epoch_stats := Models.current_epoch_stats p;
     Models.is_jailed := Models.is_jailed p;
     Models.jailed_until := Models.jailed_until p;
     Models.ready_to_unjail := Models.ready_to_unjail p;
     Models.node_healthy := Some (CacheDB.hr_is_healthy health_info);
     Models.node_health_checked_at := Some (CacheDB.hr_last_check health_info);
     Models.moniker := Models.moniker p;
     Models.identity := Models.identity p;
     Models.keybase_username := Models.keybase_username p;
     Models.keybase_picture_url := Models.keybase_picture_url p;
     Models.website := Models.website p;
     Models.validator_consensus_key := Models.validator_consensus_key p;
     Models.consensus_key_mismatch := Models.consensus_key_mismatch p |}.

Definition overlay (jail_map : gmap string JailStatus)
    (health_map : gmap string CacheDB.HealthRow)
    (p : Models.ParticipantStats) : Models.ParticipantStats :=
  let p :=
    match jail_map !! Models.index p with
    | Some jail_info => overlay_jail jail_info p
    | None => p
    end in
  match health_map !! Models.index p with
  | Some health_info => overlay_health health_info p
  | None => p
  end.

Definition merge_jail_and_health_data (epoch_id : Z)
    (participants : list Models.ParticipantStats) (height : Z)
    (active_participants : list EpochParticipant)
    : M (list Models.ParticipantStats) :=
  jail_statuses_list ← query (CacheDB.get_jail_status epoch_id);
  jail_map ←
    match jail_statuses_list with
    | Some rows => mret rows
    | None =>
        fetch_and_cache_jail_statuses epoch_id height active_participants;;
        jail_statuses_list ← query (CacheDB.get_jail_status epoch_id);
        mret (default ∅ jail_statuses_list)
    end;
  health_statuses_list ← query CacheDB.get_node_health;
  health_map ←
    match health_statuses_list with
    | Some rows => mret rows
    | None =>
        fetch_and_cache_node_health active_participants;;
        health_statuses_list ← query CacheDB.get_node_health;
        mret (default ∅ health_statuses_list)
    end;
  mret (overlay jail_map health_map <$> participants).

(** *** _calculate_and_cache_total_rewards *)

Record RewardTotals := {
  total_ugnk : Z;
  fetched_count : Z;
  rewards_batch : list CacheDB.Reward;
  participants_with_rewards : Z;
}.

(** The body of the loop over the epoch's participants.  A summary
    that cannot be fetched, or whose [rewarded_coins] is not an integer
    literal, leaves the accumulators as they are. *)
Definition add_reward (epoch_id : Z) (acc : RewardTotals)
    (participant : EpochParticipant) : RewardTotals :=
  let participant_id := ep_index participant in
  match get_epoch_performance_summary client epoch_id participant_id with
  | Ok perf =>
      match Py.int (ps_rewarded_coins perf) with
      | Ok rewarded_amount =>
          {| total_ugnk := total_ugnk acc + rewarded_amount;
             fetched_count := fetched_count acc + 1;
             rewards_batch :=
               rewards_batch acc ++
               [{| CacheDB.rw_epoch_id := epoch_id;
                   CacheDB.rw_participant_id := participant_id;
                   CacheDB.rw_rewarded_coins := ps_rewarded_coins perf;
                   CacheDB.rw_claimed := ps_claimed perf |}];
             participants_with_rewards :=
               if 0 <? rewarded_amount
               then participants_with_rewards acc + 1
               else participants_with_rewards acc |}
      | Raise _ => acc
      end
  | Raise _ => acc
  end.

Definition sum_rewards (epoch_id : Z) (participants : list EpochParticipant)
    : RewardTotals :=
  foldl (add_reward epoch_id)
    {| total_ugnk := 0; fetched_count := 0; rewards_batch := [];
       participants_with_rewards := 0 |}
    participants.

Definition _calculate_and_cache_total_rewards (epoch_id : Z) : M unit :=
  try_except
    (epoch_data ← await (get_epoch_participants client epoch_id);
     let acc := sum_rewards epoch_id (participants epoch_data) in
     if (total_ugnk acc =? 0) && (0 <? fetched_count acc) then mret tt
     else
       match rewards_batch acc with
       | [] => mret tt
       | batch => execute (CacheDB.save_reward_batch batch)
       end;;
       let total_gnk := total_ugnk acc / 1000000000 in
       execute (CacheDB.save_epoch_total_rewards epoch_id total_gnk))
    (λ _, mret tt).

(** *** get_historical_epoch_stats *)

(** The [ParticipantStats] rebuilt from the keys of a cached row; the
    extra keys are ignored by the model class. *)
Definition participant_of_row (row : CacheDB.StatsRow)
    : option Models.ParticipantStats :=
  let d := CacheDB.sr_stats row in
  stats ← rp_current_epoch_stats (CacheDB.sd_participant d);
  Some
    (new_participant_stats (CacheDB.sd_participant d)
       (Some {| epd_weight := CacheDB.sd_weight d;
                epd_models := CacheDB.sd_models d;
                epd_validator_key := CacheDB.sd_validator_key d;
                epd_seed_signature := CacheDB.sd_seed_signature d;
                epd_ml_nodes_map := CacheDB.sd_ml_nodes_map d |})
       stats).

Definition get_historical_epoch_stats (epoch_id : Z) (height : option Z)
    (calculate_rewards_sync : bool) : M Models.InferenceResponse :=
  is_finished ← query (CacheDB.is_epoch_finished epoch_id);
  target_height ← get_canonical_height epoch_id height;
  cached_stats ← query (CacheDB.get_stats epoch_id (Some target_height));
  match cached_stats with
  | Some ((first :: _) as rows) =>
      let participants_stats := omap participant_of_row rows in
      epoch_data ← await (get_epoch_participants client epoch_id);
      let active_participants_list := participants epoch_data in
      participants_stats ←
        merge_jail_and_health_data epoch_id participants_stats target_height
          active_participants_list;
      total_rewards_gnk ← query (CacheDB.get_epoch_total_rewards epoch_id);
      total_rewards_gnk ←
        (if negb (Py.truthy_int total_rewards_gnk) then
           match total_rewards_gnk with
           | Some _ => execute (CacheDB.delete_epoch_total_rewards epoch_id)
           | None => mret tt
           end;;
           if calculate_rewards_sync then
             _calculate_and_cache_total_rewards epoch_id;;
             query (CacheDB.get_epoch_total_rewards epoch_id)
           else
             create_task (CalculateAndCacheTotalRewards epoch_id);;
             mret total_rewards_gnk
         else mret total_rewards_gnk);
      create_task (EnsureParticipantCaches epoch_id participants_stats);;
      mret {| Models.epoch_id := epoch_id;
              Models.height := target_height;
              Models.participants := participants_stats;
              Models.cached_at := Some (CacheDB.sr_cached_at first);
              Models.is_current := false;
              Models.total_assigned_rewards_gnk := total_rewards_gnk |}
  | _ =>
      participants_list ← await (get_all_participants client target_height);
      epoch_data ← await (get_epoch_participants client epoch_id);
      let '(participants_stats, stats_for_saving) :=
        fuse_participants (participants epoch_data) participants_list in
      execute (CacheDB.save_stats_batch (utcnow clock) epoch_id target_height
                 stats_for_saving);;
      (if bool_decide (height = None) && negb is_finished
       then execute (CacheDB.mark_epoch_finished epoch_id target_height)
       else mret tt);;
      participants_stats ←
        merge_jail_and_health_data epoch_id participants_stats target_height
          (participants epoch_data);
      total_rewards_gnk ← query (CacheDB.get_epoch_total_rewards epoch_id);
      match total_rewards_gnk with
      | None => create_task (CalculateAndCacheTotalRewards epoch_id)
      | Some _ => mret tt
      end;;
      let response :=
        {| Models.epoch_id := epoch_id;
           Models.height := target_height;
           Models.participants := participants_stats;
           Models.cached_at := Some (utcnow clock);
           Models.is_current := false;
           Models.total_assigned_rewards_gnk := total_rewards_gnk |} in
      create_task (EnsureParticipantCaches epoch_id participants_stats);;
      mret response
  end.

(** *** _mark_epoch_finished_if_needed *)

Definition _mark_epoch_finished_if_needed (current_epoch_id' current_height : Z)
    : M unit :=
  cached_id ← read current_epoch_id;
  match cached_id with
  | None => mret tt
  | Some old_epoch_id =>
      if old_epoch_id <? current_epoch_id' then
        is_already_finished ← query (CacheDB.is_epoch_finished old_epoch_id);
        if (is_already_finished : bool) then mret tt
        else
          try_except
            (get_historical_epoch_stats old_epoch_id None true;; mret tt)
            (λ _, mret tt)
      else mret tt
  end.

(** *** get_current_epoch_stats *)

(** The body of the [try] block. *)
Definition fetch_current_epoch_stats (current_time : Z)
    : M Models.InferenceResponse :=
  height ← await (get_latest_height client);
  epoch_data ← await (get_current_epoch_participants client);
  let epoch_id := epoch_group_id epoch_data in
  _mark_epoch_finished_if_needed epoch_id height;;
  participants_list ← await (get_all_participants client height);
  let '(participants_stats, stats_for_saving) :=
    fuse_participants (participants epoch_data) participants_list in
  let active_participants_list := participants epoch_data in
  participants_stats ←
    merge_jail_and_health_data epoch_id participants_stats height
      active_participants_list;
  let response :=
    {| Models.epoch_id := epoch_id;
       Models.height := height;
       Models.participants := participants_stats;
       Models.cached_at := Some (utcnow clock);
       Models.is_current := true;
       Models.total_assigned_rewards_gnk := None |} in
  execute (CacheDB.save_stats_batch (utcnow clock) epoch_id height
             stats_for_saving);;
  publish epoch_id response current_time;;
  create_task (EnsureParticipantCaches epoch_id participants_stats);;
  mret response.

(** Whether the in-memory response is served without a fetch. *)
Definition cache_is_fresh (reload : bool) (self : InferenceService) : bool :=
  let current_time := time clock in
  let cache_age :=
    if Py.truthy_int (last_fetch_time self)
    then (λ t, current_time - t) <$> last_fetch_time self
    else None in
  negb reload
  && bool_decide (is_Some (current_epoch_data self))
  && Py.truthy_int cache_age
  && match cache_age with
     | Some age => age <? 300
     | None => false
     end.

Definition get_current_epoch_stats (reload : bool)
    : M Models.InferenceResponse :=
  let current_time := time clock in
  fresh ← read (cache_is_fresh reload);
  cached ← read current_epoch_data;
  match fresh, cached with
  | true, Some data => mret data
  | _, _ =>
      try_except
        (fetch_current_epoch_stats current_time)
        (λ e,
           cached ← read current_epoch_data;
           match cached with
           | Some data => mret data
           | None => raise e
           end)
  end.

(** *** _ensure_participant_caches, poll_warm_keys *)

Fixpoint for_each {A} (l : list A) (body : A → M unit) : M unit :=
  match l with
  | [] => mret tt
  | x :: l' => body x;; for_each l' body
  end.

Definition reward_of_summary (epoch_id : Z) (participant_id : string)
    (perf : PerformanceSummary) : CacheDB.Reward :=
  {| CacheDB.rw_epoch_id := epoch_id;
     CacheDB.rw_participant_id := participant_id;
     CacheDB.rw_rewarded_coins := ps_rewarded_coins perf;
     CacheDB.rw_claimed := ps_claimed perf |}.

Definition _ensure_participant_caches (epoch_id : Z)
    (participants : list Models.ParticipantStats) : M unit :=
  try_except
    (for_each participants (λ participant,
       let participant_id := Models.index participant in
       cached_reward ← query (CacheDB.get_reward epoch_id participant_id);
       match cached_reward with
       | None =>
           try_except
             (perf ← await (get_epoch_performance_summary client epoch_id
                              participant_id);
              execute (CacheDB.save_reward_batch
                         [reward_of_summary epoch_id participant_id perf]))
             (λ _, mret tt)
       | Some _ => mret tt
       end;;
       cached_warm_keys ← query (CacheDB.get_warm_keys epoch_id participant_id);
       match cached_warm_keys with
       | None =>
           try_except
             (warm_keys ← await (get_authz_grants client participant_id);
              execute_checked
                (CacheDB.save_warm_keys_batch epoch_id participant_id warm_keys))
             (λ _, mret tt)
       | Some _ => mret tt
       end;;
       cached_hardware ←
         query (CacheDB.get_hardware_nodes epoch_id participant_id);
       match cached_hardware with
       | None =>
           try_except
             (hardware_nodes ← await (get_hardware_nodes client participant_id);
              execute_checked
                (CacheDB.save_hardware_nodes_batch epoch_id participant_id
                   hardware_nodes))
             (λ _, mret tt)
       | Some _ => mret tt
       end))
    (λ _, mret tt).

Definition poll_warm_keys : M unit :=
  try_except
    (epoch_data ← await (get_current_epoch_participants client);
     let current_epoch := epoch_group_id epoch_data in
     for_each (participants epoch_data) (λ participant,
       let participant_id := ep_index participant in
       try_except
         (warm_keys ← await (get_authz_grants client participant_id);
          execute_checked
            (CacheDB.save_warm_keys_batch current_epoch participant_id
               warm_keys))
         (λ _, mret tt)))
    (λ _, mret tt).

(** Running one queued coroutine. *)
Definition run_task (t : Task) : M unit :=
  match t with
  | CalculateAndCacheTotalRewards epoch_id =>
      _calculate_and_cache_total_rewards epoch_id
  | EnsureParticipantCaches epoch_id participants =>
      _ensure_participant_caches epoch_id participants
  end.

(** *** get_participant_details *)

(** The window of epochs whose rewards are listed. *)
Definition reward_epoch_ids (epoch_id current_epoch_id' : Z) : list Z :=
  if epoch_id =? current_epoch_id' then
    List.filter (λ e, 0 <? e) ((λ i, current_epoch_id' - i) <$> [1; 2; 3; 4; 5])
  else if epoch_id <? current_epoch_id' then
    List.filter (λ e, 0 <? e) ((λ i, epoch_id - i) <$> [5; 4; 3; 2; 1; 0])
  else [].

Fixpoint traverse {A B} (f : A → result B) (l : list A) : result (list B) :=
  match l with
  | [] => Ok []
  | x :: l' =>
      match f x with
      | Ok y =>
          match traverse f l' with
          | Ok ys => Ok (y :: ys)
          | Raise e => Raise e
          end
      | Raise e => Raise e
      end
  end.

Definition reward_info (reward_data : CacheDB.Reward) : result Models.RewardInfo :=
  let rewarded_coins := CacheDB.rw_rewarded_coins reward_data in
  match (if String.eqb rewarded_coins "0" then Ok 0
         else match Py.int rewarded_coins with
              | Ok n => Ok (n / 1000000000)
              | Raise e => Raise e
              end) with
  | Ok gnk =>
      Ok {| Models.ri_epoch_id := CacheDB.rw_epoch_id reward_data;
            Models.assigned_reward_gnk := gnk;
            Models.claimed := CacheDB.rw_claimed reward_data |}
  | Raise e => Raise e
  end.

Definition participant_rewards (participant_id : string) (epoch_ids : list Z)
    : M (list Models.RewardInfo) :=
  match epoch_ids with
  | [] => mret []
  | _ =>
      rewards_data ←
        query (CacheDB.get_rewards_for_participant participant_id epoch_ids);
      let cached_epoch_ids : gset Z :=
        list_to_set (CacheDB.rw_epoch_id <$> rewards_data) in
      let missing_epoch_ids :=
        List.filter (λ eid, negb (bool_decide (eid ∈ cached_epoch_ids)))
                    epoch_ids in
      let newly_fetched :=
        omap (λ missing_epoch,
                match get_epoch_performance_summary client missing_epoch
                        participant_id with
                | Ok perf =>
                    Some (reward_of_summary missing_epoch participant_id perf)
                | Raise _ => None
                end)
             missing_epoch_ids in
      match newly_fetched with
      | [] => mret tt
      | _ => execute (CacheDB.save_reward_batch newly_fetched)
      end;;
      rewards ← await (traverse reward_info (rewards_data ++ newly_fetched));
      mret (CacheDB.sort_by
              (λ a b, Models.ri_epoch_id b <=? Models.ri_epoch_id a) rewards)
  end.

Definition find_cached_row (participant_id : string)
    (cached_stats : option (list CacheDB.StatsRow)) : option CacheDB.StatsRow :=
  rows ← cached_stats;
  List.find
    (λ s, String.eqb (rp_index (CacheDB.sd_participant (CacheDB.sr_stats s)))
                     participant_id)
    rows.

Definition participant_seed (participant_id : string) (epoch_id : Z)
    (cached_stats : option (list CacheDB.StatsRow)) : option Models.SeedInfo :=
  s ← find_cached_row participant_id cached_stats;
  seed_sig ← CacheDB.sr_seed_signature s;
  if String.eqb seed_sig "" then None
  else Some {| Models.participant := participant_id;
               Models.epoch_index := epoch_id;
               Models.signature := seed_sig |}.

(** The warm keys of the response: the cached rows, or an inline fetch
    when the lookup returns [None]. *)
Definition participant_warm_keys (participant_id : string) (epoch_id : Z)
    : M (list WarmKey) :=
  warm_keys_data ← query (CacheDB.get_warm_keys epoch_id participant_id);
  match warm_keys_data with
  | Some rows => mret rows
  | None =>
      try_except
        (warm_keys_raw ← await (get_authz_grants client participant_id);
         match warm_keys_raw with
         | [] => mret []
         | _ =>
             execute_checked
               (CacheDB.save_warm_keys_batch epoch_id participant_id
                  warm_keys_raw);;
             mret warm_keys_raw
         end)
        (λ _, mret [])
  end.

Definition participant_hardware_nodes (participant_id : string) (epoch_id : Z)
    : M (list HardwareNode) :=
  hardware_nodes_data ←
    query (CacheDB.get_hardware_nodes epoch_id participant_id);
  match hardware_nodes_data with
  | Some rows => mret rows
  | None =>
      try_except
        (hardware_nodes_raw ← await (get_hardware_nodes client participant_id);
         match hardware_nodes_raw with
         | [] => mret []
         | _ =>
             execute_checked
               (CacheDB.save_hardware_nodes_batch epoch_id participant_id
                  hardware_nodes_raw);;
             mret hardware_nodes_raw
         end)
        (λ _, mret [])
  end.

(** One element of [ml_nodes]. *)
Definition ml_node_info (ml_nodes_map : gmap string Z) (node : HardwareNode)
    : Models.MLNodeInfo :=
  let local_id' := local_id node in
  let poc_weight := Py.or_int (ml_nodes_map !! local_id') (hn_poc_weight node) in
  {| Models.ml_local_id := local_id';
     Models.ml_status := hn_status node;
     Models.ml_models := hn_models node;
     Models.hardware :=
       (λ hw, {| Models.type := hw_type hw; Models.count := hw_count hw |})
         <$> hn_hardware node;
     Models.host := hn_host node;
     Models.port := hn_port node;
     Models.poc_weight := poc_weight |}.

Definition get_participant_details (participant_id : string) (epoch_id : Z)
    (height : option Z) : M (option Models.ParticipantDetailsResponse) :=
  try_except
    (latest_info ← await (get_latest_epoch client);
     let current_epoch_id' := latest_epoch_index latest_info in
     let is_current := epoch_id =? current_epoch_id' in
     stats ←
       (if is_current then get_current_epoch_stats false
        else get_historical_epoch_stats epoch_id height false);
     match List.find (λ p, String.eqb (Models.index p) participant_id)
                     (Models.participants stats) with
     | None => mret None
     | Some participant =>
         let epoch_ids := reward_epoch_ids epoch_id current_epoch_id' in
         rewards ← participant_rewards participant_id epoch_ids;
         cached_stats ← query (CacheDB.get_stats epoch_id height);
         let seed := participant_seed participant_id epoch_id cached_stats in
         warm_keys_data ← participant_warm_keys participant_id epoch_id;
         let warm_keys :=
           (λ wk, {| Models.wk_grantee_address := grantee_address wk;
                     Models.wk_granted_at := granted_at wk |})
             <$> warm_keys_data in
         hardware_nodes_data ← participant_hardware_nodes participant_id epoch_id;
         cached_stats ← query (CacheDB.get_stats epoch_id height);
         let ml_nodes_map :=
           default ∅ (CacheDB.sd_ml_nodes_map ∘ CacheDB.sr_stats
                        <$> find_cached_row participant_id cached_stats) in
         let ml_nodes := ml_node_info ml_nodes_map <$> hardware_nodes_data in
         mret (Some {| Models.pd_participant := participant;
                       Models.rewards := rewards;
                       Models.seed := seed;
                       Models.warm_keys := warm_keys;
                       Models.ml_nodes := ml_nodes |})
     end)
    (λ _, mret None).

(** *** poll_hardware_nodes, poll_participant_rewards,
        poll_epoch_total_rewards *)

Definition poll_hardware_nodes : M unit :=
  try_except
    (epoch_data ← await (get_current_epoch_participants client);
     let current_epoch := epoch_group_id epoch_data in
     for_each (participants epoch_data) (λ participant,
       let participant_id := ep_index participant in
       try_except
         (hardware_nodes ← await (get_hardware_nodes client participant_id);
          execute_checked
            (CacheDB.save_hardware_nodes_batch current_epoch participant_id
               hardware_nodes))
         (λ _, mret tt)))
    (λ _, mret tt).

(** [get_epoch_performance_summary(epoch, participant, height=height)]:
    the summary endpoint read at a given block. *)
Variable get_epoch_performance_summary_at :
  Z → Z → string → result PerformanceSummary.

(** The rewards one participant adds to [rewards_to_save]: the six
    epochs before the current one, without those cached as claimed and
    those whose summary cannot be fetched. *)
Definition rewards_to_save_for (db : CacheDB.t) (current_epoch height : Z)
    (participant : EpochParticipant) : list CacheDB.Reward :=
  let participant_id := ep_index participant in
  List.flat_map
    (λ epoch_offset,
       let check_epoch := current_epoch - epoch_offset in
       if check_epoch <=? 0 then []
       else
         let cached_reward := CacheDB.get_reward check_epoch participant_id db in
         if default false (CacheDB.rw_claimed <$> cached_reward) then []
         else
           match get_epoch_performance_summary_at height check_epoch
                   participant_id with
           | Ok perf => [reward_of_summary check_epoch participant_id perf]
           | Raise _ => []
           end)
    [1; 2; 3; 4; 5; 6].

Definition poll_participant_rewards : M unit :=
  try_except
    (height ← await (get_latest_height client);
     epoch_data ← await (get_current_epoch_participants client);
     let current_epoch := epoch_group_id epoch_data in
     db ← query id;
     let rewards_to_save :=
       List.flat_map (rewards_to_save_for db current_epoch height)
                     (participants epoch_data) in
     match rewards_to_save with
     | [] => mret tt
     | _ => execute (CacheDB.save_reward_batch rewards_to_save)
     end)
    (λ _, mret tt).

Definition poll_epoch_total_rewards : M unit :=
  try_except
    (latest_info ← await (get_latest_epoch client);
     let current_epoch_id' := latest_epoch_index latest_info in
     for_each [1; 2; 3; 4; 5] (λ offset,
       let epoch_id := current_epoch_id' - offset in
       if epoch_id <=? 0 then mret tt
       else
         cached_total ← query (CacheDB.get_epoch_total_rewards epoch_id);
         match cached_total with
         | Some total =>
             if 0 <? total then mret tt
             else
               (if total =? 0
                then execute (CacheDB.delete_epoch_total_rewards epoch_id)
                else mret tt);;
               _calculate_and_cache_total_rewards epoch_id
         | None => _calculate_and_cache_total_rewards epoch_id
         end))
    (λ _, mret tt).

(** *** Model aggregation: get_current_models, get_historical_models *)

(** One element of ["model"] in the answer of [get_models_all]. *)
Record ModelDescriptor := {
  md_id : string;
  md_proposed_by : string;
  md_v_ram : string;
  md_throughput_per_nonce : string;
  md_units_of_compute_per_token : string;
  md_hf_repo : string;
  md_hf_commit : string;
  md_model_args : list string;
  md_validation_threshold : list (string * string);
}.

Variable get_models_stats : result (list Models.ModelStats).
Variable get_models_all : result (list ModelDescriptor).

(** [model_weights] and [model_participant_count]. *)
Definition ModelTotals : Type := gmap string Z * gmap string (gset string).

(** The body of the loop over [zip(models, ml_nodes_high_level)]. *)
Definition add_model_entry (participant_index : string) (acc : ModelTotals)
    (pair : string * MLNodesEntry) : ModelTotals :=
  let '(model, ml_nodes_entry) := pair in
  let '(model_weights, model_participant_count) :=
    match acc.1 !! model with
    | Some _ => acc
    | None => (<[model := 0]> acc.1, <[model := ∅]> acc.2)
    end in
  let model_weights :=
    foldl
      (λ weights ml_node,
         <[model := default 0 (weights !! model)
                    + default 0 (node_poc_weight ml_node)]> weights)
      model_weights (ml_nodes ml_nodes_entry) in
  (model_weights,
   <[model := default ∅ (model_participant_count !! model)
              ∪ {[participant_index]}]> model_participant_count).

Definition add_participant_models (acc : ModelTotals)
    (participant : EpochParticipant) : ModelTotals :=
  foldl (add_model_entry (ep_index participant)) acc
        (zip (ep_models participant) (ep_ml_nodes participant)).

Definition model_totals (participants : list EpochParticipant) : ModelTotals :=
  foldl add_participant_models (∅, ∅) participants.

(** [models_to_cache], by model id. *)
Definition models_to_cache (participants : list EpochParticipant)
    : gmap string CacheDB.ModelRow :=
  let '(model_weights, model_participant_count) := model_totals participants in
  map_imap
    (λ model_id total_weight,
       Some {| CacheDB.model_id := model_id;
               CacheDB.total_weight := total_weight;
               CacheDB.participant_count :=
                 Z.of_nat (size (default ∅ (model_participant_count
                                              !! model_id))) |})
    model_weights.

Definition model_info (cached_dict : gmap string CacheDB.ModelRow)
    (model : ModelDescriptor) : Models.ModelInfo :=
  let cached := cached_dict !! md_id model in
  {| Models.id := md_id model;
     Models.mi_total_weight := default 0 (CacheDB.total_weight <$> cached);
     Models.mi_participant_count :=
       default 0 (CacheDB.participant_count <$> cached);
     Models.proposed_by := md_proposed_by model;
     Models.v_ram := md_v_ram model;
     Models.throughput_per_nonce := md_throughput_per_nonce model;
     Models.units_of_compute_per_token := md_units_of_compute_per_token model;
     Models.hf_repo := md_hf_repo model;
     Models.hf_commit := md_hf_commit model;
     Models.model_args := md_model_args model;
     Models.validation_threshold := md_validation_threshold model |}.

(** What the two methods share once the epoch, its participants and the
    height are known; the state is the [models] table. *)
Definition models_response (epoch_id height : Z) (is_current : bool)
    (participants : list EpochParticipant) (table : CacheDB.models_table)
    : result Models.ModelsResponse * CacheDB.models_table :=
  let '(cached_dict, table) :=
    match CacheDB.get_models epoch_id table with
    | Some rows => (rows, table)
    | None =>
        let rows := models_to_cache participants in
        (rows,
         CacheDB.save_models_batch epoch_id (map_to_list rows).*2 table)
    end in
  match get_models_stats with
  | Raise e => (Raise e, table)
  | Ok stats_list =>
      match get_models_all with
      | Raise e => (Raise e, table)
      | Ok models_list =>
          (Ok {| Models.mr_epoch_id := epoch_id;
                 Models.mr_height := height;
                 Models.mr_models := model_info cached_dict <$> models_list;
                 Models.stats := stats_list;
                 Models.mr_cached_at := utcnow clock;
                 Models.mr_is_current := is_current |},
           table)
      end
  end.

Definition get_current_models (table : CacheDB.models_table)
    : result Models.ModelsResponse * CacheDB.models_table :=
  match get_current_epoch_participants client with
  | Raise e => (Raise e, table)
  | Ok epoch_data =>
      match get_latest_height client with
      | Raise e => (Raise e, table)
      | Ok height =>
          models_response (epoch_group_id epoch_data) height true
            (participants epoch_data) table
      end
  end.

Definition get_historical_models (epoch_id : Z) (height : option Z)
    (self : InferenceService) (table : CacheDB.models_table)
    : result Models.ModelsResponse * CacheDB.models_table :=
  match get_epoch_participants client epoch_id with
  | Raise e => (Raise e, table)
  | Ok epoch_data =>
      match fst (get_canonical_height epoch_id height self) with
      | Raise e => (Raise e, table)
      | Ok target_height =>
          models_response epoch_id target_height false
            (participants epoch_data) table
      end
  end.

End WithClient.

End Service.

(** * Specification-side notions *)

(** [k] ten-thousandths is [a / b] rounded to four decimals: the
    binary64 nearest to the quotient, then the nearest multiple of
    [10^-4] to that float. *)
Definition rounds_to4 (a b k : Z) : Prop :=
  ∃ n e,
    Py.truediv a b = Ok (Float n e)
    ∧ k = Py.round4 (Float n e)
    ∧ 2 * Z.abs (n * (b * 2 ^ Z.max 0 e) - a * 2 ^ Z.max 0 (- e))
      <= b * 2 ^ Z.max 0 e
    ∧ 2 * Z.abs (k * 2 ^ Z.max 0 (- e) - 10000 * n * 2 ^ Z.max 0 e)
      <= 2 ^ Z.max 0 (- e).


(** The canonical height of a historical epoch, in the words of the
    specification: ten blocks before the next epoch's effective height,
    or before [next_poc_start] while the next epoch cannot be queried. *)
Definition canonical_height (client : Upstream.GonkaClient)
    (latest_info : Upstream.LatestEpoch) (epoch_id : Z) : Z :=
  match Upstream.get_epoch_participants client (epoch_id + 1) with
  | Ok next_epoch_data => Upstream.effective_block_height next_epoch_data - 10
  | Raise _ => Upstream.next_poc_start latest_info - 10
  end.

(** What one participant contributes to the total of an epoch: the
    integer value of its summary's [rewarded_coins], when the summary
    is fetched and read. *)
Definition rewarded_ugnk (client : Upstream.GonkaClient) (epoch_id : Z)
    (participant : Upstream.EpochParticipant) : option Z :=
  match Upstream.get_epoch_performance_summary client epoch_id
          (Upstream.ep_index participant) with
  | Ok perf =>
      match Py.int (Upstream.ps_rewarded_coins perf) with
      | Ok amount => Some amount
      | Raise _ => None
      end
  | Raise _ => None
  end.

Definition sum_list (l : list Z) : Z := foldr Z.add 0 l.

(** Methods that leave a part [proj] of the service as it is, always
    or when they raise. *)
Definition keeps {X A} (proj : Service.InferenceService → X)
    (m : Service.M A) : Prop :=
  ∀ self, proj (snd (m self)) = proj self.

Definition keeps_on_failure {X A} (proj : Service.InferenceService → X)
    (m : Service.M A) : Prop :=
  ∀ self e self', m self = (Raise e, self') → proj self' = proj self.

(** The in-memory fields of the service. *)
Definition memory (self : Service.InferenceService)
    : option Z * option Models.InferenceResponse * option Z :=
  (Service.current_epoch_id self, Service.current_epoch_data self,
   Service.last_fetch_time self).

(** The table [epoch_status]. *)
Definition finished_epochs (self : Service.InferenceService)
    : gmap Z CacheDB.EpochStatus :=
  CacheDB.epoch_status (Service.cache_db self).

(** The table [epoch_total_rewards]. *)
Definition total_rewards (self : Service.InferenceService) : gmap Z Z :=
  CacheDB.epoch_total_rewards (Service.cache_db self).

(** ** Notions used by the properties of the caches *)

(** The row of [inference_stats] that [save_stats_batch] writes for a
    participant. *)
Definition stats_row (cached_at : string) (epoch_id height : Z)
    (stats : CacheDB.StatsDict) : CacheDB.StatsRow :=
  {| CacheDB.sr_epoch_id := epoch_id; CacheDB.sr_height := height;
     CacheDB.sr_participant_index :=
       Upstream.rp_index (CacheDB.sd_participant stats);
     CacheDB.sr_stats := stats;
     CacheDB.sr_seed_signature := CacheDB.sd_seed_signature stats;
     CacheDB.sr_cached_at := cached_at |}.

(** WHERE epoch_id = ? AND height = ? *)
Definition at_key (epoch_id height : Z) (r : CacheDB.StatsRow) : bool :=
  (CacheDB.sr_epoch_id r =? epoch_id) && (CacheDB.sr_height r =? height).

(** The column values of the INSERT for one inference. *)
Definition inference_row (i : CacheDB.Inference) : result CacheDB.InferenceRow :=
  CacheDB.row_of_values (CacheDB.inf_inference_id i) (CacheDB.inf_status i)
    (CacheDB.inf_start_block_height i) (CacheDB.inf_start_block_timestamp i) i.

(** A row of [epoch_status] that says "finished" is still there, as it
    was. *)
Definition finished_stay (before after : Service.InferenceService) : Prop :=
  ∀ epoch_id row,
    finished_epochs before !! epoch_id = Some row →
    CacheDB.is_finished row = true →
    finished_epochs after !! epoch_id = Some row.

(** The row a participant adds to [rewards_batch]. *)
Definition fetched_reward (client : Upstream.GonkaClient) (epoch_id : Z)
    (participant : Upstream.EpochParticipant) : option CacheDB.Reward :=
  match Upstream.get_epoch_performance_summary client epoch_id
          (Upstream.ep_index participant) with
  | Ok perf =>
      match Py.int (Upstream.ps_rewarded_coins perf) with
      | Ok _ =>
          Some (Service.reward_of_summary epoch_id
                  (Upstream.ep_index participant) perf)
      | Raise _ => None
      end
  | Raise _ => None
  end.

(** What one node writes into the map of poc weights. *)
Definition ml_node_entry (node : Upstream.MLNode) : option (string * Z) :=
  match Upstream.node_id node, Upstream.node_poc_weight node with
  | Some id, Some poc_weight =>
      if String.eqb id "" then None else Some (id, poc_weight)
  | _, _ => None
  end.

(** The pairs [zip(models, ml_nodes)] of all participants, each with the
    index of its participant, in the order of the loops. *)
Definition model_entries (participants : list Upstream.EpochParticipant)
    : list (string * (string * Upstream.MLNodesEntry)) :=
  participants ≫=
    (λ p, (λ pair, (Upstream.ep_index p, pair))
            <$> zip (Upstream.ep_models p) (Upstream.ep_ml_nodes p)).

(** The poc weight of the nodes of one entry; a node without weight
    counts for nothing. *)
Definition entry_weight (entry : Upstream.MLNodesEntry) : Z :=
  sum_list ((λ node, default 0 (Upstream.node_poc_weight node))
              <$> Upstream.ml_nodes entry).

Definition entries_of_model (model : string)
    (participants : list Upstream.EpochParticipant)
    : list (string * (string * Upstream.MLNodesEntry)) :=
  List.filter (λ e, String.eqb e.2.1 model) (model_entries participants).

(** The statistics as they are served: the in-memory response and the
    tables [inference_stats] and [epoch_status]. *)
Definition served (self : Service.InferenceService)
    : (option Z * option Models.InferenceResponse * option Z)
      * list CacheDB.StatsRow * gmap Z CacheDB.EpochStatus :=
  (memory self, CacheDB.inference_stats (Service.cache_db self),
   CacheDB.epoch_status (Service.cache_db self)).

(** A positive total of [epoch_total_rewards] is still there. *)
Definition positive_totals_stay (before after : Service.InferenceService)
    : Prop :=
  ∀ epoch_id total,
    total_rewards before !! epoch_id = Some total →
    0 < total →
    total_rewards after !! epoch_id = Some total.

(** The grants of a participant, when they can be fetched and stored,
    are the rows of its group in [participant_warm_keys]. *)
Definition granted_keys_cached (client : Upstream.GonkaClient) (epoch_id : Z)
    (index : string) (self : Service.InferenceService) : Prop :=
  ∀ warm_keys,
    Upstream.get_authz_grants client index = Ok warm_keys →
    warm_keys ≠ [] →
    NoDup (Upstream.grantee_address <$> warm_keys) →
    CacheDB.participant_warm_keys (Service.cache_db self) !! (epoch_id, index)
    = Some warm_keys.

(** What the caches of rewards, warm keys and hardware nodes answer
    before is answered after. *)
Definition cached_entries_stay (before after : Service.InferenceService)
    : Prop :=
  ∀ epoch_id participant_id,
    (∀ reward,
       CacheDB.get_reward epoch_id participant_id (Service.cache_db before)
       = Some reward →
       CacheDB.get_reward epoch_id participant_id (Service.cache_db after)
       = Some reward)
    ∧ (∀ rows,
         CacheDB.get_warm_keys epoch_id participant_id (Service.cache_db before)
         = Some rows →
         CacheDB.get_warm_keys epoch_id participant_id (Service.cache_db after)
         = Some rows)
    ∧ (∀ rows,
         CacheDB.get_hardware_nodes epoch_id participant_id
           (Service.cache_db before) = Some rows →
         CacheDB.get_hardware_nodes epoch_id participant_id
           (Service.cache_db after) = Some rows).

(** * Scenarios *)

Module Scenario.
Import Upstream.

Definition counters (inference_count missed_requests : string)
    : Models.CurrentEpochStats :=
  {| Models.inference_count := inference_count;
     Models.missed_requests := missed_requests;
     Models.earned_coins := "0";
     Models.rewarded_coins := "0";
     Models.burned_coins := "0";
     Models.validated_inferences := "0";
     Models.invalidated_inferences := "1" |}.

Definition epoch_participant (index : string) (weight : Z) (nodes : list MLNode)
    : EpochParticipant :=
  {| ep_index := index; ep_weight := weight; ep_models := ["model-a"];
     ep_validator_key := None; ep_inference_url := None;
     ep_seed_signature := Some "sig";
     ep_ml_nodes := [{| ml_nodes := nodes |}] |}.

Definition record (index : string) (stats : Models.CurrentEpochStats)
    : RawParticipant :=
  {| rp_index := index; rp_address := index; rp_inference_url := None;
     rp_status := Some "ACTIVE"; rp_current_epoch_stats := Some stats |}.

Definition P1 : EpochParticipant :=
  epoch_participant "P1" 100
    [{| node_id := Some "node1"; node_poc_weight := Some 0 |};
     {| node_id := Some "node2"; node_poc_weight := Some 30 |}].
Definition P2 : EpochParticipant := epoch_participant "P2" 200 [].
Definition R1 : RawParticipant := record "P1" (counters "10" "0").
Definition R2 : RawParticipant := record "P2" (counters "5" "5").

Definition group (epoch_id effective : Z) : EpochGroup :=
  {| epoch_group_id := epoch_id; effective_block_height := effective;
     participants := [P1; P2] |}.

Definition find_group (epochs : list EpochGroup) (epoch_id : Z)
    : result EpochGroup :=
  match List.find (λ g, epoch_group_id g =? epoch_id) epochs with
  | Some g => Ok g
  | None => Raise (Py.UpstreamError "epoch not found")
  end.

Definition hardware_node (local_id : string) (poc_weight : option Z)
    : HardwareNode :=
  {| local_id := local_id; hn_status := "INFERENCE"; hn_models := ["model-a"];
     hn_hardware := [{| hw_type := "gpu"; hw_count := 8 |}];
     hn_host := "host"; hn_port := "8080"; hn_poc_weight := poc_weight |}.

(** The hardware registry of every participant. *)
Definition registry : list HardwareNode :=
  [hardware_node "node1" (Some 7); hardware_node "node2" (Some 9);
   hardware_node "node3" (Some 5)].

(** A chain whose latest epoch is [current], at block [height], that
    knows the epoch groups [epochs]. *)
Definition chain (current next_poc height : Z) (epochs : list EpochGroup)
    (summary : Z → string → result PerformanceSummary)
    (grants : string → result (list WarmKey)) : GonkaClient :=
  {| get_latest_epoch :=
       Ok {| latest_epoch_index := current; next_poc_start := next_poc |};
     get_latest_height := Ok height;
     get_current_epoch_participants := find_group epochs current;
     get_epoch_participants := find_group epochs;
     get_all_participants := λ _, Ok [R1; R2];
     get_epoch_performance_summary := summary;
     get_authz_grants := grants;
     get_hardware_nodes := λ _, Ok registry;
     jail_statuses_at := λ _ _, Ok [];
     node_health_of := λ _, Ok [] |}.

(** Every base URL fails. *)
Definition down : GonkaClient :=
  {| get_latest_epoch := Raise Py.UpstreamUnavailable;
     get_latest_height := Raise Py.UpstreamUnavailable;
     get_current_epoch_participants := Raise Py.UpstreamUnavailable;
     get_epoch_participants := λ _, Raise Py.UpstreamUnavailable;
     get_all_participants := λ _, Raise Py.UpstreamUnavailable;
     get_epoch_performance_summary := λ _ _, Raise Py.UpstreamUnavailable;
     get_authz_grants := λ _, Raise Py.UpstreamUnavailable;
     get_hardware_nodes := λ _, Raise Py.UpstreamUnavailable;
     jail_statuses_at := λ _ _, Raise Py.UpstreamUnavailable;
     node_health_of := λ _, Raise Py.UpstreamUnavailable |}.

Definition no_summary : Z → string → result PerformanceSummary :=
  λ _ _, Raise (Py.UpstreamError "no summary").

Definition no_grants : string → result (list WarmKey) := λ _, Ok [].

Definition at_time (t : Z) : Clock := {| time := t; utcnow := "t" |}.

Definition cold : Service.InferenceService := Service.init CacheDB.empty.

(** Epoch 42 starts at block 10000 and epoch 43 at 10100; the chain is
    in epoch 44. *)
Definition settled : GonkaClient :=
  chain 44 10300 10250 [group 42 10000; group 43 10100; group 44 10200]
        no_summary no_grants.

(** Epoch 43 starts five blocks after epoch 42. *)
Definition short_epoch : GonkaClient :=
  chain 44 10300 10250 [group 42 10000; group 43 10005; group 44 10200]
        no_summary no_grants.

(** Summaries that are served but carry no reward yet. *)
Definition zero_summary : Z → string → result PerformanceSummary :=
  λ _ _, Ok {| ps_rewarded_coins := "0"; ps_claimed := false |}.

Definition unrewarded : GonkaClient :=
  chain 44 10300 10250 [group 42 10000; group 43 10100; group 44 10200]
        zero_summary no_grants.

(** The summaries of epoch 41 once it is settled: 3.5 GNK each. *)
Definition paid : Z → string → result PerformanceSummary :=
  λ epoch_id _,
    if epoch_id =? 41
    then Ok {| ps_rewarded_coins := "3500000000"; ps_claimed := false |}
    else Raise (Py.UpstreamError "no summary").

Definition key1 : WarmKey :=
  {| grantee_address := "gonka1warm"; granted_at := "2025-01-01T00:00:00Z" |}.

Definition granted : string → result (list WarmKey) := λ _, Ok [key1].

(** Epoch 41 is current and starts at block 10000; the chain is at
    block 10090, or at block 10080. *)
Definition before : GonkaClient :=
  chain 41 10100 10090 [group 41 10000] no_summary no_grants.

Definition before_early : GonkaClient :=
  chain 41 10100 10080 [group 41 10000] no_summary no_grants.

(** The same moment, once the participants have granted a warm key. *)
Definition before_granted : GonkaClient :=
  chain 41 10100 10090 [group 41 10000] no_summary granted.

(** Epoch 42 has started at block 10100; the chain is at block 10101. *)
Definition after : GonkaClient :=
  chain 42 10200 10101 [group 41 10000; group 42 10100] paid no_grants.

(** One round of the polling loop of the current epoch. *)
Definition tick (client : GonkaClient) (t : Z)
    (self : Service.InferenceService) : Service.InferenceService :=
  snd (Service.get_current_epoch_stats client (at_time t) true self).

(** The service after a first poll in epoch 41. *)
Definition warm : Service.InferenceService := tick before 1000 cold.

Definition warm_early : Service.InferenceService := tick before_early 1000 cold.

Definition queued_totals (self : Service.InferenceService) : list Z :=
  omap (λ t, match t with
             | Service.CalculateAndCacheTotalRewards epoch_id => Some epoch_id
             | Service.EnsureParticipantCaches _ _ => None
             end)
       (Service.tasks self).

(** Running the coroutines queued so far. *)
Definition drain (client : GonkaClient) (self : Service.InferenceService)
    : Service.InferenceService :=
  foldl (λ s task, snd (Service.run_task client task s))
        self (Service.tasks self).

(** What a details response shows of the warm keys and of the nodes. *)
Definition shown_warm_keys
    (r : result (option Models.ParticipantDetailsResponse))
    : option (list string) :=
  match r with
  | Ok (Some details) =>
      Some (Models.wk_grantee_address <$> Models.warm_keys details)
  | _ => None
  end.

Definition shown_poc_weights
    (r : result (option Models.ParticipantDetailsResponse))
    : option (list (string * option Z)) :=
  match r with
  | Ok (Some details) =>
      Some ((λ n, (Models.ml_local_id n, Models.poc_weight n))
              <$> Models.ml_nodes details)
  | _ => None
  end.

Definition cached_ml_nodes_map (participant_id : string) (epoch_id : Z)
    (self : Service.InferenceService) : gmap string Z :=
  default ∅
    (CacheDB.sd_ml_nodes_map ∘ CacheDB.sr_stats
       <$> Service.find_cached_row participant_id
             (CacheDB.get_stats epoch_id None (Service.cache_db self))).

Definition example_stats : Models.ParticipantStats :=
  Service.new_participant_stats R2 None (counters "5" "5").

(** A second warm key, granted a month later. *)
Definition key2 : WarmKey :=
  {| grantee_address := "gonka1cold"; granted_at := "2025-02-01T00:00:00Z" |}.

(** The service after the poll at block 10101 has seen epoch 42: the
    total of epoch 41 is cached. *)
Definition transitioned : Service.InferenceService := tick after 1030 warm.

(** A reward of P1 for epoch 40 that is cached as claimed. *)
Definition claimed_reward : CacheDB.Reward :=
  {| CacheDB.rw_epoch_id := 40; CacheDB.rw_participant_id := "P1";
     CacheDB.rw_rewarded_coins := "5000000000"; CacheDB.rw_claimed := true |}.

Definition rewarded : Service.InferenceService :=
  Service.init (CacheDB.save_reward_batch [claimed_reward] CacheDB.empty).

(** Summaries read at a block: those of [paid]. *)
Definition paid_at : Z → Z → string → result PerformanceSummary :=
  λ _, paid.

Definition inference (inference_id started : string) : CacheDB.Inference :=
  {| CacheDB.inf_inference_id := Some inference_id;
     CacheDB.inf_status := Some "FINISHED";
     CacheDB.inf_start_block_height := Some "10001";
     CacheDB.inf_start_block_timestamp := Some started;
     CacheDB.inf_validated_by := ["P2"];
     CacheDB.inf_prompt_hash := None;
     CacheDB.inf_response_hash := None;
     CacheDB.inf_prompt_payload := None;
     CacheDB.inf_response_payload := None;
     CacheDB.inf_prompt_token_count := Some "12";
     CacheDB.inf_completion_token_count := Some "34";
     CacheDB.inf_model := Some "model-a" |}.

Definition inference_stored (inference_id started : string)
    : CacheDB.InferenceRow :=
  {| CacheDB.ir_inference_id := inference_id;
     CacheDB.ir_status := "FINISHED";
     CacheDB.ir_start_block_height := "10001";
     CacheDB.ir_start_block_timestamp := started;
     CacheDB.ir_validated_by := ["P2"];
     CacheDB.ir_prompt_hash := None;
     CacheDB.ir_response_hash := None;
     CacheDB.ir_prompt_payload := None;
     CacheDB.ir_response_payload := None;
     CacheDB.ir_prompt_token_count := Some "12";
     CacheDB.ir_completion_token_count := Some "34";
     CacheDB.ir_model := Some "model-a" |}.

Definition model_a : Service.ModelDescriptor :=
  {| Service.md_id := "model-a"; Service.md_proposed_by := "gonka1gov";
     Service.md_v_ram := "80"; Service.md_throughput_per_nonce := "1000";
     Service.md_units_of_compute_per_token := "100";
     Service.md_hf_repo := "org/model-a"; Service.md_hf_commit := "abc";
     Service.md_model_args := []; Service.md_validation_threshold := [] |}.

End Scenario.

(** * Properties *)

(** ** Rounding *)

Lemma rne_spec p q :
  0 < q → 2 * Z.abs (Py.rne p q * q - p) <= q.
Proof.
  intros Hq. unfold Py.rne.
  pose proof (Z.div_mod p q ltac:(lia)) as Hdm.
  pose proof (Z.mod_pos_bound p q Hq) as Hm.
  destruct (Z.ltb_spec (2 * (p mod q)) q); [nia|].
  destruct (Z.ltb_spec q (2 * (p mod q))); [nia|].
  destruct (Z.even (p / q)); nia.
Qed.

Lemma rne_le p q N :
  0 < q → p <= N * q → Py.rne p q <= N.
Proof.
  intros Hq Hp. unfold Py.rne.
  pose proof (Z.div_mod p q ltac:(lia)) as Hdm.
  pose proof (Z.mod_pos_bound p q Hq) as Hm.
  assert (p / q <= N) by (apply Z.div_le_upper_bound; lia).
  assert (p / q = N → p mod q = 0) by nia.
  destruct (Z.ltb_spec (2 * (p mod q)) q); [lia|].
  destruct (Z.ltb_spec q (2 * (p mod q))); [|destruct (Z.even (p / q))]; nia.
Qed.

Lemma rne_nonneg p q :
  0 < q → 0 <= p → 0 <= Py.rne p q.
Proof.
  intros Hq Hp. unfold Py.rne.
  assert (0 <= p / q) by (apply Z.div_pos; lia).
  repeat case_match; lia.
Qed.

Lemma b64_exponent_le_unit p q :
  0 < p → p <= q → Py.b64_exponent p q <= -52.
Proof.
  intros Hp Hpq. unfold Py.b64_exponent.
  pose proof (Z.log2_le_mono p q Hpq).
  case_match; lia.
Qed.

Lemma b64_exponent_bounded p q :
  0 < p < 2 ^ 1023 → 0 < q → Py.b64_exponent p q <= 970.
Proof.
  intros [Hp Hlt] Hq. unfold Py.b64_exponent.
  assert (Z.log2 p < 1023) by (apply Z.log2_lt_pow2; lia).
  pose proof (Z.log2_nonneg q).
  case_match; lia.
Qed.

Lemma pow2_pos e : 0 < 2 ^ Z.max 0 e.
Proof. apply Z.pow_pos_nonneg; lia. Qed.

Lemma truediv_zero b : b ≠ 0 → Py.truediv 0 b = Ok (Float 0 0).
Proof. intros Hb. unfold Py.truediv. by destruct (Z.eqb_spec b 0). Qed.

Lemma truediv_pos a b :
  0 < a → 0 < b → Py.b64_exponent a b <= 970 →
  Py.truediv a b =
  Ok (Float (Py.rne (a * 2 ^ Z.max 0 (- Py.b64_exponent a b))
                    (b * 2 ^ Z.max 0 (Py.b64_exponent a b)))
            (Py.b64_exponent a b)).
Proof.
  intros Ha Hb He. unfold Py.truediv.
  destruct (Z.eqb_spec b 0) as [|_]; [lia|].
  destruct (Z.eqb_spec a 0) as [|_]; [lia|].
  rewrite !Z.abs_eq by lia.
  set (e := Py.b64_exponent a b) in *.
  assert (Hov : ∀ n, (971 <? e) || ((e =? 971) && (2 ^ 53 <=? n)) = false).
  { intros n. apply orb_false_iff. split; [apply Z.ltb_ge; lia|].
    apply andb_false_iff. left. apply Z.eqb_neq. lia. }
  rewrite Hov. do 2 f_equal.
  rewrite !Z.sgn_pos by lia. lia.
Qed.

Lemma truediv_rounds a b :
  0 <= a → 0 < b → (a = 0 ∨ Py.b64_exponent a b <= 970) →
  ∃ k, rounds_to4 a b k.
Proof.
  intros Ha Hb He. unfold rounds_to4.
  destruct (decide (a = 0)) as [->|Hne].
  - exists 0, 0, 0. rewrite truediv_zero by lia.
    split_and!; [done|done|simpl; lia|]. vm_compute. discriminate.
  - destruct He as [|He]; [done|].
    set (e := Py.b64_exponent a b) in *.
    pose proof (pow2_pos e). pose proof (pow2_pos (- e)).
    eexists _, _, e. rewrite truediv_pos by lia. fold e.
    split_and!; [done|done| |].
    + apply (rne_spec (a * 2 ^ Z.max 0 (- e)) (b * 2 ^ Z.max 0 e)). nia.
    + unfold Py.round4. simpl. by apply rne_spec.
Qed.

Lemma truediv_rounds_unit a b :
  0 <= a → a <= b → 0 < b →
  ∃ k, rounds_to4 a b k ∧ 0 <= k <= 10000
       ∧ 2 ^ 53 * Z.abs (k * b - 10000 * a) <= (2 ^ 52 + 10000) * b.
Proof.
  intros Ha Hab Hb. unfold rounds_to4.
  destruct (decide (a = 0)) as [->|Hne].
  - exists 0. split_and!; [|lia|lia|lia].
    exists 0, 0. rewrite truediv_zero by lia.
    split_and!; [done|done|simpl; lia|]. vm_compute. discriminate.
  - pose proof (b64_exponent_le_unit a b ltac:(lia) Hab) as He.
    set (e := Py.b64_exponent a b) in *.
    pose proof (pow2_pos (- e)) as HE.
    assert (HE52 : 2 ^ 52 <= 2 ^ Z.max 0 (- e))
      by (apply Z.pow_le_mono_r; lia).
    assert (Hmax : Z.max 0 e = 0) by lia.
    set (n := Py.rne (a * 2 ^ Z.max 0 (- e)) (b * 2 ^ Z.max 0 e)).
    assert (Hn : 2 * Z.abs (n * (b * 2 ^ Z.max 0 e) - a * 2 ^ Z.max 0 (- e))
                 <= b * 2 ^ Z.max 0 e).
    { apply rne_spec. rewrite Hmax. lia. }
    assert (Hn0 : 0 <= n).
    { apply rne_nonneg; rewrite ?Hmax; nia. }
    assert (Hn1 : n <= 2 ^ Z.max 0 (- e)).
    { apply rne_le; rewrite ?Hmax; nia. }
    set (k := Py.round4 (Float n e)).
    assert (Hk : 2 * Z.abs (k * 2 ^ Z.max 0 (- e) - 10000 * n * 2 ^ Z.max 0 e)
                 <= 2 ^ Z.max 0 (- e)).
    { unfold k, Py.round4. simpl. by apply rne_spec. }
    assert (Hk0 : 0 <= k).
    { unfold k, Py.round4. simpl. apply rne_nonneg; rewrite ?Hmax; nia. }
    assert (Hk1 : k <= 10000).
    { unfold k, Py.round4. simpl. apply rne_le; rewrite ?Hmax; nia. }
    exists k. split_and!; [|done|done|].
    + exists n, e. by rewrite truediv_pos by lia.
    + rewrite Hmax in *. rewrite !Z.pow_0_r, !Z.mul_1_r in *.
      clearbody k n. clear Hn0 Hn1 Hk0 Hk1.
      generalize dependent (2 ^ Z.max 0 (- e)). intros E HE HE52 Hn Hk.
      assert (Hd : 2 * E * Z.abs (k * b - 10000 * a) <= b * E + 10000 * b) by nia.
      nia.
Qed.

(** ** The derived rates of [ParticipantStats] *)



(** ** Canonical height *)

Lemma get_canonical_height_unfold client epoch_id requested_height
    latest_info epoch_data self :
  Upstream.get_latest_epoch client = Ok latest_info →
  epoch_id ≠ Upstream.latest_epoch_index latest_info →
  Upstream.get_epoch_participants client epoch_id = Ok epoch_data →
  Service.get_canonical_height client epoch_id requested_height self =
  (let canonical := canonical_height client latest_info epoch_id in
   match requested_height with
   | None => Ok canonical
   | Some requested =>
       if requested <? Upstream.effective_block_height epoch_data
       then Raise (Py.InvalidHeight epoch_id requested
                     (Upstream.effective_block_height epoch_data))
       else if canonical <=? requested then Ok canonical else Ok requested
   end, self).
Proof.
  intros Hl Hne He.
  unfold Service.get_canonical_height, canonical_height, mbind,
    Service.M_bind, Service.await, Service.try_except, mret, Service.M_ret,
    Service.raise.
  rewrite Hl. destruct (Z.eqb_spec epoch_id (Upstream.latest_epoch_index
                                                latest_info)); [done|].
  rewrite He.
  destruct (Upstream.get_epoch_participants client (epoch_id + 1));
    destruct requested_height; simpl; repeat case_match; done.
Qed.

(** C1, as amended.  For a historical epoch whose group can be read,
    [get_canonical_height] without a requested height returns the next
    epoch's effective height minus 10, or [next_poc_start - 10] while
    the next epoch cannot be queried; and a requested height that is at
    least the canonical height and not below the epoch's own effective
    height is clamped to the canonical height. *)
Theorem get_canonical_height_historical client epoch_id latest_info
    epoch_data self :
  Upstream.get_latest_epoch client = Ok latest_info →
  epoch_id < Upstream.latest_epoch_index latest_info →
  Upstream.get_epoch_participants client epoch_id = Ok epoch_data →
  Service.get_canonical_height client epoch_id None self
  = (Ok (canonical_height client latest_info epoch_id), self)
  ∧ ∀ requested,
      canonical_height client latest_info epoch_id <= requested →
      Upstream.effective_block_height epoch_data <= requested →
      Service.get_canonical_height client epoch_id (Some requested) self
      = (Ok (canonical_height client latest_info epoch_id), self).
Proof.
  intros Hl Hlt He.
  assert (Hne : epoch_id ≠ Upstream.latest_epoch_index latest_info) by lia.
  split.
  - by rewrite (get_canonical_height_unfold _ _ _ _ _ _ Hl Hne He).
  - intros requested Hc Heff.
    rewrite (get_canonical_height_unfold _ _ _ _ _ _ Hl Hne He).
    simpl.
    destruct (Z.ltb_spec requested (Upstream.effective_block_height epoch_data));
      [lia|].
    destruct (Z.leb_spec (canonical_height client latest_info epoch_id)
                requested); [done|lia].
Qed.

Lemma get_canonical_height_historical_witness :
  Service.get_canonical_height Scenario.settled 42 None Scenario.cold
  = (Ok 10090, Scenario.cold)
  ∧ ∀ requested,
      10090 <= requested → 10000 <= requested →
      Service.get_canonical_height Scenario.settled 42 (Some requested)
        Scenario.cold
      = (Ok 10090, Scenario.cold).
Proof.
  apply (get_canonical_height_historical Scenario.settled 42
           {| Upstream.latest_epoch_index := 44;
              Upstream.next_poc_start := 10300 |}
           (Scenario.group 42 10000) Scenario.cold);
    [reflexivity | simpl; lia | reflexivity].
Defined.

(** The clamp of C1 as stated fails when the requested height lies
    between the canonical height and the epoch's effective height:
    epoch 42 starts at 10000, epoch 43 at 10005, so the canonical height
    is 9995, and a request for 9996 is refused. *)
Lemma get_canonical_height_clamp_counterexample :
  Upstream.get_latest_epoch Scenario.short_epoch
  = Ok {| Upstream.latest_epoch_index := 44; Upstream.next_poc_start := 10300 |}
  ∧ 42 < 44
  ∧ canonical_height Scenario.short_epoch
      {| Upstream.latest_epoch_index := 44; Upstream.next_poc_start := 10300 |}
      42 = 9995
  ∧ 9995 <= 9996
  ∧ Service.get_canonical_height Scenario.short_epoch 42 (Some 9996)
      Scenario.cold
    = (Raise (Py.InvalidHeight 42 9996 10000), Scenario.cold)
  ∧ fst (Service.get_canonical_height Scenario.short_epoch 42 (Some 9996)
           Scenario.cold) ≠ Ok 9995.
Proof. split_and!; [reflexivity | lia | reflexivity | lia | reflexivity | done]. Qed.

(** C2.  For a historical epoch, a requested height below the epoch's
    effective height makes [get_canonical_height] fail with
    InvalidHeight; no height is returned. *)
Theorem get_canonical_height_too_early client epoch_id latest_info
    epoch_data requested self :
  Upstream.get_latest_epoch client = Ok latest_info →
  epoch_id < Upstream.latest_epoch_index latest_info →
  Upstream.get_epoch_participants client epoch_id = Ok epoch_data →
  requested < Upstream.effective_block_height epoch_data →
  Service.get_canonical_height client epoch_id (Some requested) self
  = (Raise (Py.InvalidHeight epoch_id requested
              (Upstream.effective_block_height epoch_data)), self).
Proof.
  intros Hl Hlt He Hreq.
  assert (Hne : epoch_id ≠ Upstream.latest_epoch_index latest_info) by lia.
  rewrite (get_canonical_height_unfold _ _ _ _ _ _ Hl Hne He). simpl.
  by destruct (Z.ltb_spec requested
                 (Upstream.effective_block_height epoch_data)); [|lia].
Qed.

Lemma get_canonical_height_too_early_witness :
  Service.get_canonical_height Scenario.settled 42 (Some 9000) Scenario.cold
  = (Raise (Py.InvalidHeight 42 9000 10000), Scenario.cold).
Proof.
  apply (get_canonical_height_too_early Scenario.settled 42
           {| Upstream.latest_epoch_index := 44;
              Upstream.next_poc_start := 10300 |}
           (Scenario.group 42 10000) 9000 Scenario.cold);
    [reflexivity | simpl; lia | reflexivity | simpl; lia].
Defined.

(** ** Total rewards of an epoch *)

Lemma add_reward_fetched client epoch_id acc p amount :
  rewarded_ugnk client epoch_id p = Some amount →
  Service.total_ugnk (Service.add_reward client epoch_id acc p)
  = Service.total_ugnk acc + amount
  ∧ Service.fetched_count (Service.add_reward client epoch_id acc p)
    = Service.fetched_count acc + 1.
Proof.
  unfold rewarded_ugnk, Service.add_reward.
  destruct (Upstream.get_epoch_performance_summary _ _ _) as [perf|]; [|done].
  destruct (Py.int _); [|done]. by intros [= ->].
Qed.

Lemma add_reward_skipped client epoch_id acc p :
  rewarded_ugnk client epoch_id p = None →
  Service.add_reward client epoch_id acc p = acc.
Proof.
  unfold rewarded_ugnk, Service.add_reward.
  destruct (Upstream.get_epoch_performance_summary _ _ _) as [perf|]; [|done].
  by destruct (Py.int _).
Qed.

Lemma omap_cons {A B} (f : A → option B) (x : A) (l : list A) :
  omap f (x :: l)
  = match f x with Some y => y :: omap f l | None => omap f l end.
Proof. done. Qed.

Lemma sum_rewards_fold client epoch_id
    (ps : list Upstream.EpochParticipant) acc :
  let r := foldl (Service.add_reward client epoch_id) acc ps in
  let amounts : list Z := omap (rewarded_ugnk client epoch_id) ps in
  Service.total_ugnk r = Service.total_ugnk acc + sum_list amounts
  ∧ Service.fetched_count r
    = Service.fetched_count acc + Z.of_nat (List.length amounts)
  ∧ (amounts = [] → r = acc).
Proof.
  revert acc. induction ps as [|p ps IH]; intros acc.
  - simpl. split_and!; [lia | lia | done].
  - cbn [foldl]. rewrite omap_cons.
    destruct (IH (Service.add_reward client epoch_id acc p))
      as (IHt & IHc & IHe).
    rewrite IHt, IHc. clear IHt IHc.
    destruct (rewarded_ugnk client epoch_id p) as [amount|] eqn:Hp.
    + destruct (add_reward_fetched client epoch_id acc p amount Hp)
        as [-> ->].
      unfold sum_list. cbn [foldr List.length].
      split_and!; [lia | lia | done].
    + rewrite (add_reward_skipped client epoch_id acc p Hp) in *.
      split_and!; [lia | lia | done].
Qed.

Lemma sum_rewards_total client epoch_id ps :
  Service.total_ugnk (Service.sum_rewards client epoch_id ps)
  = sum_list (omap (rewarded_ugnk client epoch_id) ps).
Proof.
  unfold Service.sum_rewards.
  by destruct (sum_rewards_fold client epoch_id ps
                 {| Service.total_ugnk := 0; Service.fetched_count := 0;
                    Service.rewards_batch := [];
                    Service.participants_with_rewards := 0 |}) as (-> & _).
Qed.

Lemma sum_rewards_fetched client epoch_id ps :
  Service.fetched_count (Service.sum_rewards client epoch_id ps)
  = Z.of_nat (List.length (omap (rewarded_ugnk client epoch_id) ps)).
Proof.
  unfold Service.sum_rewards.
  by destruct (sum_rewards_fold client epoch_id ps
                 {| Service.total_ugnk := 0; Service.fetched_count := 0;
                    Service.rewards_batch := [];
                    Service.participants_with_rewards := 0 |}) as (_ & -> & _).
Qed.



(** C10.  When every summary fetch of the pass fails, the guard does
    not apply and [_calculate_and_cache_total_rewards] stores a total
    of 0 GNK for the epoch. *)
Theorem all_failed_total_cached_zero client epoch_id epoch_data self :
  Upstream.get_epoch_participants client epoch_id = Ok epoch_data →
  (∀ p, p ∈ Upstream.participants epoch_data →
        ∃ e, Upstream.get_epoch_performance_summary client epoch_id
               (Upstream.ep_index p) = Raise e) →
  ∃ self',
    Service._calculate_and_cache_total_rewards client epoch_id self
    = (Ok tt, self')
    ∧ Service.cache_db self'
      = CacheDB.save_epoch_total_rewards epoch_id 0 (Service.cache_db self)
    ∧ CacheDB.get_epoch_total_rewards epoch_id (Service.cache_db self')
      = Some 0.
Proof.
  intros He Hfail.
  assert (Hnil : omap (rewarded_ugnk client epoch_id)
                      (Upstream.participants epoch_data) = []).
  { induction (Upstream.participants epoch_data) as [|p ps IH]; [done|].
    simpl. destruct (Hfail p) as [e Hp]; [left|].
    unfold rewarded_ugnk at 1. rewrite Hp.
    apply IH. intros q Hq. apply Hfail. by right. }
  unfold Service._calculate_and_cache_total_rewards, Service.try_except,
    mbind, Service.M_bind, Service.await.
  rewrite He. unfold Service.sum_rewards.
  destruct (sum_rewards_fold client epoch_id (Upstream.participants epoch_data)
              {| Service.total_ugnk := 0; Service.fetched_count := 0;
                 Service.rewards_batch := [];
                 Service.participants_with_rewards := 0 |}) as (_ & _ & Hacc).
  rewrite (Hacc Hnil).
  simpl. eexists. split_and!; [done | done |].
  unfold CacheDB.get_epoch_total_rewards, CacheDB.save_epoch_total_rewards.
  simpl. apply lookup_insert_eq.
Qed.

Lemma all_failed_total_cached_zero_witness :
  ∃ self',
    Service._calculate_and_cache_total_rewards Scenario.settled 42
      Scenario.cold
    = (Ok tt, self')
    ∧ Service.cache_db self'
      = CacheDB.save_epoch_total_rewards 42 0 (Service.cache_db Scenario.cold)
    ∧ CacheDB.get_epoch_total_rewards 42 (Service.cache_db self') = Some 0.
Proof.
  apply (all_failed_total_cached_zero Scenario.settled 42
           (Scenario.group 42 10000) Scenario.cold).
  - reflexivity.
  - intros p _. by exists (Py.UpstreamError "no summary").
Defined.

(** ** What the service methods leave in memory *)

Create HintDb keeps discriminated.

Section Keeps.
Context {X A B : Type} (proj : Service.InferenceService → X).

Lemma keeps_mret (a : A) : keeps proj (mret a).
Proof. done. Qed.

Lemma keeps_raise (e : exn) : keeps proj (@Service.raise A e).
Proof. done. Qed.

Lemma keeps_await (r : result A) : keeps proj (Service.await r).
Proof. done. Qed.

Lemma keeps_read (f : Service.InferenceService → A) :
  keeps proj (Service.read f).
Proof. done. Qed.

Lemma keeps_query (f : CacheDB.t → A) : keeps proj (Service.query f).
Proof. done. Qed.

Lemma keeps_bind (m : Service.M A) (f : A → Service.M B) :
  keeps proj m → (∀ a, keeps proj (f a)) → keeps proj (m ≫= f).
Proof.
  intros Hm Hf self. unfold mbind, Service.M_bind.
  specialize (Hm self). destruct (m self) as [[a|e] self']; simpl in *.
  - by rewrite Hf.
  - done.
Qed.

Lemma keeps_try_except (m : Service.M A) (h : exn → Service.M A) :
  keeps proj m → (∀ e, keeps proj (h e)) →
  keeps proj (Service.try_except m h).
Proof.
  intros Hm Hh self. unfold Service.try_except.
  specialize (Hm self). destruct (m self) as [[a|e] self']; simpl in *.
  - done.
  - by rewrite Hh.
Qed.

Lemma keeps_fails (m : Service.M A) : keeps proj m → keeps_on_failure proj m.
Proof.
  intros Hm self e self' Hrun. specialize (Hm self). by rewrite Hrun in Hm.
Qed.

Lemma keeps_on_failure_bind (m : Service.M A) (f : A → Service.M B) :
  keeps proj m → (∀ a, keeps_on_failure proj (f a)) →
  keeps_on_failure proj (m ≫= f).
Proof.
  intros Hm Hf self e self'. unfold mbind, Service.M_bind.
  specialize (Hm self). destruct (m self) as [[a|e'] self1]; simpl in *.
  - intros Hrun. by rewrite (Hf _ _ _ _ Hrun).
  - by intros [= _ <-].
Qed.

End Keeps.

Lemma memory_execute f : keeps memory (Service.execute f).
Proof. done. Qed.

Lemma memory_execute_checked f : keeps memory (Service.execute_checked f).
Proof. intros self. unfold Service.execute_checked. by destruct (f _). Qed.

Lemma memory_create_task t : keeps memory (Service.create_task t).
Proof. done. Qed.

Lemma finished_epochs_create_task t :
  keeps finished_epochs (Service.create_task t).
Proof. done. Qed.

(** Every write but [mark_epoch_finished] leaves [epoch_status] alone. *)
Lemma finished_epochs_execute f :
  (∀ db, CacheDB.epoch_status (f db) = CacheDB.epoch_status db) →
  keeps finished_epochs (Service.execute f).
Proof. intros Hf self. apply Hf. Qed.

Lemma epoch_status_save_jail_status_batch epoch_id jail_statuses db :
  CacheDB.epoch_status (CacheDB.save_jail_status_batch epoch_id jail_statuses db)
  = CacheDB.epoch_status db.
Proof. by destruct jail_statuses. Qed.

Lemma epoch_status_save_node_health_batch last_check health_statuses db :
  CacheDB.epoch_status
    (CacheDB.save_node_health_batch last_check health_statuses db)
  = CacheDB.epoch_status db.
Proof. done. Qed.

Lemma epoch_status_save_reward_batch rewards db :
  CacheDB.epoch_status (CacheDB.save_reward_batch rewards db)
  = CacheDB.epoch_status db.
Proof. done. Qed.

Lemma epoch_status_save_epoch_total_rewards epoch_id total db :
  CacheDB.epoch_status (CacheDB.save_epoch_total_rewards epoch_id total db)
  = CacheDB.epoch_status db.
Proof. done. Qed.

Lemma epoch_status_delete_epoch_total_rewards epoch_id db :
  CacheDB.epoch_status (CacheDB.delete_epoch_total_rewards epoch_id db)
  = CacheDB.epoch_status db.
Proof. done. Qed.

#[local] Hint Resolve keeps_mret keeps_raise keeps_await keeps_read keeps_query
  memory_execute memory_execute_checked memory_create_task
  finished_epochs_create_task : keeps.
#[local] Hint Extern 2 (keeps finished_epochs (Service.execute _)) =>
  apply finished_epochs_execute; intros;
  first [ apply epoch_status_save_jail_status_batch
        | apply epoch_status_save_node_health_batch
        | apply epoch_status_save_reward_batch
        | apply epoch_status_save_epoch_total_rewards
        | apply epoch_status_delete_epoch_total_rewards ] : keeps.

Ltac keeps_step :=
  match goal with
  | |- keeps _ (_ ≫= _) => apply keeps_bind; [|intros]
  | |- keeps _ (Service.try_except _ _) => apply keeps_try_except; [|intros]
  | |- keeps _ (match ?x with _ => _ end) => destruct x
  | |- keeps _ (if ?x then _ else _) => destruct x
  | |- keeps _ (let '(_, _) := ?x in _) => destruct x
  | |- keeps _ _ => solve [auto with keeps]
  end.

Ltac keeps := repeat keeps_step.

Lemma keeps_get_canonical_height {X} (proj : Service.InferenceService → X)
    client epoch_id requested_height :
  keeps proj (Service.get_canonical_height client epoch_id requested_height).
Proof. unfold Service.get_canonical_height. keeps. Qed.

#[local] Hint Resolve keeps_get_canonical_height : keeps.

Lemma memory_merge client clock epoch_id participants height active :
  keeps memory
    (Service.merge_jail_and_health_data client clock epoch_id participants
       height active).
Proof.
  unfold Service.merge_jail_and_health_data,
    Service.fetch_and_cache_jail_statuses, Service.fetch_and_cache_node_health.
  keeps.
Qed.

Lemma memory_calculate client epoch_id :
  keeps memory (Service._calculate_and_cache_total_rewards client epoch_id).
Proof. unfold Service._calculate_and_cache_total_rewards. keeps. Qed.

#[local] Hint Resolve memory_merge memory_calculate : keeps.

Lemma memory_historical client clock epoch_id height sync :
  keeps memory
    (Service.get_historical_epoch_stats client clock epoch_id height sync).
Proof. unfold Service.get_historical_epoch_stats. keeps. Qed.

#[local] Hint Resolve memory_historical : keeps.

Lemma memory_mark client clock current_epoch_id current_height :
  keeps memory
    (Service._mark_epoch_finished_if_needed client clock current_epoch_id
       current_height).
Proof. unfold Service._mark_epoch_finished_if_needed. keeps. Qed.

Lemma finished_epochs_merge client clock epoch_id participants height active :
  keeps finished_epochs
    (Service.merge_jail_and_health_data client clock epoch_id participants
       height active).
Proof.
  unfold Service.merge_jail_and_health_data,
    Service.fetch_and_cache_jail_statuses, Service.fetch_and_cache_node_health.
  keeps.
Qed.

Lemma finished_epochs_calculate client epoch_id :
  keeps finished_epochs
    (Service._calculate_and_cache_total_rewards client epoch_id).
Proof. unfold Service._calculate_and_cache_total_rewards. keeps. Qed.

#[local] Hint Resolve finished_epochs_merge finished_epochs_calculate : keeps.

(** ** Failure of the current-epoch fetch *)

Lemma fetch_current_epoch_stats_failure client clock current_time :
  keeps_on_failure memory
    (Service.fetch_current_epoch_stats client clock current_time).
Proof.
  unfold Service.fetch_current_epoch_stats.
  apply keeps_on_failure_bind; [auto with keeps|intros height].
  apply keeps_on_failure_bind; [auto with keeps|intros epoch_data].
  apply keeps_on_failure_bind; [apply memory_mark|intros _].
  apply keeps_on_failure_bind; [auto with keeps|intros participants_list].
  destruct (Service.fuse_participants _ _) as [participants_stats stats_for_saving].
  apply keeps_on_failure_bind; [auto with keeps|intros merged].
  intros self e self'. by cbv [mbind Service.M_bind Service.execute
    Service.publish Service.create_task mret Service.M_ret].
Qed.

Lemma fetch_fails_when_down client clock current_time self e :
  Upstream.get_latest_height client = Raise e →
  Service.fetch_current_epoch_stats client clock current_time self
  = (Raise e, self).
Proof.
  intros Hdown. unfold Service.fetch_current_epoch_stats, mbind,
    Service.M_bind, Service.await. by rewrite Hdown.
Qed.

(** C5.  When the fresh fetch of the current epoch fails with an
    exception [e] (as it does when every base URL fails),
    [get_current_epoch_stats] returns the response cached in memory
    before the call if there is one, and raises [e] otherwise. *)
Theorem current_epoch_stats_fallback client clock reload self e self' :
  Service.fetch_current_epoch_stats client clock (time clock) self
  = (Raise e, self') →
  fst (Service.get_current_epoch_stats client clock reload self)
  = match Service.current_epoch_data self with
    | Some data => Ok data
    | None => Raise e
    end.
Proof.
  intros Hfail.
  pose proof (fetch_current_epoch_stats_failure _ _ _ _ _ _ Hfail) as Hmem.
  assert (Hdata : Service.current_epoch_data self'
                  = Service.current_epoch_data self)
    by (unfold memory in Hmem; congruence).
  unfold Service.get_current_epoch_stats, mbind, Service.M_bind, Service.read,
    Service.try_except.
  destruct (Service.cache_is_fresh clock reload self),
    (Service.current_epoch_data self) as [data|] eqn:Hcached;
    rewrite ?Hfail; simpl; rewrite ?Hdata; done.
Qed.

(** ** The cold read of the current epoch *)

Lemma overlay_index jail_map health_map p :
  Models.index (Service.overlay jail_map health_map p) = Models.index p.
Proof. unfold Service.overlay. by repeat case_match. Qed.

Lemma overlay_weight jail_map health_map p :
  Models.weight (Service.overlay jail_map health_map p) = Models.weight p.
Proof. unfold Service.overlay. by repeat case_match. Qed.

Lemma overlay_missed_rate jail_map health_map p :
  Models.missed_rate (Service.overlay jail_map health_map p)
  = Models.missed_rate p.
Proof. unfold Service.overlay. by repeat case_match. Qed.

Lemma merge_returns client clock epoch_id participants height active self :
  ∃ jail_map health_map self',
    Service.merge_jail_and_health_data client clock epoch_id participants
      height active self
    = (Ok (Service.overlay jail_map health_map <$> participants), self').
Proof.
  unfold Service.merge_jail_and_health_data,
    Service.fetch_and_cache_jail_statuses, Service.fetch_and_cache_node_health,
    Service.try_except, mbind, Service.M_bind, Service.query, Service.await,
    Service.execute, mret, Service.M_ret.
  simpl. repeat (case_match; simplify_eq/=); eauto.
Qed.

Lemma mark_cold client clock current_epoch_id current_height self :
  Service.current_epoch_id self = None →
  Service._mark_epoch_finished_if_needed client clock current_epoch_id
    current_height self = (Ok tt, self).
Proof.
  intros Hcold. unfold Service._mark_epoch_finished_if_needed, mbind,
    Service.M_bind, Service.read. by rewrite Hcold.
Qed.

Lemma fuse_fold (data : gmap string Service.EpochParticipantData)
    (l : list Upstream.RawParticipant) acc1 acc2 :
  Models.index <$>
    fst (foldl
           (λ '(participants_stats, stats_for_saving) p,
              match Upstream.rp_current_epoch_stats p with
              | Some stats =>
                  let d := data !! Upstream.rp_index p in
                  (participants_stats
                     ++ [Service.new_participant_stats p d stats],
                   stats_for_saving ++ [Service.new_stats_dict p d])
              | None => (participants_stats, stats_for_saving)
              end)
           (acc1, acc2) l)
  = (Models.index <$> acc1)
    ++ (Upstream.rp_index
          <$> List.filter
                (λ p, bool_decide (is_Some (Upstream.rp_current_epoch_stats p)))
                l).
Proof.
  revert acc1 acc2. induction l as [|p l IH]; intros acc1 acc2.
  - simpl. by rewrite app_nil_r.
  - cbn [foldl List.filter].
    destruct (Upstream.rp_current_epoch_stats p) as [stats|].
    + rewrite IH. rewrite bool_decide_eq_true_2 by eauto.
      rewrite fmap_app. simpl. by rewrite <- app_assoc.
    + rewrite IH. by rewrite bool_decide_eq_false_2 by (by intros [? ?]).
Qed.

(** The participants of a response follow the order of the upstream
    participant list, restricted to the active indices and to the
    records that parse. *)
Lemma fuse_participants_order epoch_participants participants_list :
  Models.index <$> fst (Service.fuse_participants epoch_participants
                          participants_list)
  = Upstream.rp_index
      <$> List.filter
            (λ p, bool_decide (is_Some (Upstream.rp_current_epoch_stats p)))
            (List.filter
               (λ p, bool_decide (Upstream.rp_index p
                                  ∈ Service.active_indices epoch_participants))
               participants_list).
Proof. unfold Service.fuse_participants. by rewrite fuse_fold. Qed.

Lemma fuse_two (p1 p2 : Upstream.EpochParticipant)
    (r1 r2 : Upstream.RawParticipant) stats1 stats2 :
  Upstream.ep_index p1 ≠ Upstream.ep_index p2 →
  Upstream.rp_index r1 = Upstream.ep_index p1 →
  Upstream.rp_index r2 = Upstream.ep_index p2 →
  Upstream.rp_current_epoch_stats r1 = Some stats1 →
  Upstream.rp_current_epoch_stats r2 = Some stats2 →
  ∃ d1 d2,
    Service.epd_weight d1 = Upstream.ep_weight p1
    ∧ Service.epd_weight d2 = Upstream.ep_weight p2
    ∧ fst (Service.fuse_participants [p1; p2] [r1; r2])
      = [Service.new_participant_stats r1 (Some d1) stats1;
         Service.new_participant_stats r2 (Some d2) stats2].
Proof.
  intros Hne H1 H2 Hs1 Hs2.
  unfold Service.fuse_participants, Service.active_indices,
    Service.epoch_participant_data.
  cbn [fmap list_fmap foldl List.filter].
  rewrite !bool_decide_eq_true_2 by (rewrite ?H1, ?H2; set_solver).
  cbn [foldl]. rewrite Hs1, Hs2, H1, H2.
  rewrite lookup_insert_ne by done. rewrite !lookup_insert_eq.
  simpl. do 2 eexists. split_and!; last reflexivity; done.
Qed.




Lemma current_epoch_stats_fallback_witness :
  fst (Service.get_current_epoch_stats Scenario.down (Scenario.at_time 2000)
         true Scenario.warm)
  = match Service.current_epoch_data Scenario.warm with
    | Some data => Ok data
    | None => Raise Py.UpstreamUnavailable
    end
  ∧ fst (Service.get_current_epoch_stats Scenario.down (Scenario.at_time 2000)
           true Scenario.cold)
    = match Service.current_epoch_data Scenario.cold with
      | Some data => Ok data
      | None => Raise Py.UpstreamUnavailable
      end.
Proof.
  split.
  - apply (current_epoch_stats_fallback Scenario.down (Scenario.at_time 2000)
             true Scenario.warm Py.UpstreamUnavailable Scenario.warm).
    reflexivity.
  - apply (current_epoch_stats_fallback Scenario.down (Scenario.at_time 2000)
             true Scenario.cold Py.UpstreamUnavailable Scenario.cold).
    reflexivity.
Defined.

(** ** Epoch transition *)

Lemma bind_ok {A B} (m : Service.M A) (f : A → Service.M B) self a self1 :
  m self = (Ok a, self1) → (m ≫= f) self = f a self1.
Proof. intros Hm. unfold mbind, Service.M_bind. by rewrite Hm. Qed.

Lemma get_stats_rows epoch_id height db rows :
  CacheDB.get_stats epoch_id height db = Some rows →
  ∃ first rest, rows = first :: rest.
Proof.
  unfold CacheDB.get_stats. destruct (List.filter _ _) as [|first rest]; [done|].
  intros [= <-]. eauto.
Qed.

Lemma historical_on_cached_stats client clock epoch_id height sync self target :
  Service.get_canonical_height client epoch_id height self = (Ok target, self) →
  is_Some (CacheDB.get_stats epoch_id (Some target) (Service.cache_db self)) →
  finished_epochs
    (snd (Service.get_historical_epoch_stats client clock epoch_id height sync
            self))
  = finished_epochs self.
Proof.
  intros Htarget [rows Hrows].
  destruct (get_stats_rows _ _ _ _ Hrows) as (first & rest & ->).
  unfold Service.get_historical_epoch_stats.
  erewrite bind_ok by reflexivity.
  erewrite bind_ok by exact Htarget.
  erewrite bind_ok by reflexivity.
  rewrite Hrows.
  match goal with
  | |- finished_epochs (snd (?K self)) = _ =>
      assert (keeps finished_epochs K) as HK; [|apply HK]
  end.
  keeps.
Qed.

Lemma mark_on_cached_stats client clock self old_epoch_id fresh_epoch_id
    height target :
  Service.current_epoch_id self = Some old_epoch_id →
  Service.get_canonical_height client old_epoch_id None self
  = (Ok target, self) →
  is_Some (CacheDB.get_stats old_epoch_id (Some target)
             (Service.cache_db self)) →
  finished_epochs
    (snd (Service._mark_epoch_finished_if_needed client clock fresh_epoch_id
            height self))
  = finished_epochs self.
Proof.
  intros Hid Htarget Hrows.
  unfold Service._mark_epoch_finished_if_needed.
  erewrite bind_ok by reflexivity. rewrite Hid.
  destruct (old_epoch_id <? fresh_epoch_id); [|done].
  erewrite bind_ok by reflexivity.
  destruct (CacheDB.is_epoch_finished _ _); [done|].
  pose proof (historical_on_cached_stats client clock old_epoch_id None true
                self target Htarget Hrows) as Hkeep.
  unfold Service.try_except, mbind at 1, Service.M_bind at 1.
  by destruct (Service.get_historical_epoch_stats _ _ _ _ _ _) as [[?|?] ?].
Qed.

Lemma epoch_status_save_stats_batch cached_at epoch_id height stats db :
  CacheDB.epoch_status (CacheDB.save_stats_batch cached_at epoch_id height
                          stats db)
  = CacheDB.epoch_status db.
Proof. done. Qed.

Lemma finished_epochs_publish epoch_id response current_time :
  keeps finished_epochs (Service.publish epoch_id response current_time).
Proof. done. Qed.

#[local] Hint Resolve finished_epochs_publish : keeps.
#[local] Hint Extern 2 (keeps finished_epochs (Service.execute _)) =>
  apply finished_epochs_execute; intros;
  apply epoch_status_save_stats_batch : keeps.

(** A poll that sees a new epoch while the statistics of the old one
    are already cached at its canonical height changes nothing in
    [epoch_status]: an old epoch that was not marked finished stays so. *)
Lemma transition_on_cached_stats_not_marked client clock reload self
    old_epoch_id target :
  Service.current_epoch_id self = Some old_epoch_id →
  Service.get_canonical_height client old_epoch_id None self
  = (Ok target, self) →
  is_Some (CacheDB.get_stats old_epoch_id (Some target)
             (Service.cache_db self)) →
  finished_epochs
    (snd (Service.get_current_epoch_stats client clock reload self))
  = finished_epochs self.
Proof.
  intros Hid Htarget Hrows.
  unfold Service.get_current_epoch_stats.
  erewrite bind_ok by reflexivity. erewrite bind_ok by reflexivity.
  assert (Hfetch : finished_epochs
            (snd (Service.fetch_current_epoch_stats client clock (time clock)
                    self)) = finished_epochs self).
  { unfold Service.fetch_current_epoch_stats.
    unfold mbind at 1, Service.M_bind at 1, Service.await at 1.
    destruct (Upstream.get_latest_height client) as [height|]; [|done].
    unfold mbind at 1, Service.M_bind at 1, Service.await at 1.
    destruct (Upstream.get_current_epoch_participants client)
      as [epoch_data|]; [|done].
    pose proof (mark_on_cached_stats client clock self old_epoch_id
                  (Upstream.epoch_group_id epoch_data) height target
                  Hid Htarget Hrows) as Hmark.
    unfold mbind at 1, Service.M_bind at 1.
    destruct (Service._mark_epoch_finished_if_needed _ _ _ _ _)
      as [[[]|?] self1]; [|done].
    simpl in Hmark. rewrite <- Hmark.
    match goal with
    | |- finished_epochs (snd (?K self1)) = _ =>
        assert (keeps finished_epochs K) as HK; [|apply HK]
    end.
    keeps. }
  destruct (Service.cache_is_fresh _ _ _), (Service.current_epoch_data self);
    try done; unfold Service.try_except;
    destruct (Service.fetch_current_epoch_stats _ _ _ _) as [[?|?] self1];
    try done; simpl in *; rewrite <- Hfetch;
    unfold mbind, Service.M_bind, Service.read; simpl;
    by destruct (Service.current_epoch_data self1).
Qed.

Lemma total_rewards_create_task t : keeps total_rewards (Service.create_task t).
Proof. done. Qed.

Lemma total_rewards_execute f :
  (∀ db, CacheDB.epoch_total_rewards (f db) = CacheDB.epoch_total_rewards db) →
  keeps total_rewards (Service.execute f).
Proof. intros Hf self. apply Hf. Qed.

Lemma epoch_total_rewards_save_jail_status_batch epoch_id jail_statuses db :
  CacheDB.epoch_total_rewards
    (CacheDB.save_jail_status_batch epoch_id jail_statuses db)
  = CacheDB.epoch_total_rewards db.
Proof. by destruct jail_statuses. Qed.

#[local] Hint Resolve total_rewards_create_task : keeps.
#[local] Hint Extern 2 (keeps total_rewards (Service.execute _)) =>
  apply total_rewards_execute; intros;
  first [ apply epoch_total_rewards_save_jail_status_batch
        | reflexivity ] : keeps.

Lemma total_rewards_merge client clock epoch_id participants height active :
  keeps total_rewards
    (Service.merge_jail_and_health_data client clock epoch_id participants
       height active).
Proof.
  unfold Service.merge_jail_and_health_data,
    Service.fetch_and_cache_jail_statuses, Service.fetch_and_cache_node_health.
  keeps.
Qed.

#[local] Hint Resolve total_rewards_merge : keeps.

(** When no statistics are cached at the target height, the historical
    fetch writes nothing to [epoch_total_rewards], whatever
    [calculate_rewards_sync] says: the computation is only queued. *)
Lemma historical_on_fresh_fetch client clock epoch_id height sync self target :
  Service.get_canonical_height client epoch_id height self = (Ok target, self) →
  CacheDB.get_stats epoch_id (Some target) (Service.cache_db self) = None →
  total_rewards
    (snd (Service.get_historical_epoch_stats client clock epoch_id height sync
            self))
  = total_rewards self.
Proof.
  intros Htarget Hrows.
  unfold Service.get_historical_epoch_stats.
  erewrite bind_ok by reflexivity.
  erewrite bind_ok by exact Htarget.
  erewrite bind_ok by reflexivity.
  rewrite Hrows.
  match goal with
  | |- total_rewards (snd (?K self)) = _ =>
      assert (keeps total_rewards K) as HK; [|apply HK]
  end.
  keeps.
Qed.


(** C3, on the code.  The service polls at block 10090 in epoch 41 and
    again after epoch 42 has started at block 10100.  The second poll
    sees the transition while epoch 41 is not marked finished and calls
    the historical fetch with [calculate_rewards_sync = true]; block
    10090 is the canonical height of epoch 41 and its statistics are
    already cached there, so the total is computed (7 GNK) but the
    epoch is not marked finished, neither then nor by a later poll.
    Had the first poll been at block 10080, the epoch would be marked
    finished, and the total only queued for a later computation. *)
Lemma epoch_transition_at_canonical_height :
  let s1 := Scenario.warm in
  let s2 := Scenario.tick Scenario.after 1030 s1 in
  let s3 := Scenario.tick Scenario.after 1060 s2 in
  let s2' := Scenario.tick Scenario.after 1030 Scenario.warm_early in
  (Service.current_epoch_id s1 = Some 41
   ∧ CacheDB.is_epoch_finished 41 (Service.cache_db s1) = false
   ∧ Upstream.get_current_epoch_participants Scenario.after
     = Ok (Scenario.group 42 10100)
   ∧ Service.current_epoch_id s2 = Some 42
   ∧ CacheDB.is_epoch_finished 41 (Service.cache_db s2) = false
   ∧ CacheDB.get_epoch_total_rewards 41 (Service.cache_db s2) = Some 7
   ∧ CacheDB.is_epoch_finished 41 (Service.cache_db s3) = false)
  ∧ (Service.current_epoch_id Scenario.warm_early = Some 41
     ∧ CacheDB.is_epoch_finished 41 (Service.cache_db Scenario.warm_early)
       = false
     ∧ CacheDB.is_epoch_finished 41 (Service.cache_db s2') = true
     ∧ CacheDB.get_epoch_total_rewards 41 (Service.cache_db s2') = None
     ∧ Scenario.queued_totals s2' = [41]).
Proof. by vm_compute. Qed.

(** ** Warm keys *)

Lemma get_warm_keys_never_empty epoch_id participant_id db :
  CacheDB.get_warm_keys epoch_id participant_id db ≠ Some [].
Proof.
  unfold CacheDB.get_warm_keys.
  destruct (CacheDB.participant_warm_keys db !! _) as [[|k ks]|]; try done.
  intros [= Hsort]. revert Hsort. unfold CacheDB.sort_by. simpl.
  generalize (foldr (CacheDB.insert_by
    (λ a b, CacheDB.str_le (Upstream.granted_at b) (Upstream.granted_at a)))
    [] ks).
  intros [|y l]; simpl; [done|]. by case_match.
Qed.

Lemma save_warm_keys_batch_empty epoch_id participant_id db :
  ∃ db', CacheDB.save_warm_keys_batch epoch_id participant_id [] db = Ok db'
         ∧ CacheDB.get_warm_keys epoch_id participant_id db' = None.
Proof.
  eexists. split; [reflexivity|].
  unfold CacheDB.get_warm_keys. simpl. by rewrite lookup_delete_eq.
Qed.

Lemma participant_warm_keys_empty client participant_id epoch_id self :
  CacheDB.get_warm_keys epoch_id participant_id (Service.cache_db self) = None →
  Upstream.get_authz_grants client participant_id = Ok [] →
  Service.participant_warm_keys client participant_id epoch_id self
  = (Ok [], self).
Proof.
  intros Hnone Hgrants.
  unfold Service.participant_warm_keys, mbind, Service.M_bind, Service.query,
    Service.try_except, Service.await.
  by rewrite Hnone, Hgrants.
Qed.


(** ** The poc_weight of a hardware node *)

Lemma ml_node_info_overlaid ml_nodes_map node w :
  ml_nodes_map !! Upstream.local_id node = Some w → w ≠ 0 →
  Models.poc_weight (Service.ml_node_info ml_nodes_map node) = Some w.
Proof.
  intros Hw Hnz. unfold Service.ml_node_info, Py.or_int. simpl.
  rewrite Hw. simpl. by destruct (Z.eqb_spec w 0).
Qed.

Lemma ml_node_info_registry ml_nodes_map node :
  ml_nodes_map !! Upstream.local_id node = None
  ∨ ml_nodes_map !! Upstream.local_id node = Some 0 →
  Models.poc_weight (Service.ml_node_info ml_nodes_map node)
  = Upstream.hn_poc_weight node.
Proof.
  unfold Service.ml_node_info, Py.or_int. simpl. by intros [-> | ->].
Qed.

(** C8, on the code.  In epoch 41 the map of P1 holds node1 with weight
    0 and node2 with weight 30; the registry holds node1, node2 and
    node3 with weights 7, 9 and 5.  The details of P1 show 30 for node2
    (from the map) and 5 for node3 (from the registry), but 7 for
    node1: its key is in the map, and the registry's value is shown. *)
Lemma poc_weight_zero_taken_from_registry :
  let details :=
    Service.get_participant_details Scenario.before (Scenario.at_time 1010)
      "P1" 41 None Scenario.warm in
  Scenario.cached_ml_nodes_map "P1" 41 Scenario.warm !! "node1" = Some 0
  ∧ Scenario.cached_ml_nodes_map "P1" 41 Scenario.warm !! "node2" = Some 30
  ∧ Scenario.cached_ml_nodes_map "P1" 41 Scenario.warm !! "node3" = None
  ∧ Scenario.shown_poc_weights (fst details)
    = Some [("node1", Some 7); ("node2", Some 30); ("node3", Some 5)].
Proof. by vm_compute. Qed.

(** * Further properties of the caches and of the service *)

(** ** Orderings of the queries *)

Lemma insert_by_perm {A} (le : A → A → bool) x l :
  CacheDB.insert_by le x l ≡ₚ x :: l.
Proof.
  induction l as [|y l IH]; simpl; [done|].
  destruct (le x y); [done|]. rewrite IH. apply Permutation_swap.
Qed.

Lemma sort_by_perm {A} (le : A → A → bool) l : CacheDB.sort_by le l ≡ₚ l.
Proof.
  unfold CacheDB.sort_by. induction l as [|x l IH]; simpl; [done|].
  by rewrite insert_by_perm, IH.
Qed.

Lemma insert_by_sorted {A} (le : A → A → bool) x l :
  (∀ a b, le a b = false → le b a = true) →
  Sorted (λ a b, le a b = true) l →
  Sorted (λ a b, le a b = true) (CacheDB.insert_by le x l).
Proof.
  intros Htotal. induction l as [|y l IH]; intros Hsorted; simpl.
  - by repeat constructor.
  - destruct (le x y) eqn:Hxy.
    + constructor; [done|]. by constructor.
    + apply Sorted_inv in Hsorted as [Hl Hhd].
      constructor; [by apply IH|].
      destruct l as [|z l]; simpl.
      * constructor. by apply Htotal.
      * destruct (le x z); constructor; [by apply Htotal|].
        by inversion Hhd.
Qed.

Lemma sort_by_sorted {A} (le : A → A → bool) l :
  (∀ a b, le a b = false → le b a = true) →
  Sorted (λ a b, le a b = true) (CacheDB.sort_by le l).
Proof.
  intros Htotal. unfold CacheDB.sort_by.
  induction l as [|x l IH]; simpl; [constructor|].
  by apply insert_by_sorted.
Qed.

Lemma str_le_total a b : CacheDB.str_le a b = false → CacheDB.str_le b a = true.
Proof.
  unfold CacheDB.str_le. rewrite (String.compare_antisym b a).
  by destruct (String.compare a b).
Qed.

#[local] Arguments CacheDB.sort_by : simpl never.

(** ** Round trips of the per-participant caches *)

(** X1.  A non-empty list of warm keys without a repeated grantee is
    stored by [save_warm_keys_batch], and [get_warm_keys] then returns
    exactly these keys, newest grant first; the groups of the other
    (epoch, participant) pairs are answered as before. *)
Theorem warm_keys_round_trip epoch_id participant_id
    (warm_keys : list Upstream.WarmKey) db :
  warm_keys ≠ [] →
  NoDup (Upstream.grantee_address <$> warm_keys) →
  ∃ db' rows,
    CacheDB.save_warm_keys_batch epoch_id participant_id warm_keys db = Ok db'
    ∧ CacheDB.get_warm_keys epoch_id participant_id db' = Some rows
    ∧ rows ≡ₚ warm_keys
    ∧ Sorted (λ a b, CacheDB.str_le (Upstream.granted_at b)
                                    (Upstream.granted_at a) = true) rows
    ∧ ∀ epoch_id' participant_id',
        (epoch_id', participant_id') ≠ (epoch_id, participant_id) →
        CacheDB.get_warm_keys epoch_id' participant_id' db'
        = CacheDB.get_warm_keys epoch_id' participant_id' db.
Proof.
  intros Hne Hnodup. unfold CacheDB.save_warm_keys_batch.
  rewrite bool_decide_eq_true_2 by done.
  destruct warm_keys as [|k ks]; [done|].
  eexists _, _. split; [reflexivity|].
  unfold CacheDB.get_warm_keys. simpl. rewrite lookup_insert_eq.
  split_and!; [reflexivity | apply sort_by_perm | |].
  - apply (sort_by_sorted
             (λ a b, CacheDB.str_le (Upstream.granted_at b)
                                    (Upstream.granted_at a))).
    intros a b. apply str_le_total.
  - intros e' p' Hother. by rewrite lookup_insert_ne.
Qed.

Lemma warm_keys_round_trip_witness :
  ∃ db' rows,
    CacheDB.save_warm_keys_batch 41 "P1" [Scenario.key1; Scenario.key2]
      CacheDB.empty = Ok db'
    ∧ CacheDB.get_warm_keys 41 "P1" db' = Some rows
    ∧ rows ≡ₚ [Scenario.key1; Scenario.key2]
    ∧ Sorted (λ a b, CacheDB.str_le (Upstream.granted_at b)
                                    (Upstream.granted_at a) = true) rows
    ∧ ∀ epoch_id' participant_id',
        (epoch_id', participant_id') ≠ (41, "P1") →
        CacheDB.get_warm_keys epoch_id' participant_id' db'
        = CacheDB.get_warm_keys epoch_id' participant_id' CacheDB.empty.
Proof.
  apply (warm_keys_round_trip 41 "P1" [Scenario.key1; Scenario.key2]
           CacheDB.empty).
  - discriminate.
  - apply (bool_decide_unpack _). vm_compute. exact I.
Defined.

(** X2.  The same for the hardware nodes: a non-empty list without a
    repeated [local_id] is stored and read back, ordered by [local_id],
    and the other groups are answered as before. *)
Theorem hardware_nodes_round_trip epoch_id participant_id
    (hardware_nodes : list Upstream.HardwareNode) db :
  hardware_nodes ≠ [] →
  NoDup (Upstream.local_id <$> hardware_nodes) →
  ∃ db' rows,
    CacheDB.save_hardware_nodes_batch epoch_id participant_id hardware_nodes db
    = Ok db'
    ∧ CacheDB.get_hardware_nodes epoch_id participant_id db' = Some rows
    ∧ rows ≡ₚ hardware_nodes
    ∧ Sorted (λ a b, CacheDB.str_le (Upstream.local_id a)
                                    (Upstream.local_id b) = true) rows
    ∧ ∀ epoch_id' participant_id',
        (epoch_id', participant_id') ≠ (epoch_id, participant_id) →
        CacheDB.get_hardware_nodes epoch_id' participant_id' db'
        = CacheDB.get_hardware_nodes epoch_id' participant_id' db.
Proof.
  intros Hne Hnodup. unfold CacheDB.save_hardware_nodes_batch.
  rewrite bool_decide_eq_true_2 by done.
  destruct hardware_nodes as [|n ns]; [done|].
  eexists _, _. split; [reflexivity|].
  unfold CacheDB.get_hardware_nodes. simpl. rewrite lookup_insert_eq.
  split_and!; [reflexivity | apply sort_by_perm | |].
  - apply (sort_by_sorted
             (λ a b, CacheDB.str_le (Upstream.local_id a)
                                    (Upstream.local_id b))).
    intros a b. apply str_le_total.
  - intros e' p' Hother. by rewrite lookup_insert_ne.
Qed.

Lemma hardware_nodes_round_trip_witness :
  ∃ db' rows,
    CacheDB.save_hardware_nodes_batch 41 "P1" Scenario.registry CacheDB.empty
    = Ok db'
    ∧ CacheDB.get_hardware_nodes 41 "P1" db' = Some rows
    ∧ rows ≡ₚ Scenario.registry
    ∧ Sorted (λ a b, CacheDB.str_le (Upstream.local_id a)
                                    (Upstream.local_id b) = true) rows
    ∧ ∀ epoch_id' participant_id',
        (epoch_id', participant_id') ≠ (41, "P1") →
        CacheDB.get_hardware_nodes epoch_id' participant_id' db'
        = CacheDB.get_hardware_nodes epoch_id' participant_id' CacheDB.empty.
Proof.
  apply (hardware_nodes_round_trip 41 "P1" Scenario.registry CacheDB.empty).
  - discriminate.
  - apply (bool_decide_unpack _). vm_compute. exact I.
Defined.

(** ** The cache of the statistics *)

Lemma filter_upsert_other epoch_id height row rows :
  at_key epoch_id height row = true →
  Forall (λ r, at_key epoch_id height r = true →
               CacheDB.sr_participant_index r
               ≠ CacheDB.sr_participant_index row) rows →
  List.filter (at_key epoch_id height) (CacheDB.upsert_stats row rows)
  = List.filter (at_key epoch_id height) rows ++ [row].
Proof.
  intros Hrow Hrows. unfold CacheDB.upsert_stats.
  rewrite List.filter_app. simpl. rewrite Hrow. f_equal.
  induction rows as [|r rows IH]; [done|].
  apply Forall_cons in Hrows as [Hr Hrows]. simpl.
  destruct (at_key epoch_id height r) eqn:Hk.
  - assert (CacheDB.same_stats_key r row = false) as ->.
    { unfold CacheDB.same_stats_key. apply andb_false_iff. right.
      apply String.eqb_neq. by apply Hr. }
    simpl. rewrite Hk. f_equal. by apply IH.
  - destruct (negb (CacheDB.same_stats_key r row)); simpl; rewrite ?Hk;
      by apply IH.
Qed.

Lemma filter_upsert_elsewhere epoch_id height row rows :
  at_key epoch_id height row = false →
  List.filter (at_key epoch_id height) (CacheDB.upsert_stats row rows)
  = List.filter (at_key epoch_id height) rows.
Proof.
  intros Hrow. unfold CacheDB.upsert_stats.
  rewrite List.filter_app. simpl. rewrite Hrow, app_nil_r.
  induction rows as [|r rows IH]; [done|]. simpl.
  destruct (CacheDB.same_stats_key r row) eqn:Hsame; simpl.
  - assert (at_key epoch_id height r = false) as ->; [|done].
    unfold CacheDB.same_stats_key in Hsame. unfold at_key in *.
    apply andb_true_iff in Hsame as [Hsame _].
    apply andb_true_iff in Hsame as [He Hh].
    apply Z.eqb_eq in He, Hh. by rewrite He, Hh.
  - destruct (at_key epoch_id height r); by rewrite IH.
Qed.

Lemma save_stats_batch_rows cached_at epoch_id height
    (stats : list CacheDB.StatsDict) rows :
  NoDup (Upstream.rp_index ∘ CacheDB.sd_participant <$> stats) →
  Forall (λ r, at_key epoch_id height r = true →
               CacheDB.sr_participant_index r
               ∉ (Upstream.rp_index ∘ CacheDB.sd_participant <$> stats)) rows →
  List.filter (at_key epoch_id height)
    (foldl (λ rows stats,
              CacheDB.upsert_stats
                {| CacheDB.sr_epoch_id := epoch_id;
                   CacheDB.sr_height := height;
                   CacheDB.sr_participant_index :=
                     Upstream.rp_index (CacheDB.sd_participant stats);
                   CacheDB.sr_stats := stats;
                   CacheDB.sr_seed_signature :=
                     CacheDB.sd_seed_signature stats;
                   CacheDB.sr_cached_at := cached_at |} rows)
           rows stats)
  = List.filter (at_key epoch_id height) rows
    ++ (stats_row cached_at epoch_id height <$> stats).
Proof.
  revert rows. induction stats as [|d stats IH]; intros rows Hnodup Hrows.
  - simpl. by rewrite app_nil_r.
  - cbn [foldl]. rewrite fmap_cons in Hnodup.
    apply NoDup_cons in Hnodup as [Hd Hnodup].
    assert (Hkey : at_key epoch_id height (stats_row cached_at epoch_id height d)
                   = true).
    { unfold at_key. simpl. by rewrite !Z.eqb_refl. }
    rewrite IH; [|done|].
    + fold (stats_row cached_at epoch_id height d).
      rewrite filter_upsert_other; [|done|].
      * by rewrite <- app_assoc.
      * eapply Forall_impl; [exact Hrows|]. intros r Hr Hk Heq.
        apply (Hr Hk). rewrite fmap_cons, Heq. by left.
    + fold (stats_row cached_at epoch_id height d).
      unfold CacheDB.upsert_stats. apply Forall_app. split.
      * apply Forall_forall. intros r Hin Hk.
        apply list_elem_of_In, List.filter_In in Hin as [Hin _].
        apply list_elem_of_In in Hin.
        rewrite Forall_forall in Hrows. intros Hmem.
        apply (Hrows r Hin Hk). rewrite fmap_cons. by right.
      * constructor; [|constructor]. intros _. exact Hd.
Qed.

Lemma participant_of_stats_row cached_at epoch_id height p d stats :
  Upstream.rp_current_epoch_stats p = Some stats →
  Service.participant_of_row
    (stats_row cached_at epoch_id height (Service.new_stats_dict p d))
  = Some (Service.new_participant_stats p d stats).
Proof.
  intros Hstats. unfold Service.participant_of_row. simpl. rewrite Hstats.
  simpl. by destruct d.
Qed.

Lemma fuse_fold_saved cached_at epoch_id height
    (data : gmap string Service.EpochParticipantData)
    (l : list Upstream.RawParticipant) acc1 acc2 :
  let r :=
    foldl
      (λ '(participants_stats, stats_for_saving) p,
         match Upstream.rp_current_epoch_stats p with
         | Some stats =>
             let d := data !! Upstream.rp_index p in
             (participants_stats ++ [Service.new_participant_stats p d stats],
              stats_for_saving ++ [Service.new_stats_dict p d])
         | None => (participants_stats, stats_for_saving)
         end)
      (acc1, acc2) l in
  omap (Service.participant_of_row ∘ stats_row cached_at epoch_id height) acc2
  = acc1 →
  omap (Service.participant_of_row ∘ stats_row cached_at epoch_id height) r.2
  = r.1
  ∧ Upstream.rp_index ∘ CacheDB.sd_participant <$> r.2
    = (Upstream.rp_index ∘ CacheDB.sd_participant <$> acc2)
      ++ (Upstream.rp_index
            <$> List.filter
                  (λ p, bool_decide
                          (is_Some (Upstream.rp_current_epoch_stats p))) l).
Proof.
  revert acc1 acc2. induction l as [|p l IH]; intros acc1 acc2 r Hacc.
  - subst r. simpl. by rewrite app_nil_r.
  - subst r. cbn [foldl List.filter].
    destruct (Upstream.rp_current_epoch_stats p) as [stats|] eqn:Hp.
    + rewrite bool_decide_eq_true_2 by eauto.
      destruct (IH (acc1 ++ [Service.new_participant_stats p
                               (data !! Upstream.rp_index p) stats])
                   (acc2 ++ [Service.new_stats_dict p
                               (data !! Upstream.rp_index p)])) as [IH1 IH2].
      { rewrite omap_app, Hacc. f_equal. simpl.
        by rewrite (participant_of_stats_row _ _ _ _ _ stats). }
      split; [exact IH1|]. etrans; [exact IH2|].
      by rewrite fmap_app, <- app_assoc.
    + rewrite bool_decide_eq_false_2 by (by intros [? ?]).
      by apply IH.
Qed.

Lemma NoDup_fmap_filter {A B} (f : A → B) (P : A → bool) (l : list A) :
  NoDup (f <$> l) → NoDup (f <$> List.filter P l).
Proof.
  induction l as [|x l IH]; [done|]. rewrite fmap_cons.
  intros [Hx Hl]%NoDup_cons. simpl. destruct (P x); [|by apply IH].
  rewrite fmap_cons. apply NoDup_cons. split; [|by apply IH].
  intros Hin. apply Hx. apply list_elem_of_fmap in Hin as (y & -> & Hy).
  apply list_elem_of_fmap. exists y. split; [done|].
  apply list_elem_of_In, List.filter_In in Hy as [Hy _].
  by apply list_elem_of_In.
Qed.

Lemma get_stats_filter epoch_id height db :
  CacheDB.get_stats epoch_id (Some height) db
  = match List.filter (at_key epoch_id height) (CacheDB.inference_stats db) with
    | [] => None
    | rows => Some rows
    end.
Proof.
  unfold CacheDB.get_stats.
  change (λ r, (CacheDB.sr_epoch_id r =? epoch_id)
               && (CacheDB.sr_height r =? height))
    with (at_key epoch_id height).
  by destruct (List.filter _ _).
Qed.



Lemma save_stats_batch_elsewhere cached_at epoch_id height epoch_id' height'
    (stats : list CacheDB.StatsDict) rows :
  (epoch_id', height') ≠ (epoch_id, height) →
  List.filter (at_key epoch_id' height')
    (foldl (λ rows stats,
              CacheDB.upsert_stats
                {| CacheDB.sr_epoch_id := epoch_id;
                   CacheDB.sr_height := height;
                   CacheDB.sr_participant_index :=
                     Upstream.rp_index (CacheDB.sd_participant stats);
                   CacheDB.sr_stats := stats;
                   CacheDB.sr_seed_signature :=
                     CacheDB.sd_seed_signature stats;
                   CacheDB.sr_cached_at := cached_at |} rows)
           rows stats)
  = List.filter (at_key epoch_id' height') rows.
Proof.
  intros Hne. revert rows. induction stats as [|d stats IH]; intros rows;
    [done|].
  cbn [foldl]. rewrite IH. apply filter_upsert_elsewhere.
  unfold at_key. simpl. apply andb_false_iff.
  destruct (Z.eqb_spec epoch_id epoch_id') as [->|]; [|by left].
  right. apply Z.eqb_neq. congruence.
Qed.

(** X4.  A write of the statistics of (epoch, height) leaves what
    [get_stats] answers for every other (epoch, height) as it was:
    snapshots of the same epoch at different heights live side by
    side. *)
Theorem save_stats_batch_other_heights cached_at epoch_id height
    (stats : list CacheDB.StatsDict) db epoch_id' height' :
  (epoch_id', height') ≠ (epoch_id, height) →
  CacheDB.get_stats epoch_id' (Some height')
    (CacheDB.save_stats_batch cached_at epoch_id height stats db)
  = CacheDB.get_stats epoch_id' (Some height') db.
Proof.
  intros Hne. rewrite !get_stats_filter.
  unfold CacheDB.save_stats_batch. simpl.
  by rewrite save_stats_batch_elsewhere.
Qed.

Lemma save_stats_batch_other_heights_witness :
  CacheDB.get_stats 41 (Some 10080)
    (CacheDB.save_stats_batch "t" 41 10090
       (Service.fuse_participants [Scenario.P1; Scenario.P2]
          [Scenario.R1; Scenario.R2]).2
       (Service.cache_db Scenario.warm_early))
  = CacheDB.get_stats 41 (Some 10080) (Service.cache_db Scenario.warm_early).
Proof.
  apply (save_stats_batch_other_heights "t" 41 10090
           (Service.fuse_participants [Scenario.P1; Scenario.P2]
              [Scenario.R1; Scenario.R2]).2
           (Service.cache_db Scenario.warm_early) 41 10080).
  discriminate.
Defined.

(** X5.  [has_stats_for_epoch] answers true exactly when [get_stats]
    returns rows, with and without a height. *)
Theorem has_stats_for_epoch_get_stats epoch_id height db :
  CacheDB.has_stats_for_epoch epoch_id height db
  = bool_decide (is_Some (CacheDB.get_stats epoch_id height db)).
Proof.
  unfold CacheDB.has_stats_for_epoch, CacheDB.get_stats.
  by destruct (List.filter _ _) as [|r rows].
Qed.

Lemma filter_filter_negb {A} (P Q : A → bool) (l : list A) :
  (∀ x, P x = true → Q x = false) →
  List.filter P (List.filter (λ x, negb (Q x)) l) = List.filter P l.
Proof.
  intros HPQ. induction l as [|x l IH]; [done|]. simpl.
  destruct (Q x) eqn:HQ; simpl.
  - destruct (P x) eqn:HP; [|done]. apply HPQ in HP. congruence.
  - destruct (P x); by rewrite IH.
Qed.

Lemma filter_none {A} (P Q : A → bool) (l : list A) :
  (∀ x, P x = true → Q x = true) →
  List.filter P (List.filter (λ x, negb (Q x)) l) = [].
Proof.
  intros HPQ. induction l as [|x l IH]; [done|]. simpl.
  destruct (Q x) eqn:HQ; simpl; [done|].
  destruct (P x) eqn:HP; [|done]. apply HPQ in HP. congruence.
Qed.

(** X6.  [clear_epoch_stats] forgets the epoch: no statistics at any
    height, not finished, no finish height; and it leaves every other
    epoch as it was. *)
Theorem clear_epoch_stats_forgets epoch_id db :
  let db' := CacheDB.clear_epoch_stats epoch_id db in
  (∀ height, CacheDB.get_stats epoch_id height db' = None)
  ∧ CacheDB.is_epoch_finished epoch_id db' = false
  ∧ CacheDB.get_epoch_finish_height epoch_id db' = None
  ∧ ∀ epoch_id', epoch_id' ≠ epoch_id →
      (∀ height, CacheDB.get_stats epoch_id' height db'
                 = CacheDB.get_stats epoch_id' height db)
      ∧ CacheDB.is_epoch_finished epoch_id' db'
        = CacheDB.is_epoch_finished epoch_id' db
      ∧ CacheDB.get_epoch_finish_height epoch_id' db'
        = CacheDB.get_epoch_finish_height epoch_id' db.
Proof.
  intros db'. subst db'.
  unfold CacheDB.clear_epoch_stats, CacheDB.get_stats,
    CacheDB.is_epoch_finished, CacheDB.get_epoch_finish_height. simpl.
  split_and!.
  - intros height. rewrite filter_none; [done|].
    by intros r [? _]%andb_true_iff.
  - by rewrite lookup_delete_eq.
  - by rewrite lookup_delete_eq.
  - intros e' Hne. rewrite !lookup_delete_ne by done. split_and!; [|done..].
    intros height. rewrite filter_filter_negb; [done|].
    intros r [He _]%andb_true_iff. apply Z.eqb_eq in He.
    apply Z.eqb_neq. congruence.
Qed.

(** ** participant_inferences *)

Lemma insert_inferences_fold (inferences : list CacheDB.Inference)
    (rows acc : list CacheDB.InferenceRow) :
  Forall2 (λ i r, inference_row i = Ok r) inferences rows →
  NoDup (CacheDB.ir_inference_id <$> acc ++ rows) →
  foldl (λ rows inference,
           CacheDB.insert_inference
             (CacheDB.row_of_values (CacheDB.inf_inference_id inference)
                (CacheDB.inf_status inference)
                (CacheDB.inf_start_block_height inference)
                (CacheDB.inf_start_block_timestamp inference) inference)
             rows)
        (Ok acc) inferences
  = Ok (acc ++ rows).
Proof.
  intros Hrows. revert acc.
  induction Hrows as [|i r inferences rows Hr Hrows IH]; intros acc Hnodup.
  - simpl. by rewrite app_nil_r.
  - cbn [foldl]. fold (inference_row i). rewrite Hr.
    unfold CacheDB.insert_inference at 2.
    rewrite bool_decide_eq_false_2.
    + rewrite IH; [by rewrite <- app_assoc|]. by rewrite <- app_assoc.
    + rewrite fmap_app, fmap_cons in Hnodup.
      apply NoDup_app in Hnodup as (_ & Hdisj & _).
      intros Hin. apply (Hdisj _ Hin). by left.
Qed.

Lemma insert_inferences_raise (inferences : list CacheDB.Inference) e :
  foldl (λ rows inference,
           CacheDB.insert_inference
             (CacheDB.row_of_values (CacheDB.inf_inference_id inference)
                (CacheDB.inf_status inference)
                (CacheDB.inf_start_block_height inference)
                (CacheDB.inf_start_block_timestamp inference) inference)
             rows)
        (Raise e) inferences
  = Raise e.
Proof. induction inferences as [|i l IH]; [done|]. exact IH. Qed.

Lemma insert_inferences_rows (inferences : list CacheDB.Inference)
    (acc rows : list CacheDB.InferenceRow) :
  foldl (λ rows inference,
           CacheDB.insert_inference
             (CacheDB.row_of_values (CacheDB.inf_inference_id inference)
                (CacheDB.inf_status inference)
                (CacheDB.inf_start_block_height inference)
                (CacheDB.inf_start_block_timestamp inference) inference)
             rows)
        (Ok acc) inferences
  = Ok rows →
  ∃ new, rows = acc ++ new
         ∧ Forall2 (λ i r, inference_row i = Ok r) inferences new.
Proof.
  revert acc. induction inferences as [|i l IH]; intros acc.
  - intros [= <-]. exists []. by rewrite app_nil_r.
  - cbn [foldl]. fold (inference_row i).
    destruct (inference_row i) as [r|e] eqn:Hr.
    + unfold CacheDB.insert_inference at 2.
      destruct (bool_decide _).
      * by rewrite insert_inferences_raise.
      * intros (new & -> & Hnew)%IH. exists (r :: new).
        rewrite <- app_assoc. split; [done|]. by constructor.
    + simpl. by rewrite insert_inferences_raise.
Qed.

(** X7.  An empty list of inferences is never recorded: the marker row
    is inserted with a NULL [inference_id], which the column (NOT NULL)
    refuses, so the call raises [IntegrityError] and commits nothing.
    A call that succeeds had a non-empty list and stored one row per
    inference, in their order. *)
Theorem participant_inferences_empty_list_rejected epoch_id participant_id
    table :
  CacheDB.save_participant_inferences_batch epoch_id participant_id [] table
  = Raise Py.IntegrityError
  ∧ ∀ inferences table',
      CacheDB.save_participant_inferences_batch epoch_id participant_id
        inferences table = Ok table' →
      inferences ≠ []
      ∧ ∃ rows,
          Forall2 (λ i r, inference_row i = Ok r) inferences rows
          ∧ table' !! (epoch_id, participant_id) = Some rows.
Proof.
  split; [reflexivity|]. intros inferences table'.
  unfold CacheDB.save_participant_inferences_batch.
  destruct inferences as [|i l]; [done|].
  destruct (foldl _ _ _) as [rows|e] eqn:Hfold; [|done].
  apply insert_inferences_rows in Hfold as (new & -> & Hnew).
  simpl in *. inversion Hnew as [|? r ? new' Hr Hnew' ]; subst.
  intros [= <-]. split; [done|]. exists (r :: new').
  split; [done|]. apply lookup_insert_eq.
Qed.

(** X8.  A non-empty list of inferences that carry the four required
    columns, without a repeated [inference_id] and without the marker
    status, is stored by [save_participant_inferences_batch] and read
    back by [get_participant_inferences]: the same rows, latest
    [start_block_timestamp] first; the other groups are untouched. *)
Theorem participant_inferences_round_trip epoch_id participant_id
    (inferences : list CacheDB.Inference) (rows : list CacheDB.InferenceRow)
    table :
  inferences ≠ [] →
  Forall2 (λ i r, inference_row i = Ok r) inferences rows →
  NoDup (CacheDB.ir_inference_id <$> rows) →
  Forall (λ r, CacheDB.ir_status r ≠ CacheDB.EMPTY_MARKER) rows →
  ∃ table' shown,
    CacheDB.save_participant_inferences_batch epoch_id participant_id
      inferences table = Ok table'
    ∧ CacheDB.get_participant_inferences epoch_id participant_id table'
      = Some shown
    ∧ shown ≡ₚ rows
    ∧ Sorted (λ a b, CacheDB.str_le (CacheDB.ir_start_block_timestamp b)
                                    (CacheDB.ir_start_block_timestamp a) = true)
             shown
    ∧ ∀ key, key ≠ (epoch_id, participant_id) → table' !! key = table !! key.
Proof.
  intros Hne Hrows Hnodup Hstatus.
  unfold CacheDB.save_participant_inferences_batch.
  destruct inferences as [|i l]; [done|].
  rewrite (insert_inferences_fold (i :: l) rows []) by done.
  inversion Hrows as [|? r ? rows' Hr Hrows']; subst. simpl.
  set (sorted := CacheDB.sort_by
                   (λ a b, CacheDB.str_le (CacheDB.ir_start_block_timestamp b)
                                          (CacheDB.ir_start_block_timestamp a))
                   (r :: rows')).
  assert (Hperm : sorted ≡ₚ r :: rows') by apply sort_by_perm.
  assert (Hkeep : List.filter
                    (λ row, negb (String.eqb (CacheDB.ir_status row)
                                             CacheDB.EMPTY_MARKER)) sorted
                  = sorted).
  { assert (Hall : Forall (λ r, CacheDB.ir_status r ≠ CacheDB.EMPTY_MARKER)
                          sorted) by by rewrite Hperm.
    clear -Hall. induction sorted as [|x l IH]; [done|].
    apply Forall_cons in Hall as [Hx Hl]. simpl.
    apply String.eqb_neq in Hx. rewrite Hx. simpl. by rewrite IH. }
  eexists _, sorted. split; [reflexivity|]. split_and!.
  - unfold CacheDB.get_participant_inferences, CacheDB.inferences_table.
    rewrite lookup_insert_eq. fold sorted. cbv zeta. rewrite Hkeep.
    destruct sorted as [|x sorted']; [|done].
    by apply Permutation_nil_cons in Hperm.
  - exact Hperm.
  - apply (sort_by_sorted
             (λ a b, CacheDB.str_le (CacheDB.ir_start_block_timestamp b)
                                    (CacheDB.ir_start_block_timestamp a))).
    intros a b. apply str_le_total.
  - intros key Hkey. by apply lookup_insert_ne.
Qed.

Lemma participant_inferences_round_trip_witness :
  ∃ table' shown,
    CacheDB.save_participant_inferences_batch 41 "P1"
      [Scenario.inference "inf-1" "2025-01-01T00:00:00Z";
       Scenario.inference "inf-2" "2025-01-02T00:00:00Z"] ∅ = Ok table'
    ∧ CacheDB.get_participant_inferences 41 "P1" table' = Some shown
    ∧ shown ≡ₚ [Scenario.inference_stored "inf-1" "2025-01-01T00:00:00Z";
                Scenario.inference_stored "inf-2" "2025-01-02T00:00:00Z"]
    ∧ Sorted (λ a b, CacheDB.str_le (CacheDB.ir_start_block_timestamp b)
                                    (CacheDB.ir_start_block_timestamp a) = true)
             shown
    ∧ ∀ key, key ≠ (41, "P1") →
             table' !! key = (∅ : CacheDB.inferences_table) !! key.
Proof.
  apply (participant_inferences_round_trip 41 "P1"
           [Scenario.inference "inf-1" "2025-01-01T00:00:00Z";
            Scenario.inference "inf-2" "2025-01-02T00:00:00Z"]
           [Scenario.inference_stored "inf-1" "2025-01-01T00:00:00Z";
            Scenario.inference_stored "inf-2" "2025-01-02T00:00:00Z"] ∅).
  - discriminate.
  - repeat constructor.
  - apply (bool_decide_unpack _). vm_compute. exact I.
  - repeat constructor; discriminate.
Defined.

(** ** The table of finished epochs *)

Lemma finished_stay_same before after :
  finished_epochs after = finished_epochs before → finished_stay before after.
Proof. intros Heq e row. by rewrite Heq. Qed.

Lemma get_canonical_height_state client epoch_id requested_height self :
  snd (Service.get_canonical_height client epoch_id requested_height self)
  = self.
Proof. apply (keeps_get_canonical_height id). Qed.

(** The part of the historical fetch that runs when nothing is cached
    at the target height, from the write of the batch on. *)
Lemma historical_fresh_tail client clock epoch_id height target self
    participants_list epoch_data :
  Service.get_canonical_height client epoch_id height self = (Ok target, self) →
  CacheDB.get_stats epoch_id (Some target) (Service.cache_db self) = None →
  Upstream.get_all_participants client target = Ok participants_list →
  Upstream.get_epoch_participants client epoch_id = Ok epoch_data →
  ∀ sync,
    finished_epochs
      (snd (Service.get_historical_epoch_stats client clock epoch_id height
              sync self))
    = if bool_decide (height = None)
         && negb (CacheDB.is_epoch_finished epoch_id (Service.cache_db self))
      then <[epoch_id := {| CacheDB.is_finished := true;
                            CacheDB.finish_height := Some target |}]>
             (finished_epochs self)
      else finished_epochs self.
Proof.
  intros Htarget Hrows Hall Hgroup sync.
  unfold Service.get_historical_epoch_stats.
  erewrite bind_ok by reflexivity.
  erewrite bind_ok by exact Htarget.
  erewrite bind_ok by reflexivity.
  rewrite Hrows.
  erewrite bind_ok by (unfold Service.await; rewrite Hall; reflexivity).
  erewrite bind_ok by (unfold Service.await; rewrite Hgroup; reflexivity).
  destruct (Service.fuse_participants _ _) as [participants_stats saved].
  erewrite bind_ok by reflexivity.
  destruct (bool_decide (height = None)
            && negb (CacheDB.is_epoch_finished epoch_id (Service.cache_db self))).
  - erewrite bind_ok by reflexivity.
    match goal with
    | |- finished_epochs (snd (?K ?s)) = _ =>
        assert (keeps finished_epochs K) as HK; [keeps|rewrite HK]
    end.
    done.
  - erewrite bind_ok by reflexivity.
    match goal with
    | |- finished_epochs (snd (?K ?s)) = _ =>
        assert (keeps finished_epochs K) as HK; [keeps|rewrite HK]
    end.
    done.
Qed.

(** What the historical fetch does to [epoch_status]: nothing, or one
    new row for its epoch at the target height, written when no height
    was requested and the epoch was not marked finished. *)
Lemma historical_epoch_status client clock epoch_id height sync self :
  let after :=
    snd (Service.get_historical_epoch_stats client clock epoch_id height sync
           self) in
  finished_epochs after = finished_epochs self
  ∨ (height = None
     ∧ CacheDB.is_epoch_finished epoch_id (Service.cache_db self) = false
     ∧ ∃ target,
         Service.get_canonical_height client epoch_id height self
         = (Ok target, self)
         ∧ finished_epochs after
           = <[epoch_id := {| CacheDB.is_finished := true;
                              CacheDB.finish_height := Some target |}]>
               (finished_epochs self)).
Proof.
  intros after. subst after.
  pose proof (get_canonical_height_state client epoch_id height self) as Hstate.
  destruct (Service.get_canonical_height client epoch_id height self)
    as [[target|err] s1] eqn:Htarget; simpl in Hstate; subst s1.
  2:{ left. unfold Service.get_historical_epoch_stats.
      erewrite bind_ok by reflexivity.
      unfold mbind at 1, Service.M_bind at 1. by rewrite Htarget. }
  destruct (CacheDB.get_stats epoch_id (Some target) (Service.cache_db self))
    as [rows|] eqn:Hrows.
  { left. eapply historical_on_cached_stats; eauto. }
  destruct (Upstream.get_all_participants client target)
    as [participants_list|] eqn:Hall.
  2:{ left. unfold Service.get_historical_epoch_stats.
      erewrite bind_ok by reflexivity.
      erewrite bind_ok by exact Htarget.
      erewrite bind_ok by reflexivity.
      rewrite Hrows. unfold mbind at 1, Service.M_bind at 1, Service.await at 1.
      by rewrite Hall. }
  destruct (Upstream.get_epoch_participants client epoch_id)
    as [epoch_data|] eqn:Hgroup.
  2:{ left. unfold Service.get_historical_epoch_stats.
      erewrite bind_ok by reflexivity.
      erewrite bind_ok by exact Htarget.
      erewrite bind_ok by reflexivity.
      rewrite Hrows.
      erewrite bind_ok by (unfold Service.await; rewrite Hall; reflexivity).
      unfold mbind at 1, Service.M_bind at 1, Service.await at 1.
      by rewrite Hgroup. }
  rewrite (historical_fresh_tail client clock epoch_id height target self
             participants_list epoch_data Htarget Hrows Hall Hgroup sync).
  destruct (bool_decide (height = None)) eqn:Hheight; simpl; [|by left].
  destruct (CacheDB.is_epoch_finished epoch_id (Service.cache_db self))
    eqn:Hfinished; simpl; [by left|].
  right. apply bool_decide_eq_true in Hheight. eauto.
Qed.

(** X9.  A historical read at a requested height never writes to
    [epoch_status], whether it is served from the cache, fetched, or
    fails. *)
Theorem historical_with_height_never_marks client clock epoch_id
    requested_height sync self :
  finished_epochs
    (snd (Service.get_historical_epoch_stats client clock epoch_id
            (Some requested_height) sync self))
  = finished_epochs self.
Proof.
  destruct (historical_epoch_status client clock epoch_id
              (Some requested_height) sync self) as [Hsame|(Hnone & _)];
    [exact Hsame|done].
Qed.

Lemma historical_finished_stay client clock epoch_id height sync self :
  finished_stay self
    (snd (Service.get_historical_epoch_stats client clock epoch_id height sync
            self)).
Proof.
  destruct (historical_epoch_status client clock epoch_id height sync self)
    as [Hsame|(_ & Hnot & target & _ & Hmarked)].
  - by apply finished_stay_same.
  - intros e row Hrow Hfinished. rewrite Hmarked.
    destruct (decide (e = epoch_id)) as [->|Hne].
    + unfold CacheDB.is_epoch_finished in Hnot. unfold finished_epochs in Hrow.
      rewrite Hrow in Hnot. congruence.
    + by rewrite lookup_insert_ne.
Qed.

Lemma mark_finished_stay client clock fresh_epoch_id height self :
  finished_stay self
    (snd (Service._mark_epoch_finished_if_needed client clock fresh_epoch_id
            height self)).
Proof.
  unfold Service._mark_epoch_finished_if_needed.
  erewrite bind_ok by reflexivity.
  destruct (Service.current_epoch_id self) as [old_epoch_id|];
    [|by apply finished_stay_same].
  destruct (old_epoch_id <? fresh_epoch_id); [|by apply finished_stay_same].
  erewrite bind_ok by reflexivity.
  destruct (CacheDB.is_epoch_finished _ _); [by apply finished_stay_same|].
  pose proof (historical_finished_stay client clock old_epoch_id None true self)
    as Hstay.
  unfold Service.try_except, mbind at 1, Service.M_bind at 1.
  by destruct (Service.get_historical_epoch_stats _ _ _ _ _ _) as [[?|?] ?].
Qed.

(** X10.  Once an epoch is marked finished, its row of [epoch_status]
    (the flag and the finish height) is changed neither by a historical
    read of any epoch nor by a read or poll of the current epoch. *)
Theorem finished_epochs_stay client clock self :
  (∀ epoch_id height sync,
     finished_stay self
       (snd (Service.get_historical_epoch_stats client clock epoch_id height
               sync self)))
  ∧ (∀ reload,
       finished_stay self
         (snd (Service.get_current_epoch_stats client clock reload self))).
Proof.
  split; [intros; apply historical_finished_stay|]. intros reload.
  assert (Hfetch : finished_stay self
            (snd (Service.fetch_current_epoch_stats client clock (time clock)
                    self))).
  { unfold Service.fetch_current_epoch_stats.
    unfold mbind at 1, Service.M_bind at 1, Service.await at 1.
    destruct (Upstream.get_latest_height client) as [height|];
      [|by apply finished_stay_same].
    unfold mbind at 1, Service.M_bind at 1, Service.await at 1.
    destruct (Upstream.get_current_epoch_participants client)
      as [epoch_data|]; [|by apply finished_stay_same].
    pose proof (mark_finished_stay client clock
                  (Upstream.epoch_group_id epoch_data) height self) as Hmark.
    unfold mbind at 1, Service.M_bind at 1.
    destruct (Service._mark_epoch_finished_if_needed _ _ _ _ _)
      as [[[]|?] self1]; [|done].
    simpl in Hmark.
    match goal with
    | |- finished_stay _ (snd (?K self1)) =>
        assert (keeps finished_epochs K) as HK; [keeps|]
    end.
    intros e row Hrow Hfinished. rewrite HK. by apply Hmark. }
  unfold Service.get_current_epoch_stats.
  erewrite bind_ok by reflexivity. erewrite bind_ok by reflexivity.
  destruct (Service.cache_is_fresh _ _ _), (Service.current_epoch_data self);
    try (by apply finished_stay_same); unfold Service.try_except;
    destruct (Service.fetch_current_epoch_stats _ _ _ _) as [[?|?] self1];
    try done; simpl in *;
    unfold mbind, Service.M_bind, Service.read; simpl;
    by destruct (Service.current_epoch_data self1).
Qed.

(** X11.  The first historical read of an epoch without a requested
    height, when no statistics are cached at its canonical height and
    the two upstream reads succeed, marks the epoch finished at that
    canonical height. *)
Theorem historical_first_read_marks client clock epoch_id sync self target
    participants_list epoch_data :
  Service.get_canonical_height client epoch_id None self = (Ok target, self) →
  CacheDB.get_stats epoch_id (Some target) (Service.cache_db self) = None →
  CacheDB.is_epoch_finished epoch_id (Service.cache_db self) = false →
  Upstream.get_all_participants client target = Ok participants_list →
  Upstream.get_epoch_participants client epoch_id = Ok epoch_data →
  let after :=
    Service.cache_db
      (snd (Service.get_historical_epoch_stats client clock epoch_id None sync
              self)) in
  CacheDB.is_epoch_finished epoch_id after = true
  ∧ CacheDB.get_epoch_finish_height epoch_id after = Some target.
Proof.
  intros Htarget Hrows Hnot Hall Hgroup after.
  pose proof (historical_fresh_tail client clock epoch_id None target self
                participants_list epoch_data Htarget Hrows Hall Hgroup sync)
    as Hstatus.
  rewrite Hnot in Hstatus. simpl in Hstatus.
  unfold CacheDB.is_epoch_finished, CacheDB.get_epoch_finish_height.
  unfold finished_epochs in Hstatus. subst after. rewrite Hstatus.
  by rewrite lookup_insert_eq.
Qed.

Lemma historical_first_read_marks_witness :
  let after :=
    Service.cache_db
      (snd (Service.get_historical_epoch_stats Scenario.after
              (Scenario.at_time 1030) 41 None false Scenario.warm_early)) in
  CacheDB.is_epoch_finished 41 after = true
  ∧ CacheDB.get_epoch_finish_height 41 after = Some 10090.
Proof.
  apply (historical_first_read_marks Scenario.after (Scenario.at_time 1030) 41
           false Scenario.warm_early 10090 [Scenario.R1; Scenario.R2]
           (Scenario.group 41 10000));
    reflexivity.
Defined.

(** ** The historical read served from the cache *)

Lemma tasks_execute f : keeps Service.tasks (Service.execute f).
Proof. done. Qed.

Lemma stats_execute f :
  (∀ db, CacheDB.inference_stats (f db) = CacheDB.inference_stats db) →
  keeps (CacheDB.inference_stats ∘ Service.cache_db) (Service.execute f).
Proof. intros Hf self. apply Hf. Qed.

Lemma inference_stats_save_jail_status_batch epoch_id jail_statuses db :
  CacheDB.inference_stats
    (CacheDB.save_jail_status_batch epoch_id jail_statuses db)
  = CacheDB.inference_stats db.
Proof. by destruct jail_statuses. Qed.

#[local] Hint Resolve tasks_execute : keeps.
#[local] Hint Extern 2
    (keeps (CacheDB.inference_stats ∘ Service.cache_db) (Service.execute _)) =>
  apply stats_execute; intros;
  first [ apply inference_stats_save_jail_status_batch
        | reflexivity ] : keeps.

Lemma tasks_merge client clock epoch_id participants height active :
  keeps Service.tasks
    (Service.merge_jail_and_health_data client clock epoch_id participants
       height active).
Proof.
  unfold Service.merge_jail_and_health_data,
    Service.fetch_and_cache_jail_statuses, Service.fetch_and_cache_node_health.
  keeps.
Qed.

Lemma stats_merge client clock epoch_id participants height active :
  keeps (CacheDB.inference_stats ∘ Service.cache_db)
    (Service.merge_jail_and_health_data client clock epoch_id participants
       height active).
Proof.
  unfold Service.merge_jail_and_health_data,
    Service.fetch_and_cache_jail_statuses, Service.fetch_and_cache_node_health.
  keeps.
Qed.

(** X12.  When the statistics of the epoch are cached at the target
    height, the historical read (without [calculate_rewards_sync])
    answers from them and writes no statistics: the participants are
    those of the cached rows, in their order.  The response carries the
    cached total as it is; a cached total of 0 is deleted, and for a
    missing or zero total the computation is queued, before the fill of
    the participant caches. *)
Theorem historical_read_from_cache client clock epoch_id height self target
    rows epoch_data :
  Service.get_canonical_height client epoch_id height self = (Ok target, self) →
  CacheDB.get_stats epoch_id (Some target) (Service.cache_db self) = Some rows →
  Upstream.get_epoch_participants client epoch_id = Ok epoch_data →
  let cached_total :=
    CacheDB.get_epoch_total_rewards epoch_id (Service.cache_db self) in
  ∃ response self',
    Service.get_historical_epoch_stats client clock epoch_id height false self
    = (Ok response, self')
    ∧ Models.height response = target
    ∧ Models.index <$> Models.participants response
      = Models.index <$> omap Service.participant_of_row rows
    ∧ Models.total_assigned_rewards_gnk response = cached_total
    ∧ CacheDB.get_epoch_total_rewards epoch_id (Service.cache_db self')
      = (if Py.truthy_int cached_total then cached_total else None)
    ∧ Service.tasks self'
      = Service.tasks self
        ++ (if Py.truthy_int cached_total then []
            else [Service.CalculateAndCacheTotalRewards epoch_id])
        ++ [Service.EnsureParticipantCaches epoch_id
              (Models.participants response)]
    ∧ CacheDB.inference_stats (Service.cache_db self')
      = CacheDB.inference_stats (Service.cache_db self).
Proof.
  intros Htarget Hrows Hgroup cached_total.
  destruct (get_stats_rows _ _ _ _ Hrows) as (first & rest & ->).
  unfold Service.get_historical_epoch_stats.
  erewrite bind_ok by reflexivity.
  erewrite bind_ok by exact Htarget.
  erewrite bind_ok by reflexivity.
  rewrite Hrows.
  erewrite bind_ok by (unfold Service.await; rewrite Hgroup; reflexivity).
  set (parsed := omap Service.participant_of_row (first :: rest)).
  destruct (merge_returns client clock epoch_id parsed target
              (Upstream.participants epoch_data) self)
    as (jail_map & health_map & self1 & Hmerge).
  pose proof (total_rewards_merge client clock epoch_id parsed target
                (Upstream.participants epoch_data) self) as Htotals.
  pose proof (tasks_merge client clock epoch_id parsed target
                (Upstream.participants epoch_data) self) as Htasks.
  pose proof (stats_merge client clock epoch_id parsed target
                (Upstream.participants epoch_data) self) as Hstats.
  rewrite Hmerge in Htotals, Htasks, Hstats. simpl in Htotals, Htasks, Hstats.
  erewrite bind_ok by exact Hmerge.
  erewrite bind_ok by reflexivity.
  assert (Hcached : CacheDB.get_epoch_total_rewards epoch_id
                      (Service.cache_db self1) = cached_total).
  { unfold cached_total, CacheDB.get_epoch_total_rewards.
    unfold total_rewards in Htotals. by rewrite Htotals. }
  rewrite Hcached.
  assert (Hindex : Models.index <$> (Service.overlay jail_map health_map
                                       <$> parsed)
                   = Models.index <$> parsed).
  { rewrite <- list_fmap_compose. apply list_fmap_ext. intros ? p _. simpl.
    apply overlay_index. }
  unfold CacheDB.get_epoch_total_rewards in Hcached.
  destruct cached_total as [total|] eqn:Htotal; simpl.
  - destruct (Z.eqb_spec total 0) as [->|Hnz]; simpl.
    + eexists _, _. split; [reflexivity|]. simpl.
      split_and!; try done.
      * unfold CacheDB.get_epoch_total_rewards. simpl.
        by rewrite lookup_delete_eq.
      * by rewrite Htasks, <- app_assoc.
    + eexists _, _. split; [reflexivity|]. simpl.
      split_and!; try done. by rewrite Htasks.
  - eexists _, _. split; [reflexivity|]. simpl.
    split_and!; try done. by rewrite Htasks, <- app_assoc.
Qed.

Lemma historical_read_from_cache_witness :
  let rows :=
    default [] (CacheDB.get_stats 41 (Some 10090)
                  (Service.cache_db Scenario.warm)) in
  let cached_total :=
    CacheDB.get_epoch_total_rewards 41 (Service.cache_db Scenario.warm) in
  ∃ response self',
    Service.get_historical_epoch_stats Scenario.after (Scenario.at_time 1030)
      41 None false Scenario.warm
    = (Ok response, self')
    ∧ Models.height response = 10090
    ∧ Models.index <$> Models.participants response
      = Models.index <$> omap Service.participant_of_row rows
    ∧ Models.total_assigned_rewards_gnk response = cached_total
    ∧ CacheDB.get_epoch_total_rewards 41 (Service.cache_db self')
      = (if Py.truthy_int cached_total then cached_total else None)
    ∧ Service.tasks self'
      = Service.tasks Scenario.warm
        ++ (if Py.truthy_int cached_total then []
            else [Service.CalculateAndCacheTotalRewards 41])
        ++ [Service.EnsureParticipantCaches 41 (Models.participants response)]
    ∧ CacheDB.inference_stats (Service.cache_db self')
      = CacheDB.inference_stats (Service.cache_db Scenario.warm).
Proof.
  apply (historical_read_from_cache Scenario.after (Scenario.at_time 1030) 41
           None Scenario.warm 10090
           (default [] (CacheDB.get_stats 41 (Some 10090)
                          (Service.cache_db Scenario.warm)))
           (Scenario.group 41 10000));
    reflexivity.
Defined.

(** ** The in-memory cache of the current epoch *)

Lemma fetch_current_epoch_stats_publishes client clock current_time self
    response self' :
  Service.fetch_current_epoch_stats client clock current_time self
  = (Ok response, self') →
  Service.current_epoch_data self' = Some response
  ∧ Service.last_fetch_time self' = Some current_time
  ∧ Service.current_epoch_id self' = Some (Models.epoch_id response)
  ∧ Models.is_current response = true.
Proof.
  unfold Service.fetch_current_epoch_stats.
  unfold mbind at 1, Service.M_bind at 1, Service.await at 1.
  destruct (Upstream.get_latest_height client) as [height|]; [|done].
  unfold mbind at 1, Service.M_bind at 1, Service.await at 1.
  destruct (Upstream.get_current_epoch_participants client)
    as [epoch_data|]; [|done].
  unfold mbind at 1, Service.M_bind at 1.
  destruct (Service._mark_epoch_finished_if_needed _ _ _ _ _)
    as [[[]|?] self1]; [|done].
  unfold mbind at 1, Service.M_bind at 1, Service.await at 1.
  destruct (Upstream.get_all_participants client height)
    as [participants_list|]; [|done].
  destruct (Service.fuse_participants _ _) as [participants_stats saved].
  unfold mbind at 1, Service.M_bind at 1.
  destruct (Service.merge_jail_and_health_data _ _ _ _ _ _ _)
    as [[merged|?] self2]; [|done].
  cbv [mbind Service.M_bind Service.execute Service.publish
         Service.create_task mret Service.M_ret].
  by intros [= <- <-].
Qed.

(** X13.  Whatever [get_current_epoch_stats] returns is the response
    held in memory afterwards, and a later call without [reload] whose
    clock reads a non-zero age below 300 seconds returns that same
    response without touching the service, whatever the upstream
    does. *)
Theorem current_epoch_stats_served_from_memory client clock reload self
    response self' :
  Service.get_current_epoch_stats client clock reload self
  = (Ok response, self') →
  Service.current_epoch_data self' = Some response
  ∧ ∀ client' clock' fetched_at,
      Service.last_fetch_time self' = Some fetched_at →
      fetched_at ≠ 0 →
      time clock' - fetched_at ≠ 0 →
      time clock' - fetched_at < 300 →
      Service.get_current_epoch_stats client' clock' false self'
      = (Ok response, self').
Proof.
  intros Hrun.
  assert (Hdata : Service.current_epoch_data self' = Some response).
  { revert Hrun. unfold Service.get_current_epoch_stats.
    erewrite bind_ok by reflexivity. erewrite bind_ok by reflexivity.
    destruct (Service.cache_is_fresh clock reload self),
      (Service.current_epoch_data self) as [data|] eqn:Hcached.
    1:{ by intros [= <- <-]. }
    all: unfold Service.try_except;
      destruct (Service.fetch_current_epoch_stats _ _ _ _)
        as [[fresh|e] self1] eqn:Hfetch;
      [ intros [= <- <-];
        by destruct (fetch_current_epoch_stats_publishes _ _ _ _ _ _ Hfetch)
      | unfold mbind, Service.M_bind, Service.read; simpl;
        destruct (Service.current_epoch_data self1) eqn:Hfallback;
        [by intros [= <- <-] | done] ]. }
  split; [exact Hdata|].
  intros client' clock' fetched_at Hlast Hnz Hage Hyoung.
  unfold Service.get_current_epoch_stats.
  erewrite bind_ok by reflexivity. erewrite bind_ok by reflexivity.
  rewrite Hdata.
  assert (Service.cache_is_fresh clock' false self' = true) as ->; [|done].
  unfold Service.cache_is_fresh. rewrite Hlast, Hdata. simpl.
  destruct (Z.eqb_spec fetched_at 0); [done|]. simpl.
  rewrite ?bool_decide_eq_true_2 by eauto. simpl.
  destruct (Z.eqb_spec (time clock' - fetched_at) 0); [lia|]. simpl.
  apply Z.ltb_lt. lia.
Qed.

Lemma current_epoch_stats_served_from_memory_witness :
  ∃ response,
    Service.current_epoch_data Scenario.warm = Some response
    ∧ ∀ client' clock' fetched_at,
        Service.last_fetch_time Scenario.warm = Some fetched_at →
        fetched_at ≠ 0 →
        time clock' - fetched_at ≠ 0 →
        time clock' - fetched_at < 300 →
        Service.get_current_epoch_stats client' clock' false Scenario.warm
        = (Ok response, Scenario.warm).
Proof.
  eexists.
  apply (current_epoch_stats_served_from_memory Scenario.before
           (Scenario.at_time 1000) true Scenario.cold).
  reflexivity.
Defined.

(** ** Canonical height: the other cases *)

(** X14.  For a historical epoch whose group and the latest epoch can
    be read, the height [get_canonical_height] returns is the canonical
    height when none is requested, and otherwise the smaller of the
    requested and the canonical height, the request being at or after
    the epoch's effective height: the result is never above the
    canonical height, nor above the request. *)
Theorem get_canonical_height_never_above client epoch_id requested_height
    latest_info epoch_data self height self' :
  Upstream.get_latest_epoch client = Ok latest_info →
  epoch_id ≠ Upstream.latest_epoch_index latest_info →
  Upstream.get_epoch_participants client epoch_id = Ok epoch_data →
  Service.get_canonical_height client epoch_id requested_height self
  = (Ok height, self') →
  match requested_height with
  | Some requested =>
      Upstream.effective_block_height epoch_data <= requested
      ∧ height = Z.min requested (canonical_height client latest_info epoch_id)
  | None => height = canonical_height client latest_info epoch_id
  end.
Proof.
  intros Hl Hne He.
  rewrite (get_canonical_height_unfold _ _ _ _ _ _ Hl Hne He). simpl.
  destruct requested_height as [requested|]; [|by intros [= <- _]].
  destruct (Z.ltb_spec requested (Upstream.effective_block_height epoch_data));
    [done|].
  destruct (Z.leb_spec (canonical_height client latest_info epoch_id)
              requested); intros [= <- _]; lia.
Qed.

Lemma get_canonical_height_never_above_witness :
  Upstream.effective_block_height (Scenario.group 42 10000) <= 10050
  ∧ 10050
    = Z.min 10050
        (canonical_height Scenario.settled
           {| Upstream.latest_epoch_index := 44;
              Upstream.next_poc_start := 10300 |} 42).
Proof.
  apply (get_canonical_height_never_above Scenario.settled 42 (Some 10050)
           {| Upstream.latest_epoch_index := 44;
              Upstream.next_poc_start := 10300 |}
           (Scenario.group 42 10000) Scenario.cold 10050 Scenario.cold);
    [reflexivity | simpl; lia | reflexivity | reflexivity].
Defined.

(** X15.  For the current epoch, [get_canonical_height] returns the
    requested height when one is given and is not 0, and the latest
    block height otherwise; no bound is checked. *)
Theorem get_canonical_height_current client epoch_id requested_height
    latest_info current_height self :
  Upstream.get_latest_epoch client = Ok latest_info →
  epoch_id = Upstream.latest_epoch_index latest_info →
  Upstream.get_latest_height client = Ok current_height →
  Service.get_canonical_height client epoch_id requested_height self
  = (Ok (match requested_height with
         | Some requested => if requested =? 0 then current_height else requested
         | None => current_height
         end), self).
Proof.
  intros Hl -> Hh.
  unfold Service.get_canonical_height, mbind, Service.M_bind, Service.await,
    mret, Service.M_ret.
  rewrite Hl, Z.eqb_refl, Hh. unfold Py.truthy_int.
  destruct requested_height as [requested|]; [|done]. simpl.
  by destruct (requested =? 0).
Qed.

Lemma get_canonical_height_current_witness :
  Service.get_canonical_height Scenario.settled 44 (Some 99999) Scenario.cold
  = (Ok (if 99999 =? 0 then 10250 else 99999), Scenario.cold).
Proof.
  apply (get_canonical_height_current Scenario.settled 44 (Some 99999)
           {| Upstream.latest_epoch_index := 44;
              Upstream.next_poc_start := 10300 |} 10250 Scenario.cold);
    reflexivity.
Defined.

(** ** The window of rewards *)

(** X16.  The epochs whose rewards a details response lists: for the
    current epoch the five epochs before it, for a historical epoch the
    epoch itself and the five before it; only positive epoch ids; none
    for an epoch after the current one. *)
Theorem reward_epoch_ids_window epoch_id current_epoch_id e :
  e ∈ Service.reward_epoch_ids epoch_id current_epoch_id
  ↔ 0 < e
    ∧ (epoch_id = current_epoch_id
       ∧ current_epoch_id - 5 <= e < current_epoch_id
       ∨ epoch_id < current_epoch_id ∧ epoch_id - 5 <= e <= epoch_id).
Proof.
  unfold Service.reward_epoch_ids.
  destruct (Z.eqb_spec epoch_id current_epoch_id) as [->|Hne].
  - rewrite list_elem_of_In, List.filter_In, Z.ltb_lt. simpl. lia.
  - destruct (Z.ltb_spec epoch_id current_epoch_id).
    + rewrite list_elem_of_In, List.filter_In, Z.ltb_lt. simpl. lia.
    + split; [by intros ?%elem_of_nil|lia].
Qed.

(** ** Totals of an epoch: the other cases *)

Lemma save_reward_batch_lookup (rewards : list CacheDB.Reward)
    (key : Z * string) (value : CacheDB.Reward)
    (m : gmap (Z * string) CacheDB.Reward) :
  (∀ r, r ∈ rewards →
        (CacheDB.rw_epoch_id r, CacheDB.rw_participant_id r) = key →
        r = value) →
  (∃ r, r ∈ rewards
        ∧ (CacheDB.rw_epoch_id r, CacheDB.rw_participant_id r) = key) →
  foldl (λ m r, <[(CacheDB.rw_epoch_id r, CacheDB.rw_participant_id r) := r]> m)
        m rewards !! key = Some value.
Proof.
  induction rewards as [|r rewards IH] using rev_ind; intros Hsame Hex.
  - destruct Hex as (r & Hin & _). by apply elem_of_nil in Hin.
  - rewrite foldl_app. cbn [foldl].
    destruct (decide ((CacheDB.rw_epoch_id r, CacheDB.rw_participant_id r)
                      = key)) as [Hkey|Hkey].
    + rewrite Hkey, lookup_insert_eq. f_equal. apply Hsame; [|done].
      apply elem_of_app. right. by left.
    + rewrite lookup_insert_ne by done. apply IH.
      * intros r' Hin. apply Hsame. apply elem_of_app. by left.
      * destruct Hex as (r' & [Hin|Hin]%elem_of_app & Hk); [eauto|].
        apply list_elem_of_singleton in Hin as ->. done.
Qed.

Lemma save_reward_batch_other (rewards : list CacheDB.Reward)
    (key : Z * string) (m : gmap (Z * string) CacheDB.Reward) :
  (∀ r, r ∈ rewards →
        (CacheDB.rw_epoch_id r, CacheDB.rw_participant_id r) ≠ key) →
  foldl (λ m r, <[(CacheDB.rw_epoch_id r, CacheDB.rw_participant_id r) := r]> m)
        m rewards !! key = m !! key.
Proof.
  induction rewards as [|r rewards IH] using rev_ind; intros Hother; [done|].
  rewrite foldl_app. cbn [foldl]. rewrite lookup_insert_ne.
  - apply IH. intros r' Hin. apply Hother, elem_of_app. by left.
  - apply Hother, elem_of_app. right. by left.
Qed.

Lemma add_reward_batch client epoch_id acc p :
  Service.rewards_batch (Service.add_reward client epoch_id acc p)
  = Service.rewards_batch acc
    ++ option_list (fetched_reward client epoch_id p).
Proof.
  unfold Service.add_reward, fetched_reward, Service.reward_of_summary.
  destruct (Upstream.get_epoch_performance_summary _ _ _) as [perf|];
    [|by rewrite app_nil_r].
  destruct (Py.int _); [done|by rewrite app_nil_r].
Qed.

Lemma sum_rewards_batch_fold client epoch_id
    (ps : list Upstream.EpochParticipant) acc :
  Service.rewards_batch (foldl (Service.add_reward client epoch_id) acc ps)
  = Service.rewards_batch acc ++ omap (fetched_reward client epoch_id) ps.
Proof.
  revert acc. induction ps as [|p ps IH]; intros acc.
  - simpl. by rewrite app_nil_r.
  - cbn [foldl]. rewrite IH, add_reward_batch, omap_cons, <- app_assoc.
    by destruct (fetched_reward client epoch_id p).
Qed.



(** ** The map of poc weights of an epoch participant *)

Lemma extract_nodes_fold (nodes : list Upstream.MLNode) (acc : gmap string Z)
    (id : string) :
  foldl
    (λ result node,
       match Upstream.node_id node with
       | Some id =>
           if String.eqb id "" then result
           else match Upstream.node_poc_weight node with
                | Some poc_weight => <[id := poc_weight]> result
                | None => result
                end
       | None => result
       end) acc nodes !! id
  = match last (List.filter (λ e, String.eqb e.1 id) (omap ml_node_entry nodes))
    with
    | Some e => Some e.2
    | None => acc !! id
    end.
Proof.
  induction nodes as [|node nodes IH] using rev_ind; [done|].
  rewrite foldl_app, omap_app, List.filter_app. cbn [foldl].
  unfold ml_node_entry at 2. simpl.
  destruct (Upstream.node_id node) as [id'|] eqn:Hid; simpl.
  2:{ by rewrite app_nil_r. }
  destruct (String.eqb_spec id' "") as [->|Hne]; simpl.
  { destruct (Upstream.node_poc_weight node); simpl; by rewrite app_nil_r. }
  destruct (Upstream.node_poc_weight node) as [w|]; simpl.
  2:{ by rewrite app_nil_r. }
  destruct (String.eqb_spec id' id) as [->|Hother].
  - by rewrite lookup_insert_eq, last_snoc.
  - rewrite lookup_insert_ne by done. by rewrite app_nil_r.
Qed.

Lemma extract_ml_nodes_map_lookup (ml_nodes_data : list Upstream.MLNodesEntry)
    (id : string) :
  Service._extract_ml_nodes_map ml_nodes_data !! id
  = (λ e, e.2)
      <$> last (List.filter (λ e, String.eqb e.1 id)
                  (omap ml_node_entry
                     (ml_nodes_data ≫= Upstream.ml_nodes))).
Proof.
  unfold Service._extract_ml_nodes_map.
  induction ml_nodes_data as [|wrapper l IH] using rev_ind; [done|].
  rewrite foldl_app. cbn [foldl]. rewrite extract_nodes_fold, IH.
  rewrite bind_app, omap_app, List.filter_app. simpl. rewrite app_nil_r.
  destruct (List.filter _ (omap ml_node_entry (Upstream.ml_nodes wrapper)))
    as [|e es] eqn:Hlast using rev_ind.
  - by rewrite app_nil_r.
  - by rewrite app_assoc, !last_snoc.
Qed.

(** X18.  The map built by [_extract_ml_nodes_map] has no entry for the
    empty node id; for any other id it holds the poc weight of the last
    node, over all wrappers in order, that carries this id and a weight
    (a weight of 0 included), and no entry when there is no such
    node. *)
Theorem extract_ml_nodes_map_entries
    (ml_nodes_data : list Upstream.MLNodesEntry) (id : string) :
  let nodes := ml_nodes_data ≫= Upstream.ml_nodes in
  let named :=
    List.filter
      (λ node, bool_decide (Upstream.node_id node = Some id
                            ∧ is_Some (Upstream.node_poc_weight node)))
      nodes in
  Service._extract_ml_nodes_map ml_nodes_data !! id
  = if String.eqb id "" then None
    else last named ≫= Upstream.node_poc_weight.
Proof.
  intros nodes named. rewrite extract_ml_nodes_map_lookup. fold nodes.
  subst named. generalize nodes. clear. intros nodes.
  induction nodes as [|node nodes IH] using rev_ind.
  { simpl. by destruct (String.eqb id ""). }
  rewrite omap_app, !List.filter_app. cbn [omap list_omap List.filter app].
  unfold ml_node_entry at 2.
  destruct (Upstream.node_id node) as [id'|] eqn:Hid.
  2:{ rewrite bool_decide_eq_false_2 by (by intros [? ?]).
      by rewrite !app_nil_r. }
  destruct (Upstream.node_poc_weight node) as [w|] eqn:Hw.
  2:{ rewrite bool_decide_eq_false_2 by (by intros [? [? ?]]).
      by rewrite !app_nil_r. }
  destruct (String.eqb_spec id' "") as [->|Hne].
  { cbn [List.filter app]. rewrite app_nil_r, IH.
    destruct (String.eqb_spec id "") as [->|Hid']; [done|].
    rewrite bool_decide_eq_false_2 by (intros [[=] _]; congruence).
    by rewrite app_nil_r. }
  cbn [List.filter app fst snd].
  destruct (String.eqb_spec id' id) as [->|Hother].
  - rewrite bool_decide_eq_true_2 by eauto. rewrite !last_snoc. simpl.
    apply String.eqb_neq in Hne. by rewrite Hne, Hw.
  - rewrite bool_decide_eq_false_2 by (intros [[=] _]; congruence).
    by rewrite !app_nil_r.
Qed.

(** ** Overlays *)

Lemma overlay_current_epoch_stats jail_map health_map p :
  Models.current_epoch_stats (Service.overlay jail_map health_map p)
  = Models.current_epoch_stats p.
Proof. unfold Service.overlay. by repeat case_match. Qed.

(** X19.  [merge_jail_and_health_data] never raises, whatever the
    validator and health lookups do; it returns the participants it was
    given, in their order, with the same index, weight and counters,
    and it changes neither the in-memory response nor [epoch_status]. *)
Theorem merge_jail_and_health_data_total client clock epoch_id participants
    height active self :
  ∃ merged self',
    Service.merge_jail_and_health_data client clock epoch_id participants
      height active self = (Ok merged, self')
    ∧ Models.index <$> merged = Models.index <$> participants
    ∧ Models.weight <$> merged = Models.weight <$> participants
    ∧ Models.current_epoch_stats <$> merged
      = Models.current_epoch_stats <$> participants
    ∧ memory self' = memory self
    ∧ finished_epochs self' = finished_epochs self.
Proof.
  destruct (merge_returns client clock epoch_id participants height active self)
    as (jail_map & health_map & self' & Hrun).
  exists (Service.overlay jail_map health_map <$> participants), self'.
  split; [exact Hrun|].
  pose proof (memory_merge client clock epoch_id participants height active
                self) as Hmem.
  pose proof (finished_epochs_merge client clock epoch_id participants height
                active self) as Hfin.
  rewrite Hrun in Hmem, Hfin. simpl in Hmem, Hfin.
  split_and!; [| | |done|done]; rewrite <- list_fmap_compose;
    apply list_fmap_ext; intros ? p _; simpl.
  - apply overlay_index.
  - apply overlay_weight.
  - apply overlay_current_epoch_stats.
Qed.

(** ** Participant details when the upstream is down *)

(** X20.  When the latest epoch cannot be read, the details of a
    participant are answered with [None], not with an exception, and
    the service is left as it was. *)
Theorem get_participant_details_upstream_down client clock participant_id
    epoch_id height self e :
  Upstream.get_latest_epoch client = Raise e →
  Service.get_participant_details client clock participant_id epoch_id height
    self
  = (Ok None, self).
Proof.
  intros Hdown.
  unfold Service.get_participant_details, Service.try_except.
  unfold mbind at 1, Service.M_bind at 1, Service.await at 1.
  by rewrite Hdown.
Qed.

Lemma get_participant_details_upstream_down_witness :
  Service.get_participant_details Scenario.down (Scenario.at_time 1010) "P1" 41
    None Scenario.warm
  = (Ok None, Scenario.warm).
Proof.
  apply (get_participant_details_upstream_down Scenario.down
           (Scenario.at_time 1010) "P1" 41 None Scenario.warm
           Py.UpstreamUnavailable).
  reflexivity.
Defined.

(** ** What the background jobs leave alone *)

Lemma try_except_total (body : Service.M unit) self :
  fst (Service.try_except body (λ _, mret tt) self) = Ok tt.
Proof.
  unfold Service.try_except. by destruct (body self) as [[[]|e] self'].
Qed.

Lemma served_execute f :
  (∀ db, CacheDB.inference_stats (f db) = CacheDB.inference_stats db
         ∧ CacheDB.epoch_status (f db) = CacheDB.epoch_status db) →
  keeps served (Service.execute f).
Proof.
  intros Hf self. unfold served, memory. simpl.
  by destruct (Hf (Service.cache_db self)) as [-> ->].
Qed.

Lemma served_execute_checked f :
  (∀ db db', f db = Ok db' →
             CacheDB.inference_stats db' = CacheDB.inference_stats db
             ∧ CacheDB.epoch_status db' = CacheDB.epoch_status db) →
  keeps served (Service.execute_checked f).
Proof.
  intros Hf self. unfold Service.execute_checked.
  destruct (f (Service.cache_db self)) as [db'|e] eqn:Hrun; [|done].
  unfold served, memory. simpl. by destruct (Hf _ _ Hrun) as [-> ->].
Qed.

Lemma served_create_task t : keeps served (Service.create_task t).
Proof. done. Qed.

Lemma served_save_warm_keys_batch epoch_id participant_id warm_keys db db' :
  CacheDB.save_warm_keys_batch epoch_id participant_id warm_keys db = Ok db' →
  CacheDB.inference_stats db' = CacheDB.inference_stats db
  ∧ CacheDB.epoch_status db' = CacheDB.epoch_status db.
Proof.
  unfold CacheDB.save_warm_keys_batch. destruct (bool_decide _); [|done].
  by intros [= <-].
Qed.

Lemma served_save_hardware_nodes_batch epoch_id participant_id nodes db db' :
  CacheDB.save_hardware_nodes_batch epoch_id participant_id nodes db = Ok db' →
  CacheDB.inference_stats db' = CacheDB.inference_stats db
  ∧ CacheDB.epoch_status db' = CacheDB.epoch_status db.
Proof.
  unfold CacheDB.save_hardware_nodes_batch. destruct (bool_decide _); [|done].
  by intros [= <-].
Qed.

Lemma keeps_for_each {X A} (proj : Service.InferenceService → X)
    (l : list A) (body : A → Service.M unit) :
  (∀ x, keeps proj (body x)) → keeps proj (Service.for_each l body).
Proof.
  intros Hbody. induction l as [|x l IH]; [done|].
  cbn [Service.for_each]. by apply keeps_bind.
Qed.

#[local] Hint Resolve served_create_task : keeps.
#[local] Hint Extern 2 (keeps served (Service.execute _)) =>
  apply served_execute; intros; split; reflexivity : keeps.
#[local] Hint Extern 2 (keeps served (Service.execute_checked _)) =>
  apply served_execute_checked; intros ? ?;
  first [ apply served_save_warm_keys_batch
        | apply served_save_hardware_nodes_batch ] : keeps.
#[local] Hint Extern 2 (keeps _ (Service.for_each _ _)) =>
  apply keeps_for_each; intros : keeps.

Lemma served_calculate client epoch_id :
  keeps served (Service._calculate_and_cache_total_rewards client epoch_id).
Proof. unfold Service._calculate_and_cache_total_rewards. keeps. Qed.

#[local] Hint Resolve served_calculate : keeps.

Lemma served_ensure client epoch_id participants :
  keeps served (Service._ensure_participant_caches client epoch_id participants).
Proof.
  unfold Service._ensure_participant_caches.
  apply keeps_try_except; [|intros; auto with keeps].
  apply keeps_for_each. intros participant. keeps.
Qed.

Lemma served_poll_warm_keys client :
  keeps served (Service.poll_warm_keys client).
Proof.
  unfold Service.poll_warm_keys.
  apply keeps_try_except; [|intros; auto with keeps].
  apply keeps_bind; [auto with keeps|intros epoch_data].
  apply keeps_for_each. intros participant. keeps.
Qed.

Lemma served_poll_hardware_nodes client :
  keeps served (Service.poll_hardware_nodes client).
Proof.
  unfold Service.poll_hardware_nodes.
  apply keeps_try_except; [|intros; auto with keeps].
  apply keeps_bind; [auto with keeps|intros epoch_data].
  apply keeps_for_each. intros participant. keeps.
Qed.

Lemma served_poll_participant_rewards client summary_at :
  keeps served (Service.poll_participant_rewards client summary_at).
Proof. unfold Service.poll_participant_rewards. keeps. Qed.

Lemma served_poll_epoch_total_rewards client :
  keeps served (Service.poll_epoch_total_rewards client).
Proof.
  unfold Service.poll_epoch_total_rewards.
  apply keeps_try_except; [|intros; auto with keeps].
  apply keeps_bind; [auto with keeps|intros latest_info].
  apply keeps_for_each. intros offset. keeps.
Qed.

(** X21.  The four polling jobs of the service and the coroutines it
    queues never raise, and they change neither the response held in
    memory nor the tables [inference_stats] and [epoch_status]: what a
    read of the statistics answers does not depend on them. *)
Theorem background_jobs_frame client summary_at self :
  let jobs :=
    [Service.poll_warm_keys client;
     Service.poll_hardware_nodes client;
     Service.poll_participant_rewards client summary_at;
     Service.poll_epoch_total_rewards client]
    ++ (Service.run_task client <$> Service.tasks self) in
  Forall (λ job, fst (job self) = Ok tt ∧ served (snd (job self)) = served self)
         jobs.
Proof.
  intros jobs. subst jobs. apply Forall_app. split.
  - apply Forall_cons_2;
      [|apply Forall_cons_2;
         [|apply Forall_cons_2; [|apply Forall_cons_2; [|apply Forall_nil_2]]]];
      (split; [apply try_except_total|]).
    + apply served_poll_warm_keys.
    + apply served_poll_hardware_nodes.
    + apply served_poll_participant_rewards.
    + apply served_poll_epoch_total_rewards.
  - apply Forall_fmap, Forall_forall. intros task _. simpl.
    destruct task; simpl.
    + split; [apply try_except_total|apply served_calculate].
    + split; [apply try_except_total|apply served_ensure].
Qed.

(** ** The poll of the totals *)

Lemma for_each_invariant {A} (R : relation Service.InferenceService)
    (l : list A) (body : A → Service.M unit) :
  Reflexive R → Transitive R →
  (∀ x self, x ∈ l → R self (snd (body x self))) →
  ∀ self, R self (snd (Service.for_each l body self)).
Proof.
  intros Hrefl Htrans. induction l as [|x l IH]; intros Hbody self; [done|].
  cbn [Service.for_each]. unfold mbind, Service.M_bind.
  pose proof (Hbody x self ltac:(by left)) as Hx.
  destruct (body x self) as [[[]|e] self1]; simpl in *; [|done].
  etrans; [exact Hx|]. apply IH. intros y s Hy. apply Hbody. by right.
Qed.

Lemma calculate_total_rewards_elsewhere client epoch_id self epoch_id' :
  epoch_id' ≠ epoch_id →
  total_rewards
    (snd (Service._calculate_and_cache_total_rewards client epoch_id self))
  !! epoch_id'
  = total_rewards self !! epoch_id'.
Proof.
  intros Hne.
  unfold Service._calculate_and_cache_total_rewards, Service.try_except,
    mbind, Service.M_bind, Service.await, Service.execute, mret, Service.M_ret,
    total_rewards.
  destruct (Upstream.get_epoch_participants client epoch_id) as [epoch_data|];
    [|done].
  destruct (_ && _); [done|].
  destruct (Service.rewards_batch _); simpl; by rewrite lookup_insert_ne.
Qed.

#[local] Instance positive_totals_stay_refl : Reflexive positive_totals_stay.
Proof. by intros self e total. Qed.

#[local] Instance positive_totals_stay_trans : Transitive positive_totals_stay.
Proof. intros a b c Hab Hbc e total H1 H2. apply Hbc; [|done]. by apply Hab. Qed.

Lemma poll_epoch_total_rewards_stay client self :
  positive_totals_stay self
    (snd (Service.poll_epoch_total_rewards client self)).
Proof.
  unfold Service.poll_epoch_total_rewards, Service.try_except.
  unfold mbind at 1, Service.M_bind at 1, Service.await at 1.
  destruct (Upstream.get_latest_epoch client) as [latest_info|]; [|done].
  match goal with
  | |- positive_totals_stay _ (snd (match ?m self with _ => _ end)) =>
      assert (Hloop : positive_totals_stay self (snd (m self)));
        [|by destruct (m self) as [[?|?] ?]]
  end.
  apply for_each_invariant; [apply _..|]. intros offset s _.
  destruct (_ <=? 0); [done|].
  unfold mbind at 1, Service.M_bind at 1, Service.query at 1.
  set (epoch_id := Upstream.latest_epoch_index latest_info - offset).
  assert (Hcalc : ∀ s1,
            (∀ total, total_rewards s !! epoch_id = Some total → ¬ 0 < total) →
            (∀ e, e ≠ epoch_id → total_rewards s1 !! e = total_rewards s !! e) →
            positive_totals_stay s
              (snd (Service._calculate_and_cache_total_rewards client epoch_id
                      s1))).
  { intros s1 Hnot Hsame e total Hcached Hpos.
    destruct (decide (e = epoch_id)) as [->|Hne].
    - by destruct (Hnot total).
    - rewrite calculate_total_rewards_elsewhere by done.
      by rewrite Hsame. }
  unfold CacheDB.get_epoch_total_rewards.
  fold (total_rewards s).
  destruct (total_rewards s !! epoch_id) as [total|] eqn:Hcached.
  - destruct (Z.ltb_spec 0 total); [done|].
    unfold mbind, Service.M_bind.
    destruct (Z.eqb_spec total 0) as [->|Hnz].
    + simpl. apply Hcalc.
      * intros ? [= <-]. lia.
      * intros e Hne. unfold total_rewards. simpl.
        by rewrite lookup_delete_ne.
    + simpl. apply Hcalc; [|done]. intros ? [= <-]. lia.
  - apply Hcalc; [|done]. done.
Qed.

(** X22.  A positive total cached for an epoch, whichever epoch it is,
    is still cached with the same value after
    [poll_epoch_total_rewards]: the poll recomputes only totals that
    are missing or not positive. *)
Theorem poll_epoch_total_rewards_keeps_positive client self epoch_id total :
  CacheDB.get_epoch_total_rewards epoch_id (Service.cache_db self)
  = Some total →
  0 < total →
  CacheDB.get_epoch_total_rewards epoch_id
    (Service.cache_db (snd (Service.poll_epoch_total_rewards client self)))
  = Some total.
Proof.
  intros Hcached Hpos.
  by apply (poll_epoch_total_rewards_stay client self epoch_id total).
Qed.

Lemma poll_epoch_total_rewards_keeps_positive_witness :
  CacheDB.get_epoch_total_rewards 41
    (Service.cache_db
       (snd (Service.poll_epoch_total_rewards Scenario.after
               Scenario.transitioned)))
  = Some 7.
Proof.
  apply (poll_epoch_total_rewards_keeps_positive Scenario.after
           Scenario.transitioned 41 7).
  - reflexivity.
  - lia.
Defined.

(** ** The poll of the rewards *)

Lemma rewards_to_save_not_claimed summary_at db current_epoch height
    participant reward :
  reward ∈ Service.rewards_to_save_for summary_at db current_epoch height
             participant →
  ∀ cached,
    CacheDB.get_reward (CacheDB.rw_epoch_id reward)
      (CacheDB.rw_participant_id reward) db = Some cached →
    CacheDB.rw_claimed cached = false.
Proof.
  unfold Service.rewards_to_save_for.
  intros Hin%list_elem_of_In%List.in_flat_map.
  destruct Hin as (offset & _ & Hin). revert Hin.
  destruct (_ <=? 0); [done|].
  destruct (CacheDB.get_reward _ _ db) as [cached|] eqn:Hcached; simpl.
  - destruct (CacheDB.rw_claimed cached) eqn:Hclaimed; [done|].
    destruct (summary_at _ _ _); [|done].
    intros [<-|[]]. simpl. intros c. rewrite Hcached. by intros [= <-].
  - destruct (summary_at _ _ _); [|done].
    intros [<-|[]]. simpl. intros c. by rewrite Hcached.
Qed.

(** X23.  A reward that is cached as claimed is left as it is by
    [poll_participant_rewards]: it is neither fetched again nor
    overwritten. *)
Theorem poll_participant_rewards_keeps_claimed client summary_at self
    epoch_id participant_id reward :
  CacheDB.get_reward epoch_id participant_id (Service.cache_db self)
  = Some reward →
  CacheDB.rw_claimed reward = true →
  CacheDB.get_reward epoch_id participant_id
    (Service.cache_db
       (snd (Service.poll_participant_rewards client summary_at self)))
  = Some reward.
Proof.
  intros Hcached Hclaimed.
  unfold Service.poll_participant_rewards, Service.try_except,
    mbind, Service.M_bind, Service.await, Service.query.
  destruct (Upstream.get_latest_height client) as [height|]; [|done].
  destruct (Upstream.get_current_epoch_participants client) as [epoch_data|];
    [|done].
  simpl.
  set (rewards_to_save := List.flat_map _ _).
  assert (Hother : ∀ r, r ∈ rewards_to_save →
            (CacheDB.rw_epoch_id r, CacheDB.rw_participant_id r)
            ≠ (epoch_id, participant_id)).
  { intros r Hin%list_elem_of_In%List.in_flat_map [= He Hp].
    destruct Hin as (participant & _ & Hin%list_elem_of_In).
    pose proof (rewards_to_save_not_claimed _ _ _ _ _ _ Hin reward) as Hnot.
    rewrite He, Hp in Hnot. specialize (Hnot Hcached). congruence. }
  destruct rewards_to_save as [|r rs] eqn:Hsave; [done|].
  simpl. unfold CacheDB.get_reward in *. simpl.
  rewrite <- Hcached.
  apply (save_reward_batch_other (r :: rs)). exact Hother.
Qed.

Lemma poll_participant_rewards_keeps_claimed_witness :
  CacheDB.get_reward 40 "P1"
    (Service.cache_db
       (snd (Service.poll_participant_rewards Scenario.after Scenario.paid_at
               Scenario.rewarded)))
  = Some Scenario.claimed_reward.
Proof.
  apply (poll_participant_rewards_keeps_claimed Scenario.after Scenario.paid_at
           Scenario.rewarded 40 "P1" Scenario.claimed_reward);
    reflexivity.
Defined.

(** ** The poll of the warm keys *)

Lemma poll_warm_keys_step client epoch_id participant self index :
  let self' :=
    snd (Service.try_except
           (warm_keys ← Service.await
                          (Upstream.get_authz_grants client
                             (Upstream.ep_index participant));
            Service.execute_checked
              (CacheDB.save_warm_keys_batch epoch_id
                 (Upstream.ep_index participant) warm_keys))
           (λ _, mret tt) self) in
  (index = Upstream.ep_index participant ∨ granted_keys_cached client epoch_id
                                             index self) →
  granted_keys_cached client epoch_id index self'.
Proof.
  intros self' Hcase warm_keys Hgrants Hne Hnodup. subst self'.
  unfold Service.try_except, mbind, Service.M_bind, Service.await,
    Service.execute_checked, Service.execute.
  destruct (decide (index = Upstream.ep_index participant)) as [->|Hother].
  - rewrite Hgrants. unfold CacheDB.save_warm_keys_batch.
    rewrite bool_decide_eq_true_2 by done. simpl.
    destruct warm_keys as [|k ks]; [done|]. by rewrite lookup_insert_eq.
  - destruct Hcase as [|Hcached]; [done|].
    specialize (Hcached warm_keys Hgrants Hne Hnodup).
    destruct (Upstream.get_authz_grants client (Upstream.ep_index participant))
      as [keys|]; [|done].
    unfold CacheDB.save_warm_keys_batch.
    destruct (bool_decide (NoDup _)); [|done]. simpl.
    destruct keys; [rewrite lookup_delete_ne|rewrite lookup_insert_ne];
      congruence.
Qed.

Lemma poll_warm_keys_loop client epoch_id
    (participants : list Upstream.EpochParticipant) self index :
  index ∈ Upstream.ep_index <$> participants
  ∨ granted_keys_cached client epoch_id index self →
  granted_keys_cached client epoch_id index
    (snd (Service.for_each participants
            (λ participant,
               Service.try_except
                 (warm_keys ← Service.await
                                (Upstream.get_authz_grants client
                                   (Upstream.ep_index participant));
                  Service.execute_checked
                    (CacheDB.save_warm_keys_batch epoch_id
                       (Upstream.ep_index participant) warm_keys))
                 (λ _, mret tt))
            self)).
Proof.
  revert self. induction participants as [|p ps IH]; intros self Hcase.
  - destruct Hcase as [Hin|]; [|done]. by apply elem_of_nil in Hin.
  - cbn [Service.for_each]. unfold mbind at 1, Service.M_bind at 1.
    pose proof (poll_warm_keys_step client epoch_id p self index) as Hstep.
    pose proof (try_except_total
                  (warm_keys ← Service.await
                                 (Upstream.get_authz_grants client
                                    (Upstream.ep_index p));
                   Service.execute_checked
                     (CacheDB.save_warm_keys_batch epoch_id
                        (Upstream.ep_index p) warm_keys)) self) as Hok.
    cbv zeta in Hstep.
    destruct (Service.try_except _ _ self) as [[[]|e] self1]; [|done].
    simpl in Hstep. apply IH.
    rewrite fmap_cons in Hcase.
    destruct Hcase as [[->|Hin]%elem_of_cons|Hcached]; auto.
Qed.

(** X24.  After [poll_warm_keys], every participant of the current
    epoch whose grants were fetched as a non-empty list without a
    repeated grantee has exactly these keys cached under the current
    epoch, whatever happened to the other participants of the loop. *)
Theorem poll_warm_keys_caches_grants client self epoch_data participant
    warm_keys :
  Upstream.get_current_epoch_participants client = Ok epoch_data →
  participant ∈ Upstream.participants epoch_data →
  Upstream.get_authz_grants client (Upstream.ep_index participant)
  = Ok warm_keys →
  warm_keys ≠ [] →
  NoDup (Upstream.grantee_address <$> warm_keys) →
  ∃ rows,
    CacheDB.get_warm_keys (Upstream.epoch_group_id epoch_data)
      (Upstream.ep_index participant)
      (Service.cache_db (snd (Service.poll_warm_keys client self)))
    = Some rows
    ∧ rows ≡ₚ warm_keys.
Proof.
  intros Hgroup Hin Hgrants Hne Hnodup.
  pose proof (poll_warm_keys_loop client (Upstream.epoch_group_id epoch_data)
                (Upstream.participants epoch_data) self
                (Upstream.ep_index participant)) as Hloop.
  unfold Service.poll_warm_keys. unfold Service.try_except at 1.
  unfold mbind at 1, Service.M_bind at 1, Service.await at 1.
  rewrite Hgroup.
  match type of Hloop with
  | _ → granted_keys_cached _ _ _ (snd ?run) =>
      destruct run as [[[]|e] self'] eqn:Hrun
  end; simpl in Hloop |- *.
  all: specialize (Hloop ltac:(left; apply list_elem_of_fmap; eauto)
                     warm_keys Hgrants Hne Hnodup);
    unfold CacheDB.get_warm_keys; rewrite Hloop;
    destruct warm_keys as [|k ks]; [done|];
    eexists; (split; [reflexivity|apply sort_by_perm]).
Qed.

Lemma poll_warm_keys_caches_grants_witness :
  ∃ rows,
    CacheDB.get_warm_keys (Upstream.epoch_group_id (Scenario.group 41 10000))
      (Upstream.ep_index Scenario.P1)
      (Service.cache_db
         (snd (Service.poll_warm_keys Scenario.before_granted Scenario.warm)))
    = Some rows
    ∧ rows ≡ₚ [Scenario.key1].
Proof.
  apply (poll_warm_keys_caches_grants Scenario.before_granted Scenario.warm
           (Scenario.group 41 10000) Scenario.P1 [Scenario.key1]).
  - reflexivity.
  - left.
  - reflexivity.
  - discriminate.
  - apply (bool_decide_unpack _). vm_compute. exact I.
Defined.

(** ** The fill of the participant caches *)

#[local] Instance cached_entries_stay_refl : Reflexive cached_entries_stay.
Proof. by intros self e p. Qed.

#[local] Instance cached_entries_stay_trans : Transitive cached_entries_stay.
Proof.
  intros a b c Hab Hbc e p.
  destruct (Hab e p) as (H1 & H2 & H3), (Hbc e p) as (H1' & H2' & H3').
  split_and!; eauto.
Qed.

Lemma ensure_reward_step client epoch_id participant_id self :
  cached_entries_stay self
    (snd (match CacheDB.get_reward epoch_id participant_id
                  (Service.cache_db self) with
          | None =>
              Service.try_except
                (perf ← Service.await
                          (Upstream.get_epoch_performance_summary client
                             epoch_id participant_id);
                 Service.execute
                   (CacheDB.save_reward_batch
                      [Service.reward_of_summary epoch_id participant_id perf]))
                (λ _, mret tt)
          | Some _ => mret tt
          end self)).
Proof.
  unfold mbind, Service.M_bind, Service.try_except, Service.await,
    Service.execute.
  destruct (CacheDB.get_reward epoch_id participant_id (Service.cache_db self))
    as [cached|] eqn:Hcached; [done|].
  destruct (Upstream.get_epoch_performance_summary _ _ _) as [perf|]; [|done].
  intros e p. simpl. split_and!; [|done..].
  intros reward Hreward. unfold CacheDB.get_reward in *. simpl.
  rewrite lookup_insert_ne; [done|]. intros [= <- <-]. congruence.
Qed.

Lemma ensure_warm_keys_step client epoch_id participant_id self :
  cached_entries_stay self
    (snd (match CacheDB.get_warm_keys epoch_id participant_id
                  (Service.cache_db self) with
          | None =>
              Service.try_except
                (warm_keys ← Service.await
                               (Upstream.get_authz_grants client participant_id);
                 Service.execute_checked
                   (CacheDB.save_warm_keys_batch epoch_id participant_id
                      warm_keys))
                (λ _, mret tt)
          | Some _ => mret tt
          end self)).
Proof.
  unfold mbind, Service.M_bind, Service.try_except, Service.await,
    Service.execute_checked, Service.execute.
  destruct (CacheDB.get_warm_keys epoch_id participant_id
              (Service.cache_db self)) as [cached|] eqn:Hcached; [done|].
  destruct (Upstream.get_authz_grants _ _) as [warm_keys|]; [|done].
  unfold CacheDB.save_warm_keys_batch.
  destruct (bool_decide (NoDup _)); [|done].
  intros e p. simpl. split_and!; [done| |done].
  intros rows Hrows. unfold CacheDB.get_warm_keys in *. simpl.
  assert ((e, p) ≠ (epoch_id, participant_id)) as Hne
    by (intros [= -> ->]; congruence).
  destruct warm_keys; [by rewrite lookup_delete_ne|by rewrite lookup_insert_ne].
Qed.

Lemma ensure_hardware_step client epoch_id participant_id self :
  cached_entries_stay self
    (snd (match CacheDB.get_hardware_nodes epoch_id participant_id
                  (Service.cache_db self) with
          | None =>
              Service.try_except
                (hardware_nodes ← Service.await
                                    (Upstream.get_hardware_nodes client
                                       participant_id);
                 Service.execute_checked
                   (CacheDB.save_hardware_nodes_batch epoch_id participant_id
                      hardware_nodes))
                (λ _, mret tt)
          | Some _ => mret tt
          end self)).
Proof.
  unfold mbind, Service.M_bind, Service.try_except, Service.await,
    Service.execute_checked, Service.execute.
  destruct (CacheDB.get_hardware_nodes epoch_id participant_id
              (Service.cache_db self)) as [cached|] eqn:Hcached; [done|].
  destruct (Upstream.get_hardware_nodes _ _) as [nodes|]; [|done].
  unfold CacheDB.save_hardware_nodes_batch.
  destruct (bool_decide (NoDup _)); [|done].
  intros e p. simpl. split_and!; [done|done|].
  intros rows Hrows. unfold CacheDB.get_hardware_nodes in *. simpl.
  assert ((e, p) ≠ (epoch_id, participant_id)) as Hne
    by (intros [= -> ->]; congruence).
  destruct nodes; [by rewrite lookup_delete_ne|by rewrite lookup_insert_ne].
Qed.

Lemma stay_bind {A B} (R : relation Service.InferenceService)
    (m : Service.M A) (f : A → Service.M B) self :
  Transitive R →
  R self (snd (m self)) →
  (∀ a s, m self = (Ok a, s) → R s (snd (f a s))) →
  R self (snd ((m ≫= f) self)).
Proof.
  intros Htrans Hm Hf. unfold mbind, Service.M_bind.
  destruct (m self) as [[a|e] self1] eqn:Hrun; simpl in *; [|done].
  etrans; [exact Hm|by apply Hf].
Qed.

(** X25.  The fill of the participant caches only adds what is missing:
    a reward, a list of warm keys or a list of hardware nodes that the
    cache answers before [_ensure_participant_caches], for any epoch
    and participant, is answered unchanged after it. *)
Theorem ensure_participant_caches_keeps_cached client epoch_id participants
    self :
  cached_entries_stay self
    (snd (Service._ensure_participant_caches client epoch_id participants
            self)).
Proof.
  unfold Service._ensure_participant_caches. unfold Service.try_except at 1.
  match goal with
  | |- cached_entries_stay _ (snd (match ?m self with _ => _ end)) =>
      assert (Hloop : cached_entries_stay self (snd (m self)));
        [|by destruct (m self) as [[?|?] ?]]
  end.
  apply for_each_invariant; [apply _..|]. intros participant s _. cbv zeta.
  apply (stay_bind cached_entries_stay); [apply _|reflexivity|].
  intros cached_reward s1 [= <- <-].
  apply (stay_bind cached_entries_stay);
    [apply _|apply ensure_reward_step|]. intros [] s2 _.
  apply (stay_bind cached_entries_stay); [apply _|reflexivity|].
  intros cached_warm_keys s3 [= <- <-].
  apply (stay_bind cached_entries_stay);
    [apply _|apply ensure_warm_keys_step|]. intros [] s4 _.
  apply (stay_bind cached_entries_stay); [apply _|reflexivity|].
  intros cached_hardware s5 [= <- <-].
  apply ensure_hardware_step.
Qed.

(** ** Model aggregation *)

Lemma sum_list_snoc l x : sum_list (l ++ [x]) = sum_list l + x.
Proof.
  unfold sum_list. induction l as [|y l IH]; simpl; [lia|]. rewrite IH. lia.
Qed.

Lemma match_snoc {A B} (l : list A) (x : A) (b : B) :
  match l ++ [x] with
  | [] => None
  | _ :: _ => Some b
  end = Some b.
Proof. by destruct l. Qed.

Lemma node_weights_fold (model : string) (nodes : list Upstream.MLNode)
    (weights : gmap string Z) (v : Z) :
  weights !! model = Some v →
  let weights' :=
    foldl (λ weights ml_node,
             <[model := default 0 (weights !! model)
                        + default 0 (Upstream.node_poc_weight ml_node)]>
               weights)
          weights nodes in
  weights' !! model
  = Some (v + sum_list ((λ node, default 0 (Upstream.node_poc_weight node))
                          <$> nodes))
  ∧ ∀ k, k ≠ model → weights' !! k = weights !! k.
Proof.
  revert weights v. induction nodes as [|n nodes IH]; intros weights v Hv.
  - simpl. split; [|done]. rewrite Hv. f_equal. unfold sum_list. simpl. lia.
  - cbn [foldl]. rewrite Hv. cbn [default].
    destruct (IH (<[model := v + default 0 (Upstream.node_poc_weight n)]>
                    weights)
                 (v + default 0 (Upstream.node_poc_weight n))) as [IH1 IH2].
    { apply lookup_insert_eq. }
    split.
    + etrans; [exact IH1|]. f_equal. rewrite fmap_cons. unfold sum_list.
      simpl. lia.
    + intros k Hk. etrans; [by apply IH2|]. by rewrite lookup_insert_ne.
Qed.

Lemma add_model_entry_lookup (index : string) (acc : Service.ModelTotals)
    (model : string) (entry : Upstream.MLNodesEntry) (m : string) :
  let acc' := Service.add_model_entry index acc (model, entry) in
  acc'.1 !! m
  = (if String.eqb model m
     then Some (default 0 (acc.1 !! m) + entry_weight entry)
     else acc.1 !! m)
  ∧ acc'.2 !! m
    = (if String.eqb model m
       then Some (match acc.1 !! m with
                  | Some _ => default ∅ (acc.2 !! m)
                  | None => ∅
                  end ∪ {[index]})
       else acc.2 !! m).
Proof.
  destruct acc as [weights counts]. unfold Service.add_model_entry.
  cbn [fst snd].
  destruct (weights !! model) as [v|] eqn:Hv.
  - destruct (node_weights_fold model (Upstream.ml_nodes entry) weights v Hv)
      as [Hw Hother].
    cbn [fst snd]. destruct (String.eqb_spec model m) as [<-|Hne].
    + rewrite Hw, Hv, lookup_insert_eq. done.
    + rewrite Hother by done. by rewrite lookup_insert_ne.
  - destruct (node_weights_fold model (Upstream.ml_nodes entry)
                (<[model := 0]> weights) 0) as [Hw Hother].
    { apply lookup_insert_eq. }
    cbn [fst snd]. destruct (String.eqb_spec model m) as [<-|Hne].
    + rewrite Hw, Hv, !lookup_insert_eq. done.
    + rewrite Hother by done. by rewrite !lookup_insert_ne.
Qed.

Lemma model_totals_flat (participants : list Upstream.EpochParticipant)
    (acc : Service.ModelTotals) :
  foldl Service.add_participant_models acc participants
  = foldl (λ acc e, Service.add_model_entry e.1 acc e.2) acc
          (model_entries participants).
Proof.
  revert acc. induction participants as [|p ps IH]; intros acc; [done|].
  cbn [foldl]. unfold model_entries. rewrite bind_cons, foldl_app.
  fold (model_entries ps). rewrite <- IH. f_equal.
  unfold Service.add_participant_models.
  generalize (zip (Upstream.ep_models p) (Upstream.ep_ml_nodes p)).
  intros l. revert acc. induction l as [|x l IHl]; intros acc; [done|].
  simpl. apply IHl.
Qed.

Lemma model_totals_lookup (participants : list Upstream.EpochParticipant)
    (model : string) :
  let es := entries_of_model model participants in
  let totals := Service.model_totals participants in
  totals.1 !! model
  = match es with
    | [] => None
    | _ => Some (sum_list (entry_weight ∘ snd ∘ snd <$> es))
    end
  ∧ totals.2 !! model
    = match es with
      | [] => None
      | _ => Some (list_to_set (fst <$> es))
      end.
Proof.
  unfold Service.model_totals, entries_of_model.
  rewrite model_totals_flat.
  induction (model_entries participants) as [|e es IH] using rev_ind;
    [done|].
  cbv zeta in *. rewrite foldl_app, List.filter_app. cbn [foldl List.filter].
  destruct e as [index [model' entry]].
  destruct (add_model_entry_lookup index
              (foldl (λ acc e, Service.add_model_entry e.1 acc e.2) (∅, ∅) es)
              model' entry model) as [Hw Hc].
  destruct IH as [IHw IHc].
  cbn [fst snd] in *. rewrite Hw, Hc.
  destruct (String.eqb_spec model' model) as [->|Hne].
  - rewrite IHw, IHc, !match_snoc, !fmap_snoc, sum_list_snoc,
      list_to_set_snoc_L.
    destruct (List.filter _ es) as [|e' es']; cbn [default fst snd].
    + done.
    + done.
  - by rewrite app_nil_r.
Qed.


(** ** The cache of the aggregation *)

Lemma insert_rows_lookup (rows : list CacheDB.ModelRow)
    (m : gmap string CacheDB.ModelRow) (k : string) :
  NoDup (CacheDB.model_id <$> rows) →
  foldl (λ m row, <[CacheDB.model_id row := row]> m) m rows !! k
  = match List.find (λ row, String.eqb (CacheDB.model_id row) k) rows with
    | Some row => Some row
    | None => m !! k
    end.
Proof.
  revert m. induction rows as [|row rows IH]; intros m Hnodup; [done|].
  rewrite fmap_cons in Hnodup. apply NoDup_cons in Hnodup as [Hrow Hnodup].
  cbn [foldl List.find]. rewrite IH by done.
  destruct (String.eqb_spec (CacheDB.model_id row) k) as [<-|Hne].
  - destruct (List.find _ rows) as [row'|] eqn:Hfind.
    + apply List.find_some in Hfind as [Hin Heq].
      apply String.eqb_eq in Heq. destruct Hrow.
      apply list_elem_of_fmap. exists row'. split; [done|].
      by apply list_elem_of_In.
    + apply lookup_insert_eq.
  - destruct (List.find _ rows); [done|]. by apply lookup_insert_ne.
Qed.

Lemma models_to_cache_keys (participants : list Upstream.EpochParticipant)
    (k : string) (row : CacheDB.ModelRow) :
  Service.models_to_cache participants !! k = Some row →
  CacheDB.model_id row = k.
Proof.
  unfold Service.models_to_cache.
  destruct (Service.model_totals participants) as [weights counts].
  rewrite map_lookup_imap. destruct (weights !! k); simpl; [|done].
  by intros [= <-].
Qed.

Lemma insert_rows_of_map (rows : gmap string CacheDB.ModelRow) :
  (∀ k row, rows !! k = Some row → CacheDB.model_id row = k) →
  foldl (λ m row, <[CacheDB.model_id row := row]> m) ∅ (map_to_list rows).*2
  = rows.
Proof.
  intros Hkeys.
  assert (Hids : CacheDB.model_id <$> (map_to_list rows).*2
                 = (map_to_list rows).*1).
  { rewrite <- list_fmap_compose. apply list_fmap_ext.
    intros i [k row] Hin. simpl. apply Hkeys.
    apply elem_of_map_to_list. by eapply list_elem_of_lookup_2. }
  apply map_eq. intros k. rewrite insert_rows_lookup.
  2:{ rewrite Hids. apply NoDup_fst_map_to_list. }
  destruct (List.find _ _) as [row|] eqn:Hfind.
  - apply List.find_some in Hfind as [Hin Heq]. apply String.eqb_eq in Heq.
    apply list_elem_of_In, list_elem_of_fmap in Hin as ([k' row'] & -> & Hin).
    apply elem_of_map_to_list in Hin. simpl in *.
    rewrite <- Heq, (Hkeys _ _ Hin). done.
  - rewrite lookup_empty. symmetry. apply eq_None_not_Some. intros [row Hrow].
    eapply List.find_none in Hfind.
    2:{ apply list_elem_of_In, list_elem_of_fmap. exists (k, row).
        split; [reflexivity|]. by apply elem_of_map_to_list. }
    simpl in Hfind. rewrite (Hkeys _ _ Hrow) in Hfind.
    by rewrite String.eqb_refl in Hfind.
Qed.

Lemma models_response_table clock models_stats models_all epoch_id height
    is_current participants table :
  (Service.models_response clock models_stats models_all epoch_id height
     is_current participants table).2
  = match CacheDB.get_models epoch_id table with
    | Some _ => table
    | None =>
        CacheDB.save_models_batch epoch_id
          (map_to_list (Service.models_to_cache participants)).*2 table
    end.
Proof.
  unfold Service.models_response.
  by destruct (CacheDB.get_models epoch_id table), models_stats, models_all.
Qed.

Lemma models_response_result clock models_stats models_all epoch_id height
    is_current participants table :
  (Service.models_response clock models_stats models_all epoch_id height
     is_current participants table).1
  = match models_stats, models_all with
    | Ok stats_list, Ok models_list =>
        Ok {| Models.mr_epoch_id := epoch_id;
              Models.mr_height := height;
              Models.mr_models :=
                Service.model_info
                  (default (Service.models_to_cache participants)
                     (CacheDB.get_models epoch_id table))
                  <$> models_list;
              Models.stats := stats_list;
              Models.mr_cached_at := utcnow clock;
              Models.mr_is_current := is_current |}
    | Raise e, _ => Raise e
    | Ok _, Raise e => Raise e
    end.
Proof.
  unfold Service.models_response.
  by destruct (CacheDB.get_models epoch_id table), models_stats, models_all.
Qed.

Lemma models_to_cache_non_empty (participants : list Upstream.EpochParticipant) :
  model_entries participants ≠ [] →
  Service.models_to_cache participants ≠ ∅.
Proof.
  intros Hne Hempty.
  destruct (model_entries participants) as [|[index [model entry]] es] eqn:Hes;
    [done|].
  destruct (model_totals_lookup participants model) as [Hweight _].
  cbv zeta in Hweight. unfold entries_of_model in Hweight.
  rewrite Hes in Hweight. cbn [List.filter fst snd] in Hweight.
  rewrite String.eqb_refl in Hweight.
  assert (Hlookup : Service.models_to_cache participants !! model = None)
    by (by rewrite Hempty).
  unfold Service.models_to_cache in Hlookup.
  destruct (Service.model_totals participants) as [weights counts].
  cbn [fst] in Hweight. by rewrite map_lookup_imap, Hweight in Hlookup.
Qed.

Lemma get_models_none epoch_id (table : CacheDB.models_table) :
  CacheDB.get_models epoch_id table = None →
  default ∅ (table !! epoch_id) = ∅.
Proof.
  unfold CacheDB.get_models.
  destruct (table !! epoch_id) as [rows|]; [|done].
  by destruct (decide (rows = ∅)) as [->|];
    [|rewrite bool_decide_eq_false_2 by done].
Qed.


